(** * Fairlx billing guards: a shallow embedding of
      [src/lib/billing-primitives.ts], the billing invariant checker that
      follows it, and [src/lib/alert-evaluation-job.ts].

    Conventions of the embedding.

    - An [async] function that can [throw] returns a value of [Res]: either
      [OK v] (the promise resolves with [v]) or [Throw e] (it rejects with
      [e]).  A [try { .. } catch { .. }] is [try_catch]; around code that
      writes to the store it is [try_catchM], which keeps what was written
      before the throw.
    - The hosted document store is an explicit [World]: one list of
      documents per collection, in the order the store lists them.
      [getDocument] and [updateDocument] reject when no document carries the
      requested [$id]; [listDocuments] filters, reports the number of
      matches as [total] and hands out the first [limit] of them.  The
      store is reachable: [createAdminClient] succeeds, a new document is
      always accepted, and the session and the admin handle see the same
      collections.
    - A JavaScript [Date] is its time value: [Some ms] (milliseconds since
      the epoch) or [None] (an Invalid Date, whose time value is NaN).
      Every [new Date()] of one call reads the same clock value [now].
      How the engine reads a date string is a parameter of the embedding
      ([Runtime]); the calendar arithmetic is that of ECMAScript.
    - JavaScript numbers that carry usage and hours are exact rationals
      ([Q]); time values are integers ([Z]).  The hour thresholds that the
      code compares against (0, 12, 48, 24) are whole numbers of
      milliseconds, so those comparisons come out the same in double
      arithmetic. *)

From Stdlib Require Import List String Ascii Bool ZArith QArith Qabs Qround Qminmax Lia.
From Stdlib Require Import DecimalString.
Import ListNotations.

Local Open Scope string_scope.
Local Open Scope Z_scope.

(* ====================================================================== *)
(** ** Errors and the result monad *)
(* ====================================================================== *)

(** [BillingErrorCode] of billing-primitives.ts. *)
Inductive BillingErrorCode : Type :=
| BILLING_SUSPENDED
| BILLING_DUE
| BILLING_NOT_FOUND
| BILLING_CYCLE_LOCKED
| USAGE_WRITE_BLOCKED.

(** Modelled from the spec: the enum [BillingStatus] of
    [@/features/billing/types], which is imported but not part of the
    sources at hand; section 3 of the specification gives its three
    members. *)
Inductive BillingStatus : Type := ACTIVE | DUE | SUSPENDED.

Definition BillingStatus_eqb (a b : BillingStatus) : bool :=
  match a, b with
  | ACTIVE, ACTIVE | DUE, DUE | SUSPENDED, SUSPENDED => true
  | _, _ => false
  end.

Definition statusName (s : BillingStatus) : string :=
  match s with
  | ACTIVE => "ACTIVE"
  | DUE => "DUE"
  | SUSPENDED => "SUSPENDED"
  end.

(** What a JavaScript [throw] can carry here. *)
Inductive Exn : Type :=
| BillingError (code : BillingErrorCode) (message : string)
               (billingAccountId : option string)
               (billingStatus : option BillingStatus)
| Error (message : string)
| RangeError (message : string)
| StoreError (message : string).

Definition exnMessage (e : Exn) : string :=
  match e with
  | BillingError _ m _ _ => m
  | Error m => m
  | RangeError m => m
  | StoreError m => m
  end.

Inductive Res (A : Type) : Type :=
| OK (a : A)
| Throw (e : Exn).
Arguments OK {A} a.
Arguments Throw {A} e.

Definition bind {A B : Type} (m : Res A) (k : A -> Res B) : Res B :=
  match m with
  | OK a => k a
  | Throw e => Throw e
  end.

Definition try_catch {A : Type} (body : Res A) (handler : Exn -> A) : A :=
  match body with
  | OK a => a
  | Throw e => handler e
  end.

Declare Scope res_scope.
Delimit Scope res_scope with res.
Notation "'let*' x ':=' m 'in' k" := (bind m (fun x => k))
  (at level 61, x name, m at next level, right associativity) : res_scope.
Local Open Scope res_scope.

Definition throws {A : Type} (r : Res A) : Prop := exists e, r = Throw e.
Definition returns {A : Type} (r : Res A) : Prop := exists a, r = OK a.

Definition throwsBilling {A : Type} (r : Res A) (c : BillingErrorCode) : Prop :=
  exists m i s, r = Throw (BillingError c m i s).

(* ====================================================================== *)
(** ** Status transition validation *)
(* ====================================================================== *)

Definition VALID_STATUS_TRANSITIONS (from : BillingStatus) : list BillingStatus :=
  match from with
  | ACTIVE => [DUE]
  | DUE => [ACTIVE; SUSPENDED]
  | SUSPENDED => [ACTIVE]
  end.

(** [Array.prototype.includes] on a list of statuses. *)
Definition includes (l : list BillingStatus) (x : BillingStatus) : bool :=
  existsb (BillingStatus_eqb x) l.

(** [Array.prototype.join]. *)
Fixpoint join (sep : string) (l : list string) : string :=
  match l with
  | [] => ""
  | [x] => x
  | x :: rest => x ++ sep ++ join sep rest
  end.

(** [s || d] on strings: the empty string is falsy. *)
Definition str_or (s d : string) : string :=
  if String.eqb s "" then d else s.

Definition assertValidStatusTransition (from to : BillingStatus) : Res unit :=
  if BillingStatus_eqb from to then OK tt
  else
    let validTargets := VALID_STATUS_TRANSITIONS from in
    if negb (includes validTargets to) then
      Throw (Error
        ("Invalid billing status transition: " ++ statusName from ++ " -> "
           ++ statusName to ++ ". " ++
         "Valid transitions from " ++ statusName from ++ ": "
           ++ str_or (join ", " (map statusName validTargets)) "none"))
    else OK tt.

(** The table of section 4.2 of the specification, written as a relation. *)
Inductive allowedTarget : BillingStatus -> BillingStatus -> Prop :=
| active_due : allowedTarget ACTIVE DUE
| due_active : allowedTarget DUE ACTIVE
| due_suspended : allowedTarget DUE SUSPENDED
| suspended_active : allowedTarget SUSPENDED ACTIVE.

(* ====================================================================== *)
(** ** The JavaScript [Date] runtime *)
(* ====================================================================== *)

(** A [Date] object is its time value; [None] is an Invalid Date. *)
Definition Date : Type := option Z.

(** What the embedding takes from the JavaScript engine: how the [Date]
    constructor reads a string (implementation-defined outside the ISO
    format, [None] when the string is not a date), and the offset of local
    time from UTC in milliseconds (taken as constant). *)
Record Runtime : Type := {
  Date_parse : string -> Date;
  LocalTZA : Z
}.

Definition msPerDay : Z := 86400000.
Definition msPerHour : Z := 3600000.
Definition msPerMinute : Z := 60000.
Definition msPerSecond : Z := 1000.

(** ECMAScript [Day] and [TimeWithinDay]. *)
Definition Day (t : Z) : Z := t / msPerDay.
Definition TimeWithinDay (t : Z) : Z := t mod msPerDay.

(** Day number (days since 1970-01-01) of the first day of month [m]
    (1..12) of year [y] plus [d - 1], in the proleptic Gregorian calendar. *)
Definition days_from_civil (y m d : Z) : Z :=
  let y' := if m <=? 2 then y - 1 else y in
  let era := y' / 400 in
  let yoe := y' - era * 400 in
  let mp := (m + 9) mod 12 in
  let doy := (153 * mp + 2) / 5 + d - 1 in
  let doe := yoe * 365 + yoe / 4 - yoe / 100 + doy in
  era * 146097 + doe - 719468.

(** Year, month (1..12) and day of month of a day number. *)
Definition civil_from_days (z : Z) : Z * Z * Z :=
  let z' := z + 719468 in
  let era := z' / 146097 in
  let doe := z' - era * 146097 in
  let yoe := (doe - doe / 1460 + doe / 36524 - doe / 146096) / 365 in
  let doy := doe - (365 * yoe + yoe / 4 - yoe / 100) in
  let mp := (5 * doy + 2) / 153 in
  let d := doy - (153 * mp + 2) / 5 + 1 in
  let m := if mp <? 10 then mp + 3 else mp - 9 in
  ((if m <=? 2 then yoe + era * 400 + 1 else yoe + era * 400), m, d).

(** ECMAScript [YearFromTime], [MonthFromTime] (0..11), [DateFromTime]. *)
Definition YearFromTime (t : Z) : Z := fst (fst (civil_from_days (Day t))).
Definition MonthFromTime (t : Z) : Z := snd (fst (civil_from_days (Day t))) - 1.
Definition DateFromTime (t : Z) : Z := snd (civil_from_days (Day t)).
Definition HourFromTime (t : Z) : Z := (t / msPerHour) mod 24.
Definition MinFromTime (t : Z) : Z := (t / msPerMinute) mod 60.
Definition SecFromTime (t : Z) : Z := (t / msPerSecond) mod 60.
Definition msFromTime (t : Z) : Z := t mod msPerSecond.

(** ECMAScript [MakeDay]: months outside 0..11 carry into the year, and the
    day of month is an offset from the first of the month. *)
Definition MakeDay (year month date : Z) : Z :=
  days_from_civil (year + month / 12) (month mod 12 + 1) 1 + date - 1.

Definition MakeDate (day time : Z) : Z := day * msPerDay + time.

(** ECMAScript [TimeClip]. *)
Definition TimeClip (t : Z) : Date :=
  if Z.abs t <=? 8640000000000000 then Some t else None.

Definition LocalTime (rt : Runtime) (t : Z) : Z := t + LocalTZA rt.
Definition UTC (rt : Runtime) (t : Z) : Z := t - LocalTZA rt.

(** [new Date(year, month, date)]: local midnight of that day. *)
Definition Date_of_fields (rt : Runtime) (year month date : Z) : Date :=
  let yr := if (0 <=? year) && (year <=? 99) then 1900 + year else year in
  TimeClip (UTC rt (MakeDate (MakeDay yr month date) 0)).

Definition getFullYear (rt : Runtime) (t : Z) : Z := YearFromTime (LocalTime rt t).
Definition getMonth (rt : Runtime) (t : Z) : Z := MonthFromTime (LocalTime rt t).

(** [d.setMonth(month)]: an Invalid Date stays invalid. *)
Definition setMonth (rt : Runtime) (d : Date) (month : Z) : Date :=
  match d with
  | None => None
  | Some t =>
      let lt := LocalTime rt t in
      TimeClip (UTC rt (MakeDate (MakeDay (YearFromTime lt) month (DateFromTime lt))
                                 (TimeWithinDay lt)))
  end.

(** [k] decimal digits of [n], most significant first. *)
Fixpoint zdigits (k : nat) (n : Z) : string :=
  match k with
  | O => ""
  | S k' => zdigits k' (n / 10)
              ++ String (ascii_of_nat (48 + Z.to_nat (n mod 10))) ""
  end.

(** The ISO string of a time value: [YYYY-MM-DDTHH:mm:ss.sssZ], with a
    signed six-digit year outside 0..9999. *)
Definition isoString (t : Z) : string :=
  let y := YearFromTime t in
  let year :=
    if (0 <=? y) && (y <=? 9999) then zdigits 4 y
    else if y <? 0 then "-" ++ zdigits 6 (- y)
    else "+" ++ zdigits 6 y in
  year ++ "-" ++ zdigits 2 (MonthFromTime t + 1) ++ "-" ++ zdigits 2 (DateFromTime t)
    ++ "T" ++ zdigits 2 (HourFromTime t) ++ ":" ++ zdigits 2 (MinFromTime t)
    ++ ":" ++ zdigits 2 (SecFromTime t) ++ "." ++ zdigits 3 (msFromTime t) ++ "Z".

(** [d.toISOString()]: a RangeError on an Invalid Date. *)
Definition toISOString (d : Date) : Res string :=
  match d with
  | Some t => OK (isoString t)
  | None => Throw (RangeError "Invalid time value")
  end.

(** [a < b] and [a > b] on [Date] objects: a comparison with NaN is false. *)
Definition Date_lt (a b : Date) : bool :=
  match a, b with
  | Some x, Some y => x <? y
  | _, _ => false
  end.
Definition Date_gt (a b : Date) : bool := Date_lt b a.

(** *** A concrete runtime: a server in UTC reading ISO strings *)

Definition digit (c : ascii) : option Z :=
  let n := nat_of_ascii c in
  if ((48 <=? n) && (n <=? 57))%nat then Some (Z.of_nat (n - 48)) else None.

Fixpoint number_aux (acc : Z) (s : string) : option Z :=
  match s with
  | EmptyString => Some acc
  | String c r =>
      match digit c with
      | Some d => number_aux (acc * 10 + d) r
      | None => None
      end
  end.

Definition number (s : string) : option Z :=
  match s with
  | EmptyString => None
  | _ => number_aux 0 s
  end.

Definition is_at (n : nat) (c : string) (s : string) : bool :=
  String.eqb (substring n 1 s) c.

(** The day [y-m-d] at midnight UTC when it is a date of the calendar. *)
Definition parse_day (s : string) : Date :=
  match number (substring 0 4 s), number (substring 5 2 s), number (substring 8 2 s) with
  | Some y, Some m, Some d =>
      if is_at 4 "-" s && is_at 7 "-" s
         && (1 <=? m) && (m <=? 12) && (1 <=? d)
         && (let '(_, m', d') := civil_from_days (days_from_civil y m d) in
             (m' =? m) && (d' =? d))
      then Some (days_from_civil y m d * msPerDay)
      else None
  | _, _, _ => None
  end.

Definition parse_clock (s : string) : option Z :=
  match number (substring 11 2 s), number (substring 14 2 s), number (substring 17 2 s) with
  | Some h, Some mi, Some sec =>
      if is_at 10 "T" s && is_at 13 ":" s && is_at 16 ":" s
         && (h <=? 23) && (mi <=? 59) && (sec <=? 59)
      then Some (h * msPerHour + mi * msPerMinute + sec * msPerSecond)
      else None
  | _, _, _ => None
  end.

(** Reads [YYYY-MM-DD], [YYYY-MM-DDTHH:mm:ssZ] and [YYYY-MM-DDTHH:mm:ss.sssZ]
    (all three UTC); every other string is an Invalid Date. *)
Definition parse_iso (s : string) : Date :=
  match String.length s with
  | 10%nat => parse_day s
  | 20%nat =>
      match parse_day s, parse_clock s with
      | Some d, Some c => if is_at 19 "Z" s then Some (d + c) else None
      | _, _ => None
      end
  | 24%nat =>
      match parse_day s, parse_clock s, number (substring 20 3 s) with
      | Some d, Some c, Some ms =>
          if is_at 19 "." s && is_at 23 "Z" s then Some (d + c + ms) else None
      | _, _, _ => None
      end
  | _ => None
  end.

Definition iso_runtime : Runtime :=
  {| Date_parse := parse_iso; LocalTZA := 0 |}.

(* ====================================================================== *)
(** ** Documents and the store *)
(* ====================================================================== *)

(** Modelled from the spec: [BillingAccountType] and the fields of
    [BillingAccount] that the guards read, from [@/features/billing/types]
    (imported, not part of the sources at hand) as section 3 of the
    specification lists them. *)
Inductive BillingAccountType : Type := PERSONAL | ORG.

Record BillingAccount : Type := {
  acct_id : string;                          (* $id *)
  acct_type : BillingAccountType;            (* type *)
  acct_userId : option string;               (* userId *)
  acct_organizationId : option string;       (* organizationId *)
  billingStatus : BillingStatus;
  billingCycleStart : string;
  billingCycleEnd : string;
  isBillingCycleLocked : bool;
  billingCycleLockedAt : option string;
  gracePeriodEnd : option string
}.

(** A workspace document, as [getBillingAccount] reads it. *)
Record Workspace : Type := {
  ws_id : string;
  ws_organizationId : option string;
  ws_userId : option string
}.

(** Modelled from the spec: [ResourceType], [UsageEvent] and [UsageAlert] of
    [@/features/usage/types] (imported, not part of the sources at hand),
    with the fields section 3 of the specification lists. *)
Inductive ResourceType : Type := TRAFFIC | STORAGE | COMPUTE.

Record UsageEvent : Type := {
  ev_id : string;
  ev_workspaceId : string;
  ev_resourceType : ResourceType;
  units : Q;
  weightedUnits : option Q;
  ev_timestamp : string
}.

Inductive AlertType : Type := in_app | webhook | email.

Record UsageAlert : Type := {
  alert_id : string;
  alert_workspaceId : string;
  alert_resourceType : ResourceType;
  threshold : Q;
  alertType : AlertType;
  webhookUrl : option string;
  isEnabled : bool;
  lastTriggeredAt : option string
}.

(** A usage aggregation document, as the reconciliation check reads it. *)
Record UsageAggregation : Type := {
  agg_id : string;
  agg_workspaceId : string;
  period : string;
  trafficTotalGB : Q;
  storageAvgGB : Q;
  computeTotalUnits : Q;
  isFinalized : bool
}.

(** The in-app notification record of [sendInAppNotification]; title and
    message are kept as the values they are formatted from. *)
Record Notification : Type := {
  notif_workspaceId : string;
  notif_resourceType : ResourceType;
  notif_currentUsage : Q;
  notif_threshold : Q;
  notif_createdAt : string
}.

(** The JSON body of one webhook POST, with the URL it went to. *)
Record WebhookPost : Type := {
  post_url : string;
  post_alertId : string;
  post_workspaceId : string;
  post_resourceType : ResourceType;
  post_threshold : Q;
  post_currentUsage : Q;
  post_triggeredAt : string
}.

(** The collections of the document store, the webhook endpoints
    ([webhook_ok url] is whether a POST to [url] is answered with a 2xx
    status) and the POSTs made so far. *)
Record World : Type := {
  billing_accounts : list BillingAccount;
  workspaces : list Workspace;
  usage_events : list UsageEvent;
  usage_aggregations : list UsageAggregation;
  usage_alerts : list UsageAlert;
  notifications : list Notification;
  webhook_ok : string -> bool;
  webhook_posts : list WebhookPost
}.

Definition set_billing_accounts (w : World) (l : list BillingAccount) : World :=
  {| billing_accounts := l; workspaces := workspaces w;
     usage_events := usage_events w; usage_aggregations := usage_aggregations w;
     usage_alerts := usage_alerts w; notifications := notifications w;
     webhook_ok := webhook_ok w; webhook_posts := webhook_posts w |}.

Definition set_usage_alerts (w : World) (l : list UsageAlert) : World :=
  {| billing_accounts := billing_accounts w; workspaces := workspaces w;
     usage_events := usage_events w; usage_aggregations := usage_aggregations w;
     usage_alerts := l; notifications := notifications w;
     webhook_ok := webhook_ok w; webhook_posts := webhook_posts w |}.

Definition add_notification (w : World) (n : Notification) : World :=
  {| billing_accounts := billing_accounts w; workspaces := workspaces w;
     usage_events := usage_events w; usage_aggregations := usage_aggregations w;
     usage_alerts := usage_alerts w; notifications := (notifications w ++ [n])%list;
     webhook_ok := webhook_ok w; webhook_posts := webhook_posts w |}.

Definition add_webhook_post (w : World) (p : WebhookPost) : World :=
  {| billing_accounts := billing_accounts w; workspaces := workspaces w;
     usage_events := usage_events w; usage_aggregations := usage_aggregations w;
     usage_alerts := usage_alerts w; notifications := notifications w;
     webhook_ok := webhook_ok w; webhook_posts := (webhook_posts w ++ [p])%list |}.

(** Every stored document has an [$id]. *)
Class Document (A : Type) : Type := doc_id : A -> string.

#[export] Instance BillingAccount_doc : Document BillingAccount := acct_id.
#[export] Instance Workspace_doc : Document Workspace := ws_id.
#[export] Instance UsageEvent_doc : Document UsageEvent := ev_id.
#[export] Instance UsageAggregation_doc : Document UsageAggregation := agg_id.
#[export] Instance UsageAlert_doc : Document UsageAlert := alert_id.

Definition has_id {A : Type} `{Document A} (id : string) (d : A) : bool :=
  String.eqb (doc_id d) id.

Definition not_found : Exn :=
  StoreError "Document with the requested ID could not be found.".

(** [databases.getDocument(DATABASE_ID, collection, id)]. *)
Definition getDocument {A : Type} `{Document A} (coll : list A) (id : string) : Res A :=
  match find (has_id id) coll with
  | Some d => OK d
  | None => Throw not_found
  end.

(** [databases.updateDocument(DATABASE_ID, collection, id, patch)]: the
    collection with the patch applied to the document of that id. *)
Definition updateDocument {A : Type} `{Document A}
    (coll : list A) (id : string) (patch : A -> A) : Res (list A) :=
  match find (has_id id) coll with
  | Some _ => OK (map (fun d => if has_id id d then patch d else d) coll)
  | None => Throw not_found
  end.

(** The answer of [databases.listDocuments]: the number of matching
    documents and the page of them that the limit allows. *)
Record DocumentList (A : Type) : Type := {
  total : nat;
  documents : list A
}.
Arguments total {A} _.
Arguments documents {A} _.

(** [databases.listDocuments(DATABASE_ID, collection, [...queries,
    Query.limit(limit)])], the queries being the conjunction [matching]. *)
Definition listDocuments {A : Type} (coll : list A) (matching : A -> bool)
    (limit : N) : DocumentList A :=
  let found := filter matching coll in
  {| total := List.length found; documents := firstn (N.to_nat limit) found |}.

(** [Query.equal(field, value)] on an optional string field. *)
Definition field_equal (field : option string) (value : string) : bool :=
  match field with
  | Some v => String.eqb v value
  | None => false
  end.

(** Truthiness of an optional string: [undefined], [null] and [""] are
    falsy. *)
Definition truthy (s : option string) : bool :=
  match s with
  | Some v => negb (String.eqb v "")
  | None => false
  end.

(** The string behind a truthy optional string. *)
Definition str_of (s : option string) : string :=
  match s with
  | Some v => v
  | None => ""
  end.

Definition BillingAccountType_eqb (a b : BillingAccountType) : bool :=
  match a, b with
  | PERSONAL, PERSONAL | ORG, ORG => true
  | _, _ => false
  end.

(* ====================================================================== *)
(** ** Billing account lookup *)
(* ====================================================================== *)

Record BillingLookupOptions : Type := {
  userId : option string;
  organizationId : option string;
  workspaceId : option string
}.

(** The query of the organisation's billing account. *)
Definition orgAccounts (w : World) (org : string) : DocumentList BillingAccount :=
  listDocuments (billing_accounts w)
    (fun a => field_equal (acct_organizationId a) org
              && BillingAccountType_eqb (acct_type a) ORG) 1%N.

(** The query of a user's personal billing account. *)
Definition personalAccounts (w : World) (user : string) : DocumentList BillingAccount :=
  listDocuments (billing_accounts w)
    (fun a => field_equal (acct_userId a) user
              && BillingAccountType_eqb (acct_type a) PERSONAL) 1%N.

(** [if (accounts.total > 0) return accounts.documents[0];]: [Some r] when
    the function returns [r] there, [None] when control goes on. *)
Definition returnFirst (accounts : DocumentList BillingAccount)
  : option (option BillingAccount) :=
  if (0 <? total accounts)%nat then Some (hd_error (documents accounts)) else None.

(** Priority 1: direct organization lookup. *)
Definition lookupByOrganization (w : World) (options : BillingLookupOptions)
  : option (option BillingAccount) :=
  if truthy (organizationId options)
  then returnFirst (orgAccounts w (str_of (organizationId options)))
  else None.

(** Priority 2: derive from the workspace; a missing workspace throws. *)
Definition lookupByWorkspace (w : World) (options : BillingLookupOptions)
  : Res (option (option BillingAccount)) :=
  if truthy (workspaceId options) then
    let* workspace := getDocument (workspaces w) (str_of (workspaceId options)) in
    if truthy (ws_organizationId workspace)
    then OK (returnFirst (orgAccounts w (str_of (ws_organizationId workspace))))
    else if truthy (ws_userId workspace)
    then OK (returnFirst (personalAccounts w (str_of (ws_userId workspace))))
    else OK None
  else OK None.

(** Priority 3: direct user lookup. *)
Definition lookupByUser (w : World) (options : BillingLookupOptions)
  : option (option BillingAccount) :=
  if truthy (userId options)
  then returnFirst (personalAccounts w (str_of (userId options)))
  else None.

Definition getBillingAccount (w : World) (options : BillingLookupOptions)
  : option BillingAccount :=
  try_catch
    (match lookupByOrganization w options with
     | Some r => OK r
     | None =>
         let* byWorkspace := lookupByWorkspace w options in
         match byWorkspace with
         | Some r => OK r
         | None =>
             match lookupByUser w options with
             | Some r => OK r
             | None => OK None
             end
         end
     end)
    (fun _ => None).

(* ====================================================================== *)
(** ** Billing status assertions *)
(* ====================================================================== *)

Definition suspendedError (account : BillingAccount) : Exn :=
  BillingError BILLING_SUSPENDED
    "Your account has been suspended due to an unpaid invoice. Please update your payment method to restore access."
    (Some (acct_id account)) (Some (billingStatus account)).

Definition dueError (account : BillingAccount) : Exn :=
  BillingError BILLING_DUE
    "Your account has an unpaid invoice. Please pay to avoid service interruption."
    (Some (acct_id account)) (Some (billingStatus account)).

Definition assertBillingActive (w : World) (options : BillingLookupOptions)
  : Res (option BillingAccount) :=
  match getBillingAccount w options with
  | None => OK None
  | Some account =>
      if BillingStatus_eqb (billingStatus account) SUSPENDED
      then Throw (suspendedError account)
      else if BillingStatus_eqb (billingStatus account) DUE
      then Throw (dueError account)
      else OK (Some account)
  end.

Definition assertBillingNotSuspended (w : World) (options : BillingLookupOptions)
  : Res (option BillingAccount) :=
  match getBillingAccount w options with
  | None => OK None
  | Some account =>
      if BillingStatus_eqb (billingStatus account) SUSPENDED
      then Throw (suspendedError account)
      else OK (Some account)
  end.

(* ====================================================================== *)
(** ** Billing cycle locking *)
(* ====================================================================== *)

(** A computation that reads and writes the world and may throw. *)
Definition M (A : Type) : Type := World -> World * Res A.

Definition ret {A : Type} (a : A) : M A := fun w => (w, OK a).

Definition bindM {A B : Type} (m : M A) (k : A -> M B) : M B :=
  fun w =>
    match m w with
    | (w', OK a) => k a w'
    | (w', Throw e) => (w', Throw e)
    end.

(** A read of the world that may throw. *)
Definition reading {A : Type} (f : World -> Res A) : M A := fun w => (w, f w).

(** [try { body } catch (error) { handler }] around a stateful body: what
    the body wrote before it threw stays written. *)
Definition try_catchM {A : Type} (body : M A) (handler : Exn -> M A) : M A :=
  fun w =>
    match body w with
    | (w', OK a) => (w', OK a)
    | (w', Throw e) => handler e w'
    end.

Notation "x <- m ;; k" := (bindM m (fun x => k))
  (at level 61, m at next level, right associativity) : res_scope.

(** [adminDatabases.updateDocument(DATABASE_ID, BILLING_ACCOUNTS_ID, id, patch)]. *)
Definition updateBillingAccount (id : string) (patch : BillingAccount -> BillingAccount)
  : M unit :=
  fun w =>
    match updateDocument (billing_accounts w) id patch with
    | OK l => (set_billing_accounts w l, OK tt)
    | Throw e => (w, Throw e)
    end.

(** The patch [{ isBillingCycleLocked, billingCycleLockedAt }]. *)
Definition with_lock (locked : bool) (lockedAt : option string) (a : BillingAccount)
  : BillingAccount :=
  {| acct_id := acct_id a; acct_type := acct_type a; acct_userId := acct_userId a;
     acct_organizationId := acct_organizationId a; billingStatus := billingStatus a;
     billingCycleStart := billingCycleStart a; billingCycleEnd := billingCycleEnd a;
     isBillingCycleLocked := locked; billingCycleLockedAt := lockedAt;
     gracePeriodEnd := gracePeriodEnd a |}.

Record LockResult : Type := {
  success : bool;
  alreadyLocked : bool;
  lockedAt : option string;
  lock_error : option string
}.

(** [a !== b] for a field that is a string, [null] or [undefined] against a
    string. *)
Definition strict_neq (a : option string) (b : string) : bool :=
  negb (field_equal a b).

(** [lockBillingCycle]; [now] is the clock read by [new Date()].  The
    timing bookkeeping of [logTiming] only builds a value that is dropped. *)
Definition lockBillingCycle (now : Z) (billingAccountId : string)
  : World -> World * Res LockResult :=
  let lockTimestamp := isoString now in
  try_catchM
    ((* Step 1: read current state *)
     account <- reading (fun w => getDocument (billing_accounts w) billingAccountId) ;;
     (* Step 2: already locked *)
     if isBillingCycleLocked account then
       ret {| success := false; alreadyLocked := true;
              lockedAt := billingCycleLockedAt account; lock_error := None |}
     else
       (* Step 3: attempt the lock with our timestamp *)
       _ <- updateBillingAccount billingAccountId (with_lock true (Some lockTimestamp)) ;;
       (* Step 4: read back and compare *)
       verifyAccount <- reading (fun w => getDocument (billing_accounts w) billingAccountId) ;;
       if strict_neq (billingCycleLockedAt verifyAccount) lockTimestamp then
         ret {| success := false; alreadyLocked := true;
                lockedAt := billingCycleLockedAt verifyAccount; lock_error := None |}
       else
         ret {| success := true; alreadyLocked := false;
                lockedAt := Some lockTimestamp; lock_error := None |})
    (fun error =>
       ret {| success := false; alreadyLocked := false;
              lockedAt := None; lock_error := Some (exnMessage error) |}).

Definition unlockBillingCycle (billingAccountId : string) : M bool :=
  try_catchM
    (_ <- updateBillingAccount billingAccountId (with_lock false None) ;;
     ret true)
    (fun _ => ret false).

(* ====================================================================== *)
(** ** Usage write guards *)
(* ====================================================================== *)

Record WriteUsage : Type := {
  account : option BillingAccount;
  allowed : bool
}.

Definition cycleLockedError (a : BillingAccount) : Exn :=
  BillingError BILLING_CYCLE_LOCKED
    "Billing cycle is locked. Late usage will be recorded in the next cycle."
    (Some (acct_id a)) None.

Definition assertCanWriteUsage (w : World) (options : BillingLookupOptions)
  : Res WriteUsage :=
  let* account := assertBillingNotSuspended w options in
  match account with
  | None => OK {| account := None; allowed := true |}
  | Some a =>
      if isBillingCycleLocked a then Throw (cycleLockedError a)
      else OK {| account := Some a; allowed := true |}
  end.

Record Adjusted : Type := {
  timestamp : string;
  wasAdjusted : bool;
  adjustReason : option string
}.

Definition adjustEventForLockedCycle (rt : Runtime) (now : Z)
    (eventTimestamp : string) (account : option BillingAccount) : Res Adjusted :=
  match account with
  | None => OK {| timestamp := eventTimestamp; wasAdjusted := false; adjustReason := None |}
  | Some account =>
      let eventDate := Date_parse rt eventTimestamp in
      let cycleEnd := Date_parse rt (billingCycleEnd account) in
      let cycleStart := Date_parse rt (billingCycleStart account) in
      if isBillingCycleLocked account && Date_lt eventDate cycleStart then
        let* iso := toISOString cycleStart in
        OK {| timestamp := iso; wasAdjusted := true;
              adjustReason := Some ("Late event from " ++ eventTimestamp
                                      ++ " adjusted to cycle start") |}
      else if Date_gt eventDate cycleEnd then
        let* iso := toISOString (Some now) in
        OK {| timestamp := iso; wasAdjusted := true;
              adjustReason := Some ("Future event from " ++ eventTimestamp
                                      ++ " adjusted to now") |}
      else
        OK {| timestamp := eventTimestamp; wasAdjusted := false; adjustReason := None |}
  end.

(* ====================================================================== *)
(** ** Near-suspension warning detection *)
(* ====================================================================== *)

Definition NEAR_SUSPENSION_THRESHOLD_HOURS : Q := 48.

Inductive WarningState : Type :=
| NORMAL
| WARNING
| CRITICAL
| WS_SUSPENDED.   (* "SUSPENDED" *)

(** A JavaScript number that may be NaN. *)
Inductive JSNumber : Type :=
| Finite (q : Q)
| NaN.

(** [x <= q]: false on NaN. *)
Definition num_le (x : JSNumber) (q : Q) : bool :=
  match x with
  | Finite v => Qle_bool v q
  | NaN => false
  end.

(** [Math.max(0, x)]: NaN on NaN. *)
Definition Math_max0 (x : JSNumber) : JSNumber :=
  match x with
  | Finite v => Finite (if Qle_bool v 0 then 0%Q else v)
  | NaN => NaN
  end.

Definition Math_ceil (x : JSNumber) : JSNumber :=
  match x with
  | Finite v => Finite (inject_Z (Qceiling v))
  | NaN => NaN
  end.

(** [gracePeriodEnd.getTime() - now.getTime()) / (1000 * 60 * 60)]. *)
Definition hoursBetween (now : Z) (gracePeriodEnd : Date) : JSNumber :=
  match gracePeriodEnd with
  | Some g => Finite (inject_Z (g - now) / inject_Z (1000 * 60 * 60))
  | None => NaN
  end.

(** [`${Math.ceil(x)}`]. *)
Definition show_ceil (x : JSNumber) : string :=
  match x with
  | Finite v => NilZero.string_of_int (Z.to_int (Qceiling v))
  | NaN => "NaN"
  end.

Record AccountWarningState : Type := {
  state : WarningState;
  hoursRemaining : option JSNumber;
  aws_gracePeriodEnd : option string;
  message : option string
}.

Definition getAccountWarningState (rt : Runtime) (now : Z)
    (account : option BillingAccount) : AccountWarningState :=
  match account with
  | None => {| state := NORMAL; hoursRemaining := None;
               aws_gracePeriodEnd := None; message := None |}
  | Some account =>
      if BillingStatus_eqb (billingStatus account) SUSPENDED then
        {| state := WS_SUSPENDED; hoursRemaining := None; aws_gracePeriodEnd := None;
           message := Some "Your account is suspended. Please update your payment method to restore access." |}
      else if BillingStatus_eqb (billingStatus account) DUE
              && truthy (gracePeriodEnd account) then
        let gracePeriodEndDate := Date_parse rt (str_of (gracePeriodEnd account)) in
        let hours := Math_max0 (hoursBetween now gracePeriodEndDate) in
        if num_le hours 0 then
          {| state := CRITICAL; hoursRemaining := Some (Finite 0);
             aws_gracePeriodEnd := gracePeriodEnd account;
             message := Some "Your grace period has expired. Your account will be suspended shortly." |}
        else if num_le hours 12 then
          {| state := CRITICAL; hoursRemaining := Some (Math_ceil hours);
             aws_gracePeriodEnd := gracePeriodEnd account;
             message := Some ("URGENT: Your account will be suspended in " ++ show_ceil hours
                                ++ " hours. Please pay your invoice immediately.") |}
        else if num_le hours NEAR_SUSPENSION_THRESHOLD_HOURS then
          {| state := WARNING; hoursRemaining := Some (Math_ceil hours);
             aws_gracePeriodEnd := gracePeriodEnd account;
             message := Some ("Your account has an unpaid invoice. You have " ++ show_ceil hours
                                ++ " hours before suspension.") |}
        else
          {| state := WARNING; hoursRemaining := Some (Math_ceil hours);
             aws_gracePeriodEnd := gracePeriodEnd account;
             message := Some "Your account has an unpaid invoice. Please pay to avoid service interruption." |}
      else
        {| state := NORMAL; hoursRemaining := None;
           aws_gracePeriodEnd := None; message := None |}
  end.

Definition shouldShowGlobalWarning (s : AccountWarningState) : bool :=
  match state s with
  | WARNING | CRITICAL | WS_SUSPENDED => true
  | NORMAL => false
  end.

(* ====================================================================== *)
(** ** Usage sums *)
(* ====================================================================== *)

(** The store compares a datetime attribute with the value of a range
    query as instants; a string that is not a date matches no range. *)
Definition datetime_cmp (rt : Runtime) (cmp : Z -> Z -> bool)
    (field value : string) : bool :=
  match Date_parse rt field, Date_parse rt value with
  | Some f, Some v => cmp f v
  | _, _ => false
  end.

(** [Query.greaterThanEqual], [Query.lessThanEqual], [Query.lessThan] on the
    [timestamp] attribute. *)
Definition greaterThanEqual (rt : Runtime) (field value : string) : bool :=
  datetime_cmp rt Z.geb field value.
Definition lessThanEqual (rt : Runtime) (field value : string) : bool :=
  datetime_cmp rt Z.leb field value.
Definition lessThan (rt : Runtime) (field value : string) : bool :=
  datetime_cmp rt Z.ltb field value.

Definition ResourceType_eqb (a b : ResourceType) : bool :=
  match a, b with
  | TRAFFIC, TRAFFIC | STORAGE, STORAGE | COMPUTE, COMPUTE => true
  | _, _ => false
  end.

(** [1024 * 1024 * 1024]. *)
Definition bytesPerGB : Q := inject_Z (1024 * 1024 * 1024).

(** [event.weightedUnits || event.units]: an absent or zero
    [weightedUnits] is falsy. *)
Definition billedUnits (event : UsageEvent) : Q :=
  match weightedUnits event with
  | Some wu => if Qeq_bool wu 0 then units event else wu
  | None => units event
  end.

(** The events that [getCurrentMonthUsage] asks the store for. *)
Definition currentMonthQuery (rt : Runtime) (workspaceId : string)
    (resourceType : ResourceType) (startOfMonth endOfMonth : string)
    (event : UsageEvent) : bool :=
  String.eqb (ev_workspaceId event) workspaceId
  && ResourceType_eqb (ev_resourceType event) resourceType
  && greaterThanEqual rt (ev_timestamp event) startOfMonth
  && lessThanEqual rt (ev_timestamp event) endOfMonth.

Definition getCurrentMonthUsage (rt : Runtime) (now : Z) (w : World)
    (workspaceId : string) (resourceType : ResourceType) : Res Q :=
  let* startOfMonth :=
    toISOString (Date_of_fields rt (getFullYear rt now) (getMonth rt now) 1) in
  let* endOfMonth :=
    toISOString (Date_of_fields rt (getFullYear rt now) (getMonth rt now + 1) 0) in
  let events :=
    listDocuments (usage_events w)
      (currentMonthQuery rt workspaceId resourceType startOfMonth endOfMonth)
      10000%N in
  let total :=
    fold_left
      (fun total event =>
         if ResourceType_eqb resourceType COMPUTE
         then (total + billedUnits event)%Q
         else (total + units event)%Q)
      (documents events) 0%Q in
  if ResourceType_eqb resourceType TRAFFIC || ResourceType_eqb resourceType STORAGE
  then OK (total / bytesPerGB)%Q
  else OK total.

(* ====================================================================== *)
(** ** Aggregation reconciliation *)
(* ====================================================================== *)

Record Diff : Type := {
  trafficGB : Q;
  storageGB : Q;
  diff_computeUnits : Q
}.

Record MatchResult : Type := {
  matches : bool;
  diff : option Diff
}.

(** [x || 1] on a number: zero is falsy. *)
Definition or_one (x : Q) : Q := if Qeq_bool x 0 then 1%Q else x.

(** The three running sums of the reconciliation loop. *)
Record Totals : Type := {
  trafficBytes : Q;
  storageBytes : Q;
  computeUnits : Q
}.

(** One turn of [for (const event of events.documents) switch (event.resourceType)]. *)
Definition addEvent (t : Totals) (event : UsageEvent) : Totals :=
  match ev_resourceType event with
  | TRAFFIC => {| trafficBytes := trafficBytes t + units event;
                  storageBytes := storageBytes t; computeUnits := computeUnits t |}
  | STORAGE => {| trafficBytes := trafficBytes t;
                  storageBytes := storageBytes t + units event;
                  computeUnits := computeUnits t |}
  | COMPUTE => {| trafficBytes := trafficBytes t; storageBytes := storageBytes t;
                  computeUnits := computeUnits t + billedUnits event |}
  end%Q.

Definition zeroTotals : Totals :=
  {| trafficBytes := 0; storageBytes := 0; computeUnits := 0 |}%Q.

(** The events of the aggregation's workspace from [startOfMonth] up to,
    not including, [endOfMonth]. *)
Definition periodQuery (rt : Runtime) (workspaceId startOfMonth endOfMonth : string)
    (event : UsageEvent) : bool :=
  String.eqb (ev_workspaceId event) workspaceId
  && greaterThanEqual rt (ev_timestamp event) startOfMonth
  && lessThan rt (ev_timestamp event) endOfMonth.

(** [nextMonth.setMonth(nextMonth.getMonth() + 1)]. *)
Definition plusOneMonth (rt : Runtime) (d : Date) : Date :=
  match d with
  | Some t => setMonth rt d (getMonth rt t + 1)
  | None => None
  end.

(** The comparison of the stored aggregation with the recomputed sums. *)
Definition compareTotals (aggregation : UsageAggregation) (t : Totals)
    (tolerancePercent : Q) : MatchResult :=
  let expectedTrafficGB := (trafficBytes t / bytesPerGB)%Q in
  let expectedStorageGB := (storageBytes t / bytesPerGB)%Q in
  let diff :=
    {| trafficGB := Qabs (trafficTotalGB aggregation - expectedTrafficGB);
       storageGB := Qabs (storageAvgGB aggregation - expectedStorageGB);
       diff_computeUnits := Qabs (computeTotalUnits aggregation - computeUnits t) |} in
  let maxTrafficDiff := (or_one (trafficTotalGB aggregation) * tolerancePercent)%Q in
  let maxStorageDiff := (or_one (storageAvgGB aggregation) * tolerancePercent)%Q in
  let maxComputeDiff := (or_one (computeTotalUnits aggregation) * tolerancePercent)%Q in
  let matches :=
    Qle_bool (trafficGB diff) maxTrafficDiff
    && Qle_bool (storageGB diff) maxStorageDiff
    && Qle_bool (diff_computeUnits diff) maxComputeDiff in
  {| matches := matches; diff := Some diff |}.

Definition assertAggregationMatchesEvents (rt : Runtime) (w : World)
    (aggregationId : string) (tolerancePercent : Q) : MatchResult :=
  try_catch
    (let* aggregation := getDocument (usage_aggregations w) aggregationId in
     let period := period aggregation in
     let workspaceId := agg_workspaceId aggregation in
     let startOfMonth := period ++ "-01T00:00:00.000Z" in
     let nextMonth := plusOneMonth rt (Date_parse rt (period ++ "-01")) in
     let* endOfMonth := toISOString nextMonth in
     let events :=
       listDocuments (usage_events w)
         (periodQuery rt workspaceId startOfMonth endOfMonth) 10000%N in
     let totals := fold_left addEvent (documents events) zeroTotals in
     OK (compareTotals aggregation totals tolerancePercent))
    (fun _ => {| matches := false; diff := None |}).

(** The default of the [tolerancePercent] parameter, [0.01]. *)
Definition defaultTolerance : Q := 1 # 100.

(* ====================================================================== *)
(** ** Alert evaluation job *)
(* ====================================================================== *)

Record AlertEvaluationResult : Type := {
  alertId : string;
  res_workspaceId : string;
  res_resourceType : ResourceType;
  res_threshold : Q;
  currentUsage : Q;
  triggered : bool;
  notificationSent : bool;
  result_error : option string
}.

Definition set_currentUsage (r : AlertEvaluationResult) (u : Q) : AlertEvaluationResult :=
  {| alertId := alertId r; res_workspaceId := res_workspaceId r;
     res_resourceType := res_resourceType r; res_threshold := res_threshold r;
     currentUsage := u; triggered := triggered r;
     notificationSent := notificationSent r; result_error := result_error r |}.

Definition set_triggered (r : AlertEvaluationResult) (b : bool) : AlertEvaluationResult :=
  {| alertId := alertId r; res_workspaceId := res_workspaceId r;
     res_resourceType := res_resourceType r; res_threshold := res_threshold r;
     currentUsage := currentUsage r; triggered := b;
     notificationSent := notificationSent r; result_error := result_error r |}.

Definition set_notificationSent (r : AlertEvaluationResult) (b : bool)
  : AlertEvaluationResult :=
  {| alertId := alertId r; res_workspaceId := res_workspaceId r;
     res_resourceType := res_resourceType r; res_threshold := res_threshold r;
     currentUsage := currentUsage r; triggered := triggered r;
     notificationSent := b; result_error := result_error r |}.

Definition set_error (r : AlertEvaluationResult) (e : string) : AlertEvaluationResult :=
  {| alertId := alertId r; res_workspaceId := res_workspaceId r;
     res_resourceType := res_resourceType r; res_threshold := res_threshold r;
     currentUsage := currentUsage r; triggered := triggered r;
     notificationSent := notificationSent r; result_error := Some e |}.

(** [sendInAppNotification]: the store takes the new notification. *)
Definition sendInAppNotification (now : Z) (workspaceId : string)
    (alert : UsageAlert) (currentUsage : Q) : World -> World * bool :=
  fun w =>
    (add_notification w
       {| notif_workspaceId := workspaceId;
          notif_resourceType := alert_resourceType alert;
          notif_currentUsage := currentUsage;
          notif_threshold := threshold alert;
          notif_createdAt := isoString now |},
     true).

(** [sendWebhookNotification]: without a URL nothing is sent; otherwise the
    POST is made and the answer of the endpoint decides. *)
Definition sendWebhookNotification (now : Z) (alert : UsageAlert) (currentUsage : Q)
  : World -> World * bool :=
  fun w =>
    if negb (truthy (webhookUrl alert)) then (w, false)
    else
      let url := str_of (webhookUrl alert) in
      (add_webhook_post w
         {| post_url := url; post_alertId := alert_id alert;
            post_workspaceId := alert_workspaceId alert;
            post_resourceType := alert_resourceType alert;
            post_threshold := threshold alert;
            post_currentUsage := currentUsage;
            post_triggeredAt := isoString now |},
       webhook_ok w url).

(** The patch [{ lastTriggeredAt }]. *)
Definition with_lastTriggeredAt (t : string) (a : UsageAlert) : UsageAlert :=
  {| alert_id := alert_id a; alert_workspaceId := alert_workspaceId a;
     alert_resourceType := alert_resourceType a; threshold := threshold a;
     alertType := alertType a; webhookUrl := webhookUrl a;
     isEnabled := isEnabled a; lastTriggeredAt := Some t |}.

(** [{ workspaceId: alert.workspaceId }]. *)
Definition workspaceLookup (workspaceId : string) : BillingLookupOptions :=
  {| userId := None; organizationId := None; workspaceId := Some workspaceId |}.

Definition isSuspended (account : option BillingAccount) : bool :=
  match account with
  | Some a => BillingStatus_eqb (billingStatus a) SUSPENDED
  | None => false
  end.

(** [evaluateAlert]: the [result] object is filled in step by step, and
    the [catch] adds the error to what has been filled in so far. *)
Definition evaluateAlert (rt : Runtime) (now : Z) (alert : UsageAlert)
  : World -> World * AlertEvaluationResult :=
  fun w =>
    let result :=
      {| alertId := alert_id alert; res_workspaceId := alert_workspaceId alert;
         res_resourceType := alert_resourceType alert; res_threshold := threshold alert;
         currentUsage := 0; triggered := false; notificationSent := false;
         result_error := None |} in
    let account := getBillingAccount w (workspaceLookup (alert_workspaceId alert)) in
    if isSuspended account then
      (w, set_error result "Account suspended - skipping alert evaluation")
    else
      match getCurrentMonthUsage rt now w (alert_workspaceId alert)
              (alert_resourceType alert) with
      | Throw error => (w, set_error result (exnMessage error))
      | OK usage =>
          let result := set_currentUsage result usage in
          if Qle_bool (threshold alert) usage then
            let result := set_triggered result true in
            let '(w, sent) :=
              match alertType alert with
              | in_app => sendInAppNotification now (alert_workspaceId alert) alert usage w
              | webhook => sendWebhookNotification now alert usage w
              | email => sendInAppNotification now (alert_workspaceId alert) alert usage w
              end in
            let result := set_notificationSent result sent in
            if sent then
              match updateDocument (usage_alerts w) (alert_id alert)
                      (with_lastTriggeredAt (isoString now)) with
              | OK l => (set_usage_alerts w l, result)
              | Throw error => (w, set_error result (exnMessage error))
              end
            else (w, result)
          else (w, result)
      end.

(** The cooldown test of [evaluateAllAlerts]: triggered less than 24 hours
    ago. *)
Definition recentlyTriggered (rt : Runtime) (now : Z) (alert : UsageAlert) : bool :=
  truthy (lastTriggeredAt alert)
  && match Date_parse rt (str_of (lastTriggeredAt alert)) with
     | Some t => negb (Qle_bool 24 (inject_Z (now - t) / inject_Z (1000 * 60 * 60)))
     | None => false
     end.

Definition evaluateAllAlerts (rt : Runtime) (now : Z)
  : World -> World * list AlertEvaluationResult :=
  fun w =>
    let alerts := listDocuments (usage_alerts w) isEnabled 1000%N in
    fold_left
      (fun '(w, results) alert =>
         if recentlyTriggered rt now alert then (w, results)
         else
           let '(w, result) := evaluateAlert rt now alert w in
           (w, (results ++ [result])%list))
      (documents alerts) (w, []).

(* ====================================================================== *)
(** ** Sample data *)
(* ====================================================================== *)

(** An organisation account in its January 2024 cycle. *)
Definition sampleAccount : BillingAccount :=
  {| acct_id := "acct-1"; acct_type := ORG; acct_userId := None;
     acct_organizationId := Some "org-1"; billingStatus := ACTIVE;
     billingCycleStart := "2024-01-01"; billingCycleEnd := "2024-01-31";
     isBillingCycleLocked := false; billingCycleLockedAt := None;
     gracePeriodEnd := None |}.

Definition with_status (s : BillingStatus) (grace : option string) (a : BillingAccount)
  : BillingAccount :=
  {| acct_id := acct_id a; acct_type := acct_type a; acct_userId := acct_userId a;
     acct_organizationId := acct_organizationId a; billingStatus := s;
     billingCycleStart := billingCycleStart a; billingCycleEnd := billingCycleEnd a;
     isBillingCycleLocked := isBillingCycleLocked a;
     billingCycleLockedAt := billingCycleLockedAt a;
     gracePeriodEnd := grace |}.

Definition sampleWorkspace : Workspace :=
  {| ws_id := "ws-1"; ws_organizationId := Some "org-1"; ws_userId := None |}.

(** A world holding one billing account, its workspace and some events. *)
Definition sampleWorld (a : BillingAccount) (events : list UsageEvent)
    (aggregations : list UsageAggregation) : World :=
  {| billing_accounts := [a]; workspaces := [sampleWorkspace];
     usage_events := events; usage_aggregations := aggregations;
     usage_alerts := []; notifications := [];
     webhook_ok := fun _ => true; webhook_posts := [] |}.

Definition sampleEvent (id : string) (ty : ResourceType) (u : Q) (at_ : string)
  : UsageEvent :=
  {| ev_id := id; ev_workspaceId := "ws-1"; ev_resourceType := ty;
     units := u; weightedUnits := None; ev_timestamp := at_ |}.

Definition sampleAggregation (traffic : Q) : UsageAggregation :=
  {| agg_id := "agg-1"; agg_workspaceId := "ws-1"; period := "2024-01";
     trafficTotalGB := traffic; storageAvgGB := 0; computeTotalUnits := 0;
     isFinalized := true |}.

Definition byOrganization : BillingLookupOptions :=
  {| userId := None; organizationId := Some "org-1"; workspaceId := None |}.

(** 2024-01-15T12:00:00.000Z. *)
Definition midJanuary : Z := 1705320000000.

(* ====================================================================== *)
(** ** Vocabulary of the properties *)
(* ====================================================================== *)

(** The timestamp [s1] denotes an instant before that of [s2]. *)
Definition isBefore (rt : Runtime) (s1 s2 : string) : Prop :=
  exists a b, Date_parse rt s1 = Some a /\ Date_parse rt s2 = Some b /\ a < b.

(** The sample account with its cycle locked. *)
Definition lockedAccount : BillingAccount :=
  with_lock true (Some "2024-02-01T00:00:05.000Z") sampleAccount.

(** The sum of a list of numbers. *)
Definition sumQ (l : list Q) : Q := fold_right Qplus 0%Q l.



(** The raw usage events of an aggregation's workspace and period, in store
    order: from the first instant of the month [period] up to, not
    including, the instant one month later.  [None] when the runtime cannot
    date the period. *)
Definition periodEvents (rt : Runtime) (w : World) (aggregation : UsageAggregation)
  : option (list UsageEvent) :=
  match plusOneMonth rt (Date_parse rt (period aggregation ++ "-01")) with
  | Some nextMonth =>
      Some (filter (periodQuery rt (agg_workspaceId aggregation)
                      (period aggregation ++ "-01T00:00:00.000Z")
                      (isoString nextMonth))
                   (usage_events w))
  | None => None
  end.



(** One traffic event of [bytes] bytes on 10 January 2024 against an
    aggregation that stores [traffic] GiB (and no storage or compute). *)
Definition trafficWorld (bytes traffic : Q) : World :=
  sampleWorld sampleAccount
    [sampleEvent "ev-1" TRAFFIC bytes "2024-01-10T00:00:00.000Z"]
    [sampleAggregation traffic].

(** The timestamp lies in the calendar month (local time) of the clock
    reading [now]. *)
Definition inCurrentMonth (rt : Runtime) (now : Z) (timestamp : string) : bool :=
  match Date_parse rt timestamp with
  | Some t => (getFullYear rt t =? getFullYear rt now)
              && (getMonth rt t =? getMonth rt now)
  | None => false
  end.

(** [weightedUnits] when present, else [units]. *)
Definition weightedOrUnits (event : UsageEvent) : Q :=
  match weightedUnits event with
  | Some wu => wu
  | None => units event
  end.

(** The current month's usage of a workspace and resource type, summed
    over all of the month's events. *)
Definition currentMonthEvents (rt : Runtime) (now : Z) (w : World)
    (workspaceId : string) (resourceType : ResourceType) : list UsageEvent :=
  filter (fun e => String.eqb (ev_workspaceId e) workspaceId
                   && ResourceType_eqb (ev_resourceType e) resourceType
                   && inCurrentMonth rt now (ev_timestamp e))
         (usage_events w).

Definition monthUsage (rt : Runtime) (now : Z) (w : World)
    (workspaceId : string) (resourceType : ResourceType) : Q :=
  let events := currentMonthEvents rt now w workspaceId resourceType in
  match resourceType with
  | COMPUTE => sumQ (map weightedOrUnits events)
  | TRAFFIC | STORAGE => (sumQ (map units events) / bytesPerGB)%Q
  end.

(** Five compute units used at the given time. *)
Definition computeWorld (a : BillingAccount) (at_ : string) (alerts : list UsageAlert)
  : World :=
  {| billing_accounts := [a]; workspaces := [sampleWorkspace];
     usage_events := [sampleEvent "ev-1" COMPUTE 5 at_];
     usage_aggregations := []; usage_alerts := alerts; notifications := [];
     webhook_ok := fun _ => true; webhook_posts := [] |}.

(** An in-app alert at one compute unit. *)
Definition sampleAlert : UsageAlert :=
  {| alert_id := "alert-1"; alert_workspaceId := "ws-1";
     alert_resourceType := COMPUTE; threshold := 1; alertType := in_app;
     webhookUrl := None; isEnabled := true; lastTriggeredAt := None |}.

(* ====================================================================== *)
(** ** More of billing-primitives.ts *)
(* ====================================================================== *)

(** The function [isBillingCycleLocked(_databases, billingAccountId)] (the
    record field of the same name keeps the name): the flag of the stored
    account, [false] when the read fails. *)
Definition isBillingCycleLockedById (w : World) (billingAccountId : string) : bool :=
  try_catch
    (let* account := getDocument (billing_accounts w) billingAccountId in
     OK (Bool.eqb (isBillingCycleLocked account) true))
    (fun _ => false).

(** Steps 3 and 4 of [lockBillingCycle], each one request to the store. *)
Definition lockWrite (now : Z) (billingAccountId : string) : M unit :=
  updateBillingAccount billingAccountId (with_lock true (Some (isoString now))).

Definition lockVerify (now : Z) (billingAccountId : string) : M LockResult :=
  verifyAccount <- reading (fun w => getDocument (billing_accounts w) billingAccountId) ;;
  if strict_neq (billingCycleLockedAt verifyAccount) (isoString now) then
    ret {| success := false; alreadyLocked := true;
           lockedAt := billingCycleLockedAt verifyAccount; lock_error := None |}
  else
    ret {| success := true; alreadyLocked := false;
           lockedAt := Some (isoString now); lock_error := None |}.

(** What [updateDocument] makes of one document. *)
Definition patched {A : Type} `{Document A} (id : string) (patch : A -> A) (d : A) : A :=
  if has_id id d then patch d else d.

(** A billing account with its two lock fields cleared. *)
Definition withoutLock (a : BillingAccount) : BillingAccount := with_lock false None a.

(** A chain of status changes, each one accepted by
    [assertValidStatusTransition]. *)
Fixpoint legalPath (from : BillingStatus) (path : list BillingStatus) : Prop :=
  match path with
  | [] => True
  | to :: rest => assertValidStatusTransition from to = OK tt /\ legalPath to rest
  end.

(** The query of [orgAccounts] and of [personalAccounts]. *)
Definition isOrgAccountOf (org : string) (a : BillingAccount) : bool :=
  field_equal (acct_organizationId a) org && BillingAccountType_eqb (acct_type a) ORG.

Definition isPersonalAccountOf (user : string) (a : BillingAccount) : bool :=
  field_equal (acct_userId a) user && BillingAccountType_eqb (acct_type a) PERSONAL.

(** A personal account of user-1 next to the sample organisation's. *)
Definition personalAccount : BillingAccount :=
  {| acct_id := "acct-2"; acct_type := PERSONAL; acct_userId := Some "user-1";
     acct_organizationId := None; billingStatus := ACTIVE;
     billingCycleStart := "2024-01-01"; billingCycleEnd := "2024-01-31";
     isBillingCycleLocked := false; billingCycleLockedAt := None;
     gracePeriodEnd := None |}.

Definition twoAccountWorld : World :=
  {| billing_accounts := [personalAccount; sampleAccount];
     workspaces := [sampleWorkspace];
     usage_events := []; usage_aggregations := []; usage_alerts := [];
     notifications := []; webhook_ok := fun _ => true; webhook_posts := [] |}.

(** The world once [updateDocument] has patched the billing account [id]. *)
Definition withPatchedAccount (id : string) (patch : BillingAccount -> BillingAccount)
    (w : World) : World :=
  set_billing_accounts w (map (patched id patch) (billing_accounts w)).

(** The result [{success: true, alreadyLocked: false, lockedAt}]. *)
Definition lockAcquired (lockTimestamp : string) : LockResult :=
  {| success := true; alreadyLocked := false;
     lockedAt := Some lockTimestamp; lock_error := None |}.

(* ====================================================================== *)
(** ** The billing invariant checker *)
(* ====================================================================== *)

(** [InvariantViolationError]: the invariant's name and the message that
    the constructor builds.  The [context] record, free-form diagnostics,
    is left out. *)
Record InvariantViolationError : Type := {
  invariant : string;
  violation_message : string
}.

(** [new InvariantViolationError(invariant, message, context)]. *)
Definition newViolation (invariant message : string) : InvariantViolationError :=
  {| invariant := invariant;
     violation_message := "INVARIANT VIOLATION [" ++ invariant ++ "]: " ++ message |}.

(** What the checker's functions can throw: an [InvariantViolationError]
    ([error instanceof InvariantViolationError]) or anything else. *)
Inductive Thrown : Type :=
| Violation (v : InvariantViolationError)
| Other (e : Exn).

Inductive Outcome (A : Type) : Type :=
| Done (a : A)
| Raised (t : Thrown).
Arguments Done {A} a.
Arguments Raised {A} t.

Definition bindO {A B : Type} (m : Outcome A) (k : A -> Outcome B) : Outcome B :=
  match m with
  | Done a => k a
  | Raised t => Raised t
  end.

Definition catchO {A : Type} (body : Outcome A) (handler : Thrown -> Outcome A)
  : Outcome A :=
  match body with
  | Done a => Done a
  | Raised t => handler t
  end.

(** A store request made from the checker. *)
Definition request {A : Type} (r : Res A) : Outcome A :=
  match r with
  | OK a => Done a
  | Throw e => Raised (Other e)
  end.

Notation "'do' x '<-' m ';' k" := (bindO m (fun x => k))
  (at level 61, x name, m at next level, right associativity) : res_scope.

(** [if (error instanceof InvariantViolationError) throw error;] followed
    by [rest]. *)
Definition rethrowViolation {A : Type} (rest : Exn -> Outcome A) (error : Thrown)
  : Outcome A :=
  match error with
  | Violation v => Raised (Violation v)
  | Other e => rest e
  end.

(** The [name] of a thrown error object. *)
Definition exnName (e : Exn) : string :=
  match e with
  | BillingError _ _ _ _ => "BillingError"
  | Error _ => "Error"
  | RangeError _ => "RangeError"
  | StoreError _ => "AppwriteException"
  end.

(** [String(error)] of an error object: its name, a colon and its message. *)
Definition errorString (e : Exn) : string := exnName e ++ ": " ++ exnMessage e.

(** [s.includes(sub)]. *)
Fixpoint str_includes (sub s : string) : bool :=
  prefix sub s
  || match s with
     | EmptyString => false
     | String _ rest => str_includes sub rest
     end.

(** An invoice document, as the checker reads it. *)
Record Invoice : Type := {
  inv_id : string;
  inv_billingAccountId : string;
  inv_status : string;
  aggregationSnapshotId : option string
}.

#[export] Instance Invoice_doc : Document Invoice := inv_id.

Definition assertInvoiceUsageImmutable (invoices : list Invoice) (w : World)
    (invoiceId : string) : Outcome unit :=
  catchO
    (do invoice <- request (getDocument invoices invoiceId) ;
     if negb (truthy (aggregationSnapshotId invoice)) then
       Raised (Violation (newViolation "INVOICE_USAGE_LINK"
                            "Invoice does not reference an aggregation snapshot"))
     else
       do aggregation <- request (getDocument (usage_aggregations w)
                                    (str_of (aggregationSnapshotId invoice))) ;
       if negb (isFinalized aggregation) then
         Raised (Violation (newViolation "INVOICE_USAGE_IMMUTABLE"
                              "Invoice references non-finalized aggregation - usage may change"))
       else
         (* a PAID invoice without [finalizedAt]: an empty branch *)
         Done tt)
    (rethrowViolation
       (fun _ =>
          Raised (Violation (newViolation "INVOICE_USAGE_CHECK_FAILED"
                               "Unable to verify invoice-usage immutability")))).

Definition assertStatusTransition (billingAccountId : string)
    (from to : BillingStatus) : Outcome unit :=
  match assertValidStatusTransition from to with
  | OK _ => Done tt
  | Throw error =>
      Raised (Violation (newViolation "STATUS_TRANSITION" (exnMessage error)))
  end.

Definition assertSuspendedCannotMutate (w : World) (options : BillingLookupOptions)
  : Outcome unit :=
  if isSuspended (getBillingAccount w options) then
    Raised (Violation (newViolation "SUSPENDED_MUTATION"
                         "Suspended accounts cannot mutate data. Please pay your invoice to restore access."))
  else Done tt.

Definition assertAggregationNotFinalized (w : World) (aggregationId : string)
  : Outcome unit :=
  catchO
    (do aggregation <- request (getDocument (usage_aggregations w) aggregationId) ;
     if isFinalized aggregation then
       Raised (Violation (newViolation "FINALIZED_AGGREGATION_MODIFICATION"
                            "Cannot modify finalized aggregation - this period has been invoiced"))
     else Done tt)
    (rethrowViolation
       (fun error =>
          if str_includes "not found" (errorString error)
          then Done tt      (* document not found is OK *)
          else Done tt      (* handled silently *))).

Record InvariantReport : Type := {
  passed : bool;
  violations : list InvariantViolationError
}.

(** One turn of the loop of [runBillingInvariantChecks]. *)
Definition checkInvoice (invoices : list Invoice) (w : World)
    (violations : list InvariantViolationError) (invoice : Invoice)
  : list InvariantViolationError :=
  if truthy (aggregationSnapshotId invoice) then
    match assertInvoiceUsageImmutable invoices w (inv_id invoice) with
    | Raised (Violation error) => (violations ++ [error])%list
    | _ => violations
    end
  else violations.

Definition runBillingInvariantChecks (invoices : list Invoice) (w : World)
    (billingAccountId : string) : InvariantReport :=
  let listed :=
    listDocuments invoices
      (fun i => String.eqb (inv_billingAccountId i) billingAccountId) 100%N in
  let violations := fold_left (checkInvoice invoices w) (documents listed) [] in
  {| passed := (List.length violations =? 0)%nat; violations := violations |}.

(** [process.env.NODE_ENV], possibly unset. *)
Definition isDevelopment (NODE_ENV : option string) : bool :=
  field_equal NODE_ENV "development" || field_equal NODE_ENV "test".

Definition checkInvariant (NODE_ENV : option string) (condition : bool)
    (invariant : string) (getMessage : unit -> string) : Outcome unit :=
  if condition then Done tt
  else
    let message := getMessage tt in
    let error := newViolation invariant message in
    if isDevelopment NODE_ENV then Raised (Violation error)
    else Done tt.

Definition checkInvariantAsync (NODE_ENV : option string)
    (conditionFn : unit -> Outcome bool) (invariant : string)
    (getMessage : unit -> string) : Outcome unit :=
  catchO
    (do condition <- conditionFn tt ;
     checkInvariant NODE_ENV condition invariant getMessage)
    (rethrowViolation
       (fun error =>
          checkInvariant NODE_ENV false invariant
            (fun _ => "Condition check failed: " ++ errorString error))).

(** Attributes of stored documents that the records above do not carry,
    as functions of the document: the [metadata] string and the
    [$createdAt] stamp of a usage event, the [$updatedAt] stamp of a
    billing account. *)
Record Attributes : Type := {
  metadata : UsageEvent -> string;
  createdAt : UsageEvent -> string;
  updatedAt : BillingAccount -> string
}.

(** [a || b] on optional strings. *)
Definition opt_or (a b : option string) : option string :=
  if truthy a then a else b.

(** [`${n}`] for a count. *)
Definition show_count (n : nat) : string := NilZero.string_of_uint (Nat.to_uint n).

(** The events that [assertNoUsageDuringSuspension] asks the store for. *)
Definition suspensionQuery (rt : Runtime) (attrs : Attributes)
    (suspendedAt endTime entityId : string) (event : UsageEvent) : bool :=
  greaterThanEqual rt (ev_timestamp event) suspendedAt
  && lessThanEqual rt (ev_timestamp event) endTime
  && str_includes entityId (metadata attrs event).

Definition assertNoUsageDuringSuspension (rt : Runtime) (attrs : Attributes) (now : Z)
    (w : World) (billingAccountId suspendedAt : string) (restoredAt : option string)
  : Outcome unit :=
  catchO
    (do account <- request (getDocument (billing_accounts w) billingAccountId) ;
     let entityId := opt_or (acct_organizationId account) (acct_userId account) in
     if negb (truthy entityId) then Done tt   (* no entity to check *)
     else
       let endTime := if truthy restoredAt then str_of restoredAt else isoString now in
       let events :=
         listDocuments (usage_events w)
           (suspensionQuery rt attrs suspendedAt endTime (str_of entityId)) 10%N in
       if (0 <? total events)%nat then
         Raised (Violation (newViolation "USAGE_DURING_SUSPENSION"
                              ("Found " ++ show_count (total events)
                                 ++ " usage events during suspension period")))
       else Done tt)
    (rethrowViolation (fun _ => Done tt)).

Record CriticalCheckResult : Type := {
  check : string;
  check_passed : bool;
  check_message : option string;
  check_error : option string
}.

(** Check 1 of [runCriticalInvariantChecks]: the suspended accounts (at
    most 100) with a usage event created since their last update. *)
Definition usageSinceSuspension (rt : Runtime) (attrs : Attributes) (w : World)
    (account : BillingAccount) : bool :=
  let recentEvents :=
    listDocuments (usage_events w)
      (fun e => str_includes (acct_id account) (metadata attrs e)
                && greaterThanEqual rt (createdAt attrs e) (updatedAt attrs account))
      1%N in
  (0 <? total recentEvents)%nat.

(** [for (...) { if (violating) violationCount++; }]. *)
Definition countViolations {A : Type} (violating : A -> bool) (l : list A) : nat :=
  fold_left (fun count x => if violating x then S count else count) l 0%nat.

Definition checkNoUsageDuringSuspension (rt : Runtime) (attrs : Attributes) (w : World)
  : CriticalCheckResult :=
  let suspendedAccounts :=
    listDocuments (billing_accounts w)
      (fun a => BillingStatus_eqb (billingStatus a) SUSPENDED) 100%N in
  let violationCount :=
    countViolations (usageSinceSuspension rt attrs w) (documents suspendedAccounts) in
  {| check := "NO_USAGE_DURING_SUSPENSION";
     check_passed := (violationCount =? 0)%nat;
     check_message :=
       Some (if (violationCount =? 0)%nat
             then "Checked " ++ show_count (total suspendedAccounts) ++ " suspended accounts"
             else "Found " ++ show_count violationCount
                    ++ " accounts with usage during suspension");
     check_error := None |}.

(** Check 2: the PAID invoices (at most 50) whose aggregation snapshot is
    missing or not finalized. *)
Definition snapshotNotFinalized (w : World) (invoice : Invoice) : bool :=
  truthy (aggregationSnapshotId invoice)
  && match getDocument (usage_aggregations w) (str_of (aggregationSnapshotId invoice)) with
     | OK aggregation => negb (isFinalized aggregation)
     | Throw _ => true      (* aggregation not found - also a violation *)
     end.

Definition checkPaidInvoicesFinalized (invoices : list Invoice) (w : World)
  : CriticalCheckResult :=
  let paidInvoices :=
    listDocuments invoices (fun i => String.eqb (inv_status i) "PAID") 50%N in
  let violationCount := countViolations (snapshotNotFinalized w) (documents paidInvoices) in
  {| check := "PAID_INVOICES_FINALIZED";
     check_passed := (violationCount =? 0)%nat;
     check_message :=
       Some (if (violationCount =? 0)%nat
             then "Checked " ++ show_count (total paidInvoices) ++ " paid invoices"
             else "Found " ++ show_count violationCount
                    ++ " paid invoices with non-finalized aggregations");
     check_error := None |}.

(** [30 * 60 * 1000]. *)
Definition staleThreshold : Z := 30 * 60 * 1000.

(** Check 3: the locked accounts (at most 50) whose lock is older than 30
    minutes; a lock time that is unset or not a date is never stale. *)
Definition lockIsStale (rt : Runtime) (now : Z) (account : BillingAccount) : bool :=
  truthy (billingCycleLockedAt account)
  && match Date_parse rt (str_of (billingCycleLockedAt account)) with
     | Some lockedAt => staleThreshold <? now - lockedAt
     | None => false
     end.

Definition checkNoStaleCycleLocks (rt : Runtime) (now : Z) (w : World)
  : CriticalCheckResult :=
  let lockedAccounts := listDocuments (billing_accounts w) isBillingCycleLocked 50%N in
  let staleCount := countViolations (lockIsStale rt now) (documents lockedAccounts) in
  {| check := "NO_STALE_CYCLE_LOCKS";
     check_passed := (staleCount =? 0)%nat;
     check_message :=
       Some (if (staleCount =? 0)%nat
             then "Checked " ++ show_count (total lockedAccounts) ++ " locked accounts"
             else "Found " ++ show_count staleCount
                    ++ " accounts with stale locks (>30min)");
     check_error := None |}.

Record CriticalReport : Type := {
  allPassed : bool;
  results : list CriticalCheckResult
}.

(** [runCriticalInvariantChecks].  The store of the embedding lists
    without failing, so the [catch] of each check (a passed result with the
    error recorded) is not reached. *)
Definition runCriticalInvariantChecks (rt : Runtime) (attrs : Attributes) (now : Z)
    (invoices : list Invoice) (w : World) : CriticalReport :=
  let results :=
    [checkNoUsageDuringSuspension rt attrs w;
     checkPaidInvoicesFinalized invoices w;
     checkNoStaleCycleLocks rt now w] in
  {| allPassed := forallb check_passed results; results := results |}.

(** Attributes for the sample data: the metadata names the organisation,
    events and accounts are stamped at the start of 2024. *)
Definition sampleAttributes : Attributes :=
  {| metadata := fun _ => "billingEntityId=org-1";
     createdAt := fun e => ev_timestamp e;
     updatedAt := fun _ => "2024-01-01T00:00:00.000Z" |}.

(** The outcome is an [InvariantViolationError] of the given name. *)
Definition raisesViolation {A : Type} (r : Outcome A) (name : string) : Prop :=
  exists v, r = Raised (Violation v) /\ invariant v = name.

(** An invoice of the sample account that references [snapshot]. *)
Definition sampleInvoice (id : string) (status : string) (snapshot : option string)
  : Invoice :=
  {| inv_id := id; inv_billingAccountId := "acct-1"; inv_status := status;
     aggregationSnapshotId := snapshot |}.

(** The invoices of an account that [runBillingInvariantChecks] looks at. *)
Definition listedInvoices (invoices : list Invoice) (billingAccountId : string)
  : list Invoice :=
  firstn (N.to_nat 100)
    (filter (fun i => String.eqb (inv_billingAccountId i) billingAccountId) invoices).

(** A condition function that fails with a violation of its own. *)
Definition violatingCondition (_ : unit) : Outcome bool :=
  Raised (Violation (newViolation "SUSPENDED_MUTATION" "from the condition")).

(** The accounts and invoices that [runCriticalInvariantChecks] looks at. *)
Definition listedSuspended (w : World) : list BillingAccount :=
  firstn (N.to_nat 100)
    (filter (fun a => BillingStatus_eqb (billingStatus a) SUSPENDED) (billing_accounts w)).

Definition listedPaid (invoices : list Invoice) : list Invoice :=
  firstn (N.to_nat 50) (filter (fun i => String.eqb (inv_status i) "PAID") invoices).

Definition listedLocked (w : World) : list BillingAccount :=
  firstn (N.to_nat 50) (filter isBillingCycleLocked (billing_accounts w)).

(** The world with other usage events. *)
Definition set_usage_events (w : World) (l : list UsageEvent) : World :=
  {| billing_accounts := billing_accounts w; workspaces := workspaces w;
     usage_events := l; usage_aggregations := usage_aggregations w;
     usage_alerts := usage_alerts w; notifications := notifications w;
     webhook_ok := webhook_ok w; webhook_posts := webhook_posts w |}.

(** The alerts that [evaluateAllAlerts] evaluates, in order: the first 1000
    enabled ones that are not in their cooldown. *)
Definition alertsToEvaluate (rt : Runtime) (now : Z) (w : World) : list UsageAlert :=
  filter (fun a => negb (recentlyTriggered rt now a))
    (firstn (N.to_nat 1000) (filter isEnabled (usage_alerts w))).


(** The events of one workspace and resource type. *)
Definition eventsOf (workspaceId : string) (resourceType : ResourceType)
    (events : list UsageEvent) : list UsageEvent :=
  filter (fun e => String.eqb (ev_workspaceId e) workspaceId
                   && ResourceType_eqb (ev_resourceType e) resourceType) events.

(** A webhook alert without a URL. *)
Definition webhookAlertWithoutUrl : UsageAlert :=
  {| alert_id := "alert-2"; alert_workspaceId := "ws-1";
     alert_resourceType := COMPUTE; threshold := 1; alertType := webhook;
     webhookUrl := None; isEnabled := true; lastTriggeredAt := None |}.

(** The sample alert, last triggered at the given time. *)
Definition triggeredAt (id : string) (at_ : option string) : UsageAlert :=
  {| alert_id := id; alert_workspaceId := "ws-1";
     alert_resourceType := COMPUTE; threshold := 1; alertType := in_app;
     webhookUrl := None; isEnabled := true; lastTriggeredAt := at_ |}.

(* ====================================================================== *)
(** * Properties *)
(* ====================================================================== *)

(** ** The calendar, on known dates *)

Example epoch_is_1970 : isoString 0 = "1970-01-01T00:00:00.000Z".
Proof. vm_compute; reflexivity. Qed.

Example leap_day_2024 :
  parse_iso "2024-02-29T23:59:59.999Z" = Some 1709251199999
  /\ isoString 1709251199999 = "2024-02-29T23:59:59.999Z"
  /\ parse_iso "2023-02-29" = None.
Proof. repeat split; vm_compute; reflexivity. Qed.

(** [new Date(2024, 12, 0)] is 31 December 2024, and one month after
    31 January is 2 March in a leap year. *)
Example month_overflow :
  Date_of_fields iso_runtime 2024 12 0 = parse_iso "2024-12-31"
  /\ setMonth iso_runtime (parse_iso "2024-01-31") 1 = parse_iso "2024-03-02".
Proof. split; vm_compute; reflexivity. Qed.

Example mid_january : isoString midJanuary = "2024-01-15T12:00:00.000Z".
Proof. vm_compute; reflexivity. Qed.

(** ** Status transitions *)

Lemma BillingStatus_eqb_eq (a b : BillingStatus) :
  BillingStatus_eqb a b = true <-> a = b.
Proof. destruct a, b; simpl; split; intro H; congruence. Qed.

(** C1. For every pair of billing statuses, [assertValidStatusTransition]
    returns without error exactly when the target equals the source or is an
    allowed target of the source in the table ACTIVE -> DUE,
    DUE -> ACTIVE | SUSPENDED, SUSPENDED -> ACTIVE; on every other pair
    (ACTIVE -> SUSPENDED and SUSPENDED -> DUE among them) it throws. *)
Theorem assertValidStatusTransition_legal :
  (forall from to : BillingStatus,
      assertValidStatusTransition from to = OK tt <->
      (to = from \/ allowedTarget from to))
  /\ (forall from to : BillingStatus,
      ~ (to = from \/ allowedTarget from to) ->
      throws (assertValidStatusTransition from to))
  /\ throws (assertValidStatusTransition ACTIVE SUSPENDED)
  /\ throws (assertValidStatusTransition SUSPENDED DUE)
  /\ assertValidStatusTransition DUE SUSPENDED = OK tt.
Proof.
  assert (iff_ok : forall from to,
             assertValidStatusTransition from to = OK tt <->
             (to = from \/ allowedTarget from to)).
  { intros from to; split.
    - destruct from, to; cbv; intro H;
        first [ left; reflexivity
              | right; constructor
              | discriminate H ].
    - intros [-> | H].
      + destruct from; reflexivity.
      + destruct H; reflexivity. }
  assert (other : forall from to,
             ~ (to = from \/ allowedTarget from to) ->
             throws (assertValidStatusTransition from to)).
  { intros from to Hno.
    destruct (assertValidStatusTransition from to) as [[]|e] eqn:E.
    - exfalso; apply Hno, iff_ok, E.
    - exists e; reflexivity. }
  repeat split.
  - apply iff_ok.
  - apply iff_ok.
  - exact other.
  - eexists; reflexivity.
  - eexists; reflexivity.
Qed.

(** The step the specification singles out: DUE may become SUSPENDED. *)
Lemma assertValidStatusTransition_legal_witness :
  assertValidStatusTransition DUE SUSPENDED = OK tt
  /\ throws (assertValidStatusTransition ACTIVE SUSPENDED).
Proof.
  pose proof assertValidStatusTransition_legal as (Hiff & Hother & _).
  split.
  - apply Hiff; right; constructor.
  - apply Hother; intros [H | H]; [discriminate H | inversion H].
Defined.

Example transition_error_message :
  assertValidStatusTransition ACTIVE SUSPENDED
  = Throw (Error "Invalid billing status transition: ACTIVE -> SUSPENDED. Valid transitions from ACTIVE: DUE").
Proof. reflexivity. Qed.

(** ** Lookup and status assertions *)

Lemma returnFirst_in (w : World) (p : BillingAccount -> bool) (a : BillingAccount) :
  returnFirst (listDocuments (billing_accounts w) p 1%N) = Some (Some a) ->
  In a (billing_accounts w) /\ p a = true.
Proof.
  unfold returnFirst, listDocuments; simpl.
  destruct (filter p (billing_accounts w)) as [|x l] eqn:F; simpl; [discriminate|].
  intro H; injection H as <-.
  apply filter_In; rewrite F; left; reflexivity.
Qed.

Lemma lookupByOrganization_in (w : World) (options : BillingLookupOptions)
    (a : BillingAccount) :
  lookupByOrganization w options = Some (Some a) -> In a (billing_accounts w).
Proof.
  unfold lookupByOrganization, orgAccounts.
  destruct (truthy (organizationId options)); [|discriminate].
  intro H; apply returnFirst_in in H; tauto.
Qed.

Lemma lookupByWorkspace_in (w : World) (options : BillingLookupOptions)
    (a : BillingAccount) :
  lookupByWorkspace w options = OK (Some (Some a)) -> In a (billing_accounts w).
Proof.
  unfold lookupByWorkspace, orgAccounts, personalAccounts.
  destruct (truthy (workspaceId options)); [|discriminate].
  destruct (getDocument (workspaces w) _) as [ws|e]; simpl; [|discriminate].
  destruct (truthy (ws_organizationId ws)).
  - intro H; injection H as H; apply returnFirst_in in H; tauto.
  - destruct (truthy (ws_userId ws)); [|discriminate].
    intro H; injection H as H; apply returnFirst_in in H; tauto.
Qed.

Lemma lookupByUser_in (w : World) (options : BillingLookupOptions)
    (a : BillingAccount) :
  lookupByUser w options = Some (Some a) -> In a (billing_accounts w).
Proof.
  unfold lookupByUser, personalAccounts.
  destruct (truthy (userId options)); [|discriminate].
  intro H; apply returnFirst_in in H; tauto.
Qed.

(** Whatever [getBillingAccount] resolves is a stored account: a lookup
    that matches no stored account resolves to nothing. *)
Lemma getBillingAccount_stored (w : World) (options : BillingLookupOptions)
    (a : BillingAccount) :
  getBillingAccount w options = Some a -> In a (billing_accounts w).
Proof.
  unfold getBillingAccount.
  destruct (lookupByOrganization w options) as [r1|] eqn:R1.
  - simpl; intro E; subst r1; eapply lookupByOrganization_in; eassumption.
  - destruct (lookupByWorkspace w options) as [[r2|]|e] eqn:R2; simpl.
    + intro E; subst r2; eapply lookupByWorkspace_in; eassumption.
    + destruct (lookupByUser w options) as [r3|] eqn:R3; simpl.
      * intro E; subst r3; eapply lookupByUser_in; eassumption.
      * discriminate.
    + discriminate.
Qed.

Lemma getBillingAccount_no_accounts (w : World) (options : BillingLookupOptions) :
  billing_accounts w = [] -> getBillingAccount w options = None.
Proof.
  intro E.
  destruct (getBillingAccount w options) as [a|] eqn:G; [|reflexivity].
  apply getBillingAccount_stored in G; rewrite E in G; destruct G.
Qed.

(** A missing workspace makes the store throw; the lookup swallows it. *)
Lemma getBillingAccount_missing_workspace (w : World) (ws : string) :
  ws <> "" ->
  getDocument (workspaces w) ws = Throw not_found ->
  getBillingAccount w (workspaceLookup ws) = None.
Proof.
  intros Hne Hget.
  unfold getBillingAccount, lookupByOrganization, lookupByWorkspace; simpl.
  destruct (String.eqb ws "") eqn:E.
  - apply String.eqb_eq in E; contradiction.
  - simpl; rewrite Hget; reflexivity.
Qed.

(** The case analysis shared by the guards: every status is one of three. *)
Ltac by_status a :=
  let S := fresh "S" in
  destruct (billingStatus a) eqn:S; simpl.

(** C3. [assertBillingActive] throws BILLING_SUSPENDED exactly when the
    resolved account is SUSPENDED, throws BILLING_DUE exactly when it is DUE
    and returns the account when it is ACTIVE; [assertBillingNotSuspended]
    throws BILLING_SUSPENDED exactly when the resolved account is SUSPENDED
    and returns the account otherwise (DUE included); when no account
    resolves both return without throwing. *)
Theorem billing_status_assertions (w : World) (options : BillingLookupOptions) :
  (throwsBilling (assertBillingActive w options) BILLING_SUSPENDED <->
     exists a, getBillingAccount w options = Some a /\ billingStatus a = SUSPENDED)
  /\ (throwsBilling (assertBillingActive w options) BILLING_DUE <->
     exists a, getBillingAccount w options = Some a /\ billingStatus a = DUE)
  /\ (forall a, getBillingAccount w options = Some a -> billingStatus a = ACTIVE ->
        assertBillingActive w options = OK (Some a))
  /\ (throwsBilling (assertBillingNotSuspended w options) BILLING_SUSPENDED <->
     exists a, getBillingAccount w options = Some a /\ billingStatus a = SUSPENDED)
  /\ (forall a, getBillingAccount w options = Some a -> billingStatus a <> SUSPENDED ->
        assertBillingNotSuspended w options = OK (Some a))
  /\ (forall c, throwsBilling (assertBillingNotSuspended w options) c ->
        c = BILLING_SUSPENDED)
  /\ (getBillingAccount w options = None ->
        assertBillingActive w options = OK None
        /\ assertBillingNotSuspended w options = OK None).
Proof.
  unfold assertBillingActive, assertBillingNotSuspended, throwsBilling.
  destruct (getBillingAccount w options) as [a|].
  - by_status a; repeat split.
    all: try (intros (m & i & s & H); discriminate H).
    all: try (intros (b & Hb & Sb); injection Hb as <-; congruence).
    all: try (intros b Hb Sb; injection Hb as <-; congruence).
    all: try (intros c (m & i & s & H); unfold suspendedError in H; congruence).
    all: try discriminate.
    all: try (intros _; do 3 eexists; reflexivity).
    all: try (intros _; exists a; split; [reflexivity | assumption]).
  - repeat split.
    all: try (intros (m & i & s & H); discriminate H).
    all: try (intros (b & Hb & _); discriminate Hb).
    all: try (intros b Hb; discriminate Hb).
    all: try (intros c (m & i & s & H); discriminate H).
Qed.

(** At the sample organisation: a DUE account passes the laxer guard and
    fails the stricter one. *)
Lemma billing_status_assertions_witness :
  throwsBilling
    (assertBillingActive
       (sampleWorld (with_status DUE (Some "2024-02-01") sampleAccount) [] [])
       byOrganization) BILLING_DUE
  /\ assertBillingNotSuspended
       (sampleWorld (with_status DUE (Some "2024-02-01") sampleAccount) [] [])
       byOrganization
     = OK (Some (with_status DUE (Some "2024-02-01") sampleAccount)).
Proof.
  pose proof (billing_status_assertions
                (sampleWorld (with_status DUE (Some "2024-02-01") sampleAccount) [] [])
                byOrganization) as (_ & Hdue & _ & _ & Hnot & _).
  split.
  - apply Hdue. eexists; split; reflexivity.
  - apply Hnot; [reflexivity | discriminate].
Defined.

(** ** Usage write guard *)

(** C4. [assertCanWriteUsage] first applies [assertBillingNotSuspended]
    (whose error it passes on), then throws BILLING_CYCLE_LOCKED when the
    resolved account has its cycle locked; with no account it returns
    [{account: null, allowed: true}]. *)
Theorem assertCanWriteUsage_guard (w : World) (options : BillingLookupOptions) :
  (forall e, assertBillingNotSuspended w options = Throw e ->
        assertCanWriteUsage w options = Throw e)
  /\ (forall a, assertBillingNotSuspended w options = OK (Some a) ->
        isBillingCycleLocked a = true ->
        throwsBilling (assertCanWriteUsage w options) BILLING_CYCLE_LOCKED)
  /\ (forall a, assertBillingNotSuspended w options = OK (Some a) ->
        isBillingCycleLocked a = false ->
        assertCanWriteUsage w options = OK {| account := Some a; allowed := true |})
  /\ (throwsBilling (assertCanWriteUsage w options) BILLING_CYCLE_LOCKED <->
        exists a, getBillingAccount w options = Some a
                  /\ billingStatus a <> SUSPENDED
                  /\ isBillingCycleLocked a = true)
  /\ (getBillingAccount w options = None ->
        assertCanWriteUsage w options = OK {| account := None; allowed := true |}).
Proof.
  unfold assertCanWriteUsage, assertBillingNotSuspended, throwsBilling.
  destruct (getBillingAccount w options) as [a|].
  - by_status a; destruct (isBillingCycleLocked a) eqn:L; simpl; repeat split.
    all: try discriminate.
    all: try (intros e H; congruence).
    all: try (intros b Hb Lb; injection Hb as <-; congruence).
    all: try (intros (m & i & s & H); discriminate H).
    all: try (intros (b & Hb & Sb & Lb); injection Hb as <-; congruence).
    all: try (intros _; do 3 eexists; reflexivity).
    all: try (intros _; exists a; repeat split; congruence).
    all: try (intros b Hb Lb; injection Hb as <-; do 3 eexists; reflexivity).
  - simpl; repeat split.
    all: try discriminate.
    all: try (intros (m & i & s & H); discriminate H).
    all: try (intros (b & Hb & _); discriminate Hb).
Qed.

(** At the sample organisation with its cycle locked. *)
Lemma assertCanWriteUsage_guard_witness :
  throwsBilling
    (assertCanWriteUsage
       (sampleWorld (with_lock true (Some "2024-01-31T00:00:00.000Z") sampleAccount) [] [])
       byOrganization) BILLING_CYCLE_LOCKED.
Proof.
  pose proof (assertCanWriteUsage_guard
                (sampleWorld (with_lock true (Some "2024-01-31T00:00:00.000Z") sampleAccount)
                   [] [])
                byOrganization) as (_ & Hlocked & _).
  apply (Hlocked (with_lock true (Some "2024-01-31T00:00:00.000Z") sampleAccount));
    reflexivity.
Defined.

(** ** Billing cycle lock *)

Section Store.
Context {A : Type} `{Document A}.

(** Reading back a document after an update that keeps its [$id]. *)
Lemma find_after_patch (coll : list A) (id : string) (patch : A -> A) :
  (forall d, doc_id (patch d) = doc_id d) ->
  find (has_id id) (map (fun d => if has_id id d then patch d else d) coll)
  = option_map patch (find (has_id id) coll).
Proof.
  intro keep.
  induction coll as [|d rest IH]; simpl; [reflexivity|].
  destruct (has_id id d) eqn:E.
  - assert (E' : has_id id (patch d) = true)
      by (unfold has_id in *; rewrite keep; exact E).
    rewrite E'; reflexivity.
  - rewrite E; exact IH.
Qed.

Lemma getDocument_after_update (coll coll' : list A) (id : string)
    (patch : A -> A) (d : A) :
  (forall x, doc_id (patch x) = doc_id x) ->
  getDocument coll id = OK d ->
  updateDocument coll id patch = OK coll' ->
  getDocument coll' id = OK (patch d).
Proof.
  unfold getDocument, updateDocument.
  intros keep.
  destruct (find (has_id id) coll) as [x|] eqn:F; [|discriminate].
  intros Hd Hu; injection Hd as ->; injection Hu as <-.
  rewrite find_after_patch by exact keep.
  rewrite F; reflexivity.
Qed.

Lemma updateDocument_found (coll : list A) (id : string) (patch : A -> A) (d : A) :
  getDocument coll id = OK d ->
  updateDocument coll id patch
  = OK (map (fun x => if has_id id x then patch x else x) coll).
Proof.
  unfold getDocument, updateDocument.
  destruct (find (has_id id) coll); [reflexivity | discriminate].
Qed.
End Store.

Lemma strict_neq_same (s : string) : strict_neq (Some s) s = false.
Proof. unfold strict_neq; simpl; rewrite String.eqb_refl; reflexivity. Qed.

(** The first lock of an unlocked account succeeds with the timestamp of
    its own clock reading and leaves the account locked at that timestamp. *)
Lemma lockBillingCycle_unlocked (now : Z) (id : string) (w : World)
    (a : BillingAccount) :
  getDocument (billing_accounts w) id = OK a ->
  isBillingCycleLocked a = false ->
  exists w',
    lockBillingCycle now id w
    = (w', OK {| success := true; alreadyLocked := false;
                 lockedAt := Some (isoString now); lock_error := None |})
    /\ getDocument (billing_accounts w') id
       = OK (with_lock true (Some (isoString now)) a).
Proof.
  intros Hget Hunlocked.
  pose proof (updateDocument_found _ id (with_lock true (Some (isoString now))) _ Hget)
    as Hupd.
  pose proof (getDocument_after_update _ _ id (with_lock true (Some (isoString now))) a
                (fun x => eq_refl) Hget Hupd)
    as Hback.
  eexists; split.
  - unfold lockBillingCycle, try_catchM, bindM, reading, updateBillingAccount, ret.
    rewrite Hget, Hunlocked, Hupd; simpl.
    rewrite Hback; simpl.
    rewrite strict_neq_same; reflexivity.
  - exact Hback.
Qed.

(** A lock of a locked account changes nothing and reports the stored
    timestamp. *)
Lemma lockBillingCycle_locked (now : Z) (id : string) (w : World)
    (a : BillingAccount) :
  getDocument (billing_accounts w) id = OK a ->
  isBillingCycleLocked a = true ->
  lockBillingCycle now id w
  = (w, OK {| success := false; alreadyLocked := true;
              lockedAt := billingCycleLockedAt a; lock_error := None |}).
Proof.
  intros Hget Hlocked.
  unfold lockBillingCycle, try_catchM, bindM, reading, ret.
  rewrite Hget, Hlocked; reflexivity.
Qed.

(** [lockBillingCycle] never throws: whatever goes wrong ends up in the
    [error] field of its result. *)
Lemma lockBillingCycle_returns (now : Z) (id : string) (w : World) :
  returns (snd (lockBillingCycle now id w)).
Proof.
  unfold lockBillingCycle, try_catchM, bindM, reading, updateBillingAccount, ret, returns.
  destruct (getDocument (billing_accounts w) id) as [a|e]; simpl; [|eexists; reflexivity].
  destruct (isBillingCycleLocked a); simpl; [eexists; reflexivity|].
  destruct (updateDocument _ _ _) as [l|e]; simpl; [|eexists; reflexivity].
  destruct (getDocument _ _) as [v|e]; simpl; [|eexists; reflexivity].
  destruct (strict_neq _ _); eexists; reflexivity.
Qed.

(** C2. Two calls of [lockBillingCycle] in sequence on a stored, unlocked
    billing account, with nothing written in between: the first returns
    [{success: true, alreadyLocked: false}] with a [lockedAt] timestamp T,
    the second [{success: false, alreadyLocked: true}] with the same
    [lockedAt] T (and writes nothing). *)
Theorem lockBillingCycle_twice (w : World) (id : string) (a : BillingAccount)
    (t1 t2 : Z) :
  getDocument (billing_accounts w) id = OK a ->
  isBillingCycleLocked a = false ->
  exists (w1 : World) (T : string),
    lockBillingCycle t1 id w
    = (w1, OK {| success := true; alreadyLocked := false;
                 lockedAt := Some T; lock_error := None |})
    /\ lockBillingCycle t2 id w1
       = (w1, OK {| success := false; alreadyLocked := true;
                    lockedAt := Some T; lock_error := None |}).
Proof.
  intros Hget Hunlocked.
  destruct (lockBillingCycle_unlocked t1 id w a Hget Hunlocked) as (w1 & Hfirst & Hback).
  exists w1, (isoString t1); split; [exact Hfirst|].
  exact (lockBillingCycle_locked t2 id w1 _ Hback eq_refl).
Qed.

(** At the sample account, locked at noon of 15 January 2024 and asked
    again an hour later. *)
Lemma lockBillingCycle_twice_witness :
  exists (w1 : World) (T : string),
    lockBillingCycle midJanuary "acct-1" (sampleWorld sampleAccount [] [])
    = (w1, OK {| success := true; alreadyLocked := false;
                 lockedAt := Some T; lock_error := None |})
    /\ lockBillingCycle (midJanuary + msPerHour) "acct-1" w1
       = (w1, OK {| success := false; alreadyLocked := true;
                    lockedAt := Some T; lock_error := None |}).
Proof.
  apply (lockBillingCycle_twice (sampleWorld sampleAccount [] []) "acct-1" sampleAccount);
    reflexivity.
Defined.

Example lockBillingCycle_sample :
  snd (lockBillingCycle midJanuary "acct-1" (sampleWorld sampleAccount [] []))
  = OK {| success := true; alreadyLocked := false;
          lockedAt := Some "2024-01-15T12:00:00.000Z"; lock_error := None |}.
Proof. vm_compute. reflexivity. Qed.

(** An account the store does not hold: the store's error is reported. *)
Example lockBillingCycle_missing :
  lockBillingCycle midJanuary "acct-9" (sampleWorld sampleAccount [] [])
  = (sampleWorld sampleAccount [] [],
     OK {| success := false; alreadyLocked := false; lockedAt := None;
           lock_error := Some "Document with the requested ID could not be found." |}).
Proof. reflexivity. Qed.

(** ** Late usage events *)

Lemma Date_lt_isBefore (rt : Runtime) (s1 s2 : string) :
  Date_lt (Date_parse rt s1) (Date_parse rt s2) = true <-> isBefore rt s1 s2.
Proof.
  unfold Date_lt, isBefore; split.
  - destruct (Date_parse rt s1) as [a|]; [|discriminate].
    destruct (Date_parse rt s2) as [b|]; [|discriminate].
    intro H; exists a, b; repeat split; apply Z.ltb_lt, H.
  - intros (a & b & -> & -> & H); apply Z.ltb_lt, H.
Qed.

(** C5. [adjustEventForLockedCycle] never throws.  Without an account the
    timestamp comes back unchanged and [wasAdjusted] is false.  With an
    account whose cycle is locked and an event before [billingCycleStart],
    the result is the instant of [billingCycleStart] (as its ISO string)
    with [wasAdjusted] true; otherwise, an event after [billingCycleEnd]
    gets the current time with [wasAdjusted] true; otherwise the timestamp
    comes back unchanged with [wasAdjusted] false. *)
Theorem adjustEventForLockedCycle_cases (rt : Runtime) (now : Z)
    (eventTimestamp : string) (acct : option BillingAccount) :
  exists r : Adjusted,
    adjustEventForLockedCycle rt now eventTimestamp acct = OK r
    /\ (acct = None -> timestamp r = eventTimestamp /\ wasAdjusted r = false)
    /\ (forall a, acct = Some a ->
          let late := isBillingCycleLocked a = true
                      /\ isBefore rt eventTimestamp (billingCycleStart a) in
          let future := isBefore rt (billingCycleEnd a) eventTimestamp in
          (late ->
             exists start, Date_parse rt (billingCycleStart a) = Some start
                           /\ timestamp r = isoString start
                           /\ wasAdjusted r = true)
          /\ (~ late -> future ->
                timestamp r = isoString now /\ wasAdjusted r = true)
          /\ (~ late -> ~ future ->
                timestamp r = eventTimestamp /\ wasAdjusted r = false)).
Proof.
  destruct acct as [a|]; simpl.
  2:{ eexists; split; [reflexivity|]; split; [intros _; split; reflexivity|].
      intros a H; discriminate H. }
  pose proof (Date_lt_isBefore rt eventTimestamp (billingCycleStart a)) as Hlate.
  pose proof (Date_lt_isBefore rt (billingCycleEnd a) eventTimestamp) as Hfuture.
  unfold Date_gt.
  destruct (isBillingCycleLocked a) eqn:L;
    destruct (Date_lt (Date_parse rt eventTimestamp)
                      (Date_parse rt (billingCycleStart a))) eqn:B;
    destruct (Date_lt (Date_parse rt (billingCycleEnd a))
                      (Date_parse rt eventTimestamp)) eqn:F; simpl.
  (* locked and before the start: the start parses, [toISOString] is safe *)
  1,2: destruct (proj1 Hlate eq_refl) as (e & c & He & Hc & Hlt);
       rewrite Hc; simpl.
  all: eexists; split; [reflexivity|]; split; [discriminate|].
  all: intros a' Ha; injection Ha as <-; cbv zeta; rewrite L.
  all: split; [|split]; simpl.
  (* late *)
  all: try (intros _; exists c; repeat split; assumption).
  all: try (intros (Hl & Hb); apply Hlate in Hb; congruence).
  (* not late, contradicting the test *)
  all: try (intros Hno; exfalso; apply Hno; split;
            [reflexivity | apply Hlate; reflexivity]).
  (* future or not *)
  all: try (intros _ _; split; reflexivity).
  all: try (intros _ Hf; apply Hfuture in Hf; congruence).
  all: try (intros _ Hnf; exfalso; apply Hnf, Hfuture; reflexivity).
Qed.

(** The example of the specification: a cycle from 2024-01-01 to
    2024-01-31, locked, and an event at 23:00 on 31 December. *)
Lemma adjustEventForLockedCycle_cases_witness :
  exists r : Adjusted,
    adjustEventForLockedCycle iso_runtime midJanuary "2023-12-31T23:00:00Z"
      (Some lockedAccount) = OK r
    /\ timestamp r = "2024-01-01T00:00:00.000Z"
    /\ wasAdjusted r = true.
Proof.
  destruct (adjustEventForLockedCycle_cases iso_runtime midJanuary
              "2023-12-31T23:00:00Z" (Some lockedAccount))
    as (r & Hr & _ & Hcases).
  destruct (Hcases lockedAccount eq_refl) as (Hlate & _).
  destruct Hlate as (start & Hstart & Hts & Hadj).
  - split; [reflexivity|].
    exists 1704063600000, 1704067200000; repeat split; vm_compute; reflexivity.
  - exists r; repeat split; try assumption.
    vm_compute in Hstart; injection Hstart as <-.
    rewrite Hts; vm_compute; reflexivity.
Defined.

Example adjust_mid_cycle_unchanged :
  adjustEventForLockedCycle iso_runtime midJanuary "2024-01-15" (Some lockedAccount)
  = OK {| timestamp := "2024-01-15"; wasAdjusted := false; adjustReason := None |}.
Proof. vm_compute; reflexivity. Qed.

Example adjust_after_cycle_end :
  adjustEventForLockedCycle iso_runtime midJanuary "2024-02-03T08:00:00Z"
    (Some lockedAccount)
  = OK {| timestamp := "2024-01-15T12:00:00.000Z"; wasAdjusted := true;
          adjustReason :=
            Some "Future event from 2024-02-03T08:00:00Z adjusted to now" |}.
Proof. vm_compute; reflexivity. Qed.

(** A cycle start that is not a date is never compared as later, so its
    [toISOString] is never asked for. *)
Example adjust_unreadable_cycle_start :
  adjustEventForLockedCycle iso_runtime midJanuary "2023-12-31T23:00:00Z"
    (Some {| acct_id := "acct-2"; acct_type := PERSONAL; acct_userId := Some "user-2";
             acct_organizationId := None; billingStatus := ACTIVE;
             billingCycleStart := "soon"; billingCycleEnd := "later";
             isBillingCycleLocked := true; billingCycleLockedAt := None;
             gracePeriodEnd := None |})
  = OK {| timestamp := "2023-12-31T23:00:00Z"; wasAdjusted := false;
          adjustReason := None |}.
Proof. vm_compute; reflexivity. Qed.

(** ** Warning state *)

Lemma truthy_nonempty (s : string) : s <> "" -> truthy (Some s) = true.
Proof.
  intro H; simpl; destruct (String.eqb s "") eqn:E; [|reflexivity].
  apply String.eqb_eq in E; contradiction.
Qed.

(** [Math.max(0, h)] is the larger of 0 and [h]. *)
Lemma Math_max0_Qmax (h : Q) :
  exists v, Math_max0 (Finite h) = Finite v /\ v == Qmax 0 h.
Proof.
  unfold Math_max0.
  destruct (Qle_bool h 0) eqn:E; eexists; split; try reflexivity.
  - apply Qle_bool_iff in E. symmetry; apply Q.max_l; exact E.
  - assert (H : (0 < h)%Q).
    { apply Qnot_le_lt; intro H; apply Qle_bool_iff in H; congruence. }
    symmetry; apply Q.max_r, Qlt_le_weak, H.
Qed.

Lemma hours_nonpositive (now g : Z) :
  g <= now -> Qle_bool (inject_Z (g - now) / inject_Z (1000 * 60 * 60)) 0 = true.
Proof.
  intro H; apply Qle_bool_iff.
  unfold Qle, Qdiv, Qmult, Qinv; simpl; lia.
Qed.

(** The state of a DUE account whose grace period end reads as [g]. *)
Lemma state_of_due (rt : Runtime) (now : Z) (a : BillingAccount) (s : string) (g : Z) :
  billingStatus a = DUE -> gracePeriodEnd a = Some s -> s <> "" ->
  Date_parse rt s = Some g ->
  state (getAccountWarningState rt now (Some a))
  = if Qle_bool (Qmax 0 (inject_Z (g - now) / inject_Z (1000 * 60 * 60))) 12
    then CRITICAL else WARNING.
Proof.
  intros Hdue Hgrace Hne Hparse.
  set (h := (inject_Z (g - now) / inject_Z (1000 * 60 * 60))%Q).
  destruct (Math_max0_Qmax h) as (v & Hmax & Hv).
  assert (Eb : Qle_bool (Qmax 0 h) 12 = Qle_bool v 12)
    by (apply Qleb_comp; [symmetry; exact Hv | reflexivity]).
  rewrite Eb; clear Eb.
  unfold getAccountWarningState.
  rewrite Hdue, Hgrace, (truthy_nonempty s Hne).
  cbn [BillingStatus_eqb andb str_of].
  rewrite Hparse.
  change (hoursBetween now (Some g)) with (Finite h).
  rewrite Hmax; unfold num_le.
  destruct (Qle_bool v 0) eqn:E0.
  - assert (E12 : Qle_bool v 12 = true).
    { apply Qle_bool_iff; apply Qle_bool_iff in E0.
      eapply Qle_trans; [exact E0 | discriminate]. }
    rewrite E12; reflexivity.
  - destruct (Qle_bool v 12); [reflexivity|].
    destruct (Qle_bool v NEAR_SUSPENSION_THRESHOLD_HOURS); reflexivity.
Qed.

Lemma expired_reports_zero (rt : Runtime) (now : Z) (a : BillingAccount)
    (s : string) (g : Z) :
  billingStatus a = DUE -> gracePeriodEnd a = Some s -> s <> "" ->
  Date_parse rt s = Some g -> g <= now ->
  hoursRemaining (getAccountWarningState rt now (Some a)) = Some (Finite 0).
Proof.
  intros Hdue Hgrace Hne Hparse Hexpired.
  unfold getAccountWarningState.
  rewrite Hdue, Hgrace, (truthy_nonempty s Hne).
  cbn [BillingStatus_eqb andb str_of].
  rewrite Hparse.
  unfold hoursBetween, Math_max0.
  rewrite (hours_nonpositive now g Hexpired).
  reflexivity.
Qed.

(** C6. [getAccountWarningState] depends on the account only through
    [billingStatus] and [gracePeriodEnd] (and on the clock).  SUSPENDED
    gives SUSPENDED; ACTIVE and no account give NORMAL; DUE with a grace
    period end that reads as the instant [g], and with
    hoursRemaining = max(0, (g - now) in hours), gives CRITICAL when
    hoursRemaining <= 12 and WARNING when hoursRemaining > 12; an expired
    grace period reports hoursRemaining 0; g = now + 13h gives WARNING and
    g = now + 12h gives CRITICAL. *)
Theorem getAccountWarningState_states (rt : Runtime) (now : Z) :
  (forall a b, billingStatus a = billingStatus b ->
               gracePeriodEnd a = gracePeriodEnd b ->
               getAccountWarningState rt now (Some a)
               = getAccountWarningState rt now (Some b))
  /\ state (getAccountWarningState rt now None) = NORMAL
  /\ (forall a, billingStatus a = SUSPENDED ->
                state (getAccountWarningState rt now (Some a)) = WS_SUSPENDED)
  /\ (forall a, billingStatus a = ACTIVE ->
                state (getAccountWarningState rt now (Some a)) = NORMAL)
  /\ (forall a s g,
        billingStatus a = DUE -> gracePeriodEnd a = Some s -> s <> "" ->
        Date_parse rt s = Some g ->
        let hours := Qmax 0 (inject_Z (g - now) / inject_Z msPerHour) in
        let result := getAccountWarningState rt now (Some a) in
        (hours <= 12 -> state result = CRITICAL)%Q
        /\ (12 < hours -> state result = WARNING)%Q
        /\ (g <= now -> state result = CRITICAL
                        /\ hoursRemaining result = Some (Finite 0))
        /\ (g = now + 13 * msPerHour -> state result = WARNING)
        /\ (g = now + 12 * msPerHour -> state result = CRITICAL)).
Proof.
  split; [|split; [|split; [|split]]].
  - intros a b Hs Hg; unfold getAccountWarningState; rewrite Hs, Hg; reflexivity.
  - reflexivity.
  - intros a Hs; unfold getAccountWarningState; rewrite Hs; reflexivity.
  - intros a Hs; unfold getAccountWarningState; rewrite Hs; reflexivity.
  - intros a s g Hdue Hgrace Hne Hparse hours result.
    pose proof (state_of_due rt now a s g Hdue Hgrace Hne Hparse) as Hstate.
    change (inject_Z (1000 * 60 * 60)) with (inject_Z msPerHour) in Hstate.
    fold hours result in Hstate.
    assert (Hcrit : (hours <= 12)%Q -> state result = CRITICAL).
    { intro H; apply Qle_bool_iff in H; rewrite Hstate, H; reflexivity. }
    assert (Hwarn : (12 < hours)%Q -> state result = WARNING).
    { intro H; rewrite Hstate.
      destruct (Qle_bool hours 12) eqn:E; [|reflexivity].
      apply Qle_bool_iff in E; exfalso; exact (Qlt_not_le _ _ H E). }
    split; [exact Hcrit|]; split; [exact Hwarn|]; split; [|split].
    + intro Hexpired; split.
      * apply Hcrit; unfold hours.
        rewrite Q.max_l; [discriminate|].
        apply Qle_bool_iff, (hours_nonpositive now g Hexpired).
      * exact (expired_reports_zero rt now a s g Hdue Hgrace Hne Hparse Hexpired).
    + intros ->; apply Hwarn; unfold hours.
      replace (now + 13 * msPerHour - now) with (13 * msPerHour) by lia.
      vm_compute; reflexivity.
    + intros ->; apply Hcrit; unfold hours.
      replace (now + 12 * msPerHour - now) with (12 * msPerHour) by lia.
      vm_compute; discriminate.
Qed.

(** At the sample account, DUE with its grace period ending on 16 January
    2024 at 01:00, thirteen hours after the clock reading. *)
Lemma getAccountWarningState_states_witness :
  state (getAccountWarningState iso_runtime midJanuary
           (Some (with_status DUE (Some "2024-01-16T01:00:00Z") sampleAccount)))
  = WARNING.
Proof.
  pose proof (getAccountWarningState_states iso_runtime midJanuary)
    as (_ & _ & _ & _ & Hdue).
  destruct (Hdue (with_status DUE (Some "2024-01-16T01:00:00Z") sampleAccount)
              "2024-01-16T01:00:00Z" (midJanuary + 13 * msPerHour))
    as (_ & _ & _ & H13 & _).
  - reflexivity.
  - reflexivity.
  - discriminate.
  - vm_compute; reflexivity.
  - apply H13; reflexivity.
Defined.

Example warning_state_twelve_hours :
  getAccountWarningState iso_runtime midJanuary
    (Some (with_status DUE (Some "2024-01-16T00:00:00Z") sampleAccount))
  = {| state := CRITICAL; hoursRemaining := Some (Finite 12);
       aws_gracePeriodEnd := Some "2024-01-16T00:00:00Z";
       message := Some "URGENT: Your account will be suspended in 12 hours. Please pay your invoice immediately." |}.
Proof. vm_compute; reflexivity. Qed.

Example warning_state_expired :
  getAccountWarningState iso_runtime midJanuary
    (Some (with_status DUE (Some "2024-01-15T11:00:00Z") sampleAccount))
  = {| state := CRITICAL; hoursRemaining := Some (Finite 0);
       aws_gracePeriodEnd := Some "2024-01-15T11:00:00Z";
       message := Some "Your grace period has expired. Your account will be suspended shortly." |}.
Proof. vm_compute; reflexivity. Qed.

(** A grace period end that is not a date: every comparison with NaN
    fails and the last branch answers. *)
Example warning_state_unreadable_deadline :
  getAccountWarningState iso_runtime midJanuary
    (Some (with_status DUE (Some "tomorrow") sampleAccount))
  = {| state := WARNING; hoursRemaining := Some NaN;
       aws_gracePeriodEnd := Some "tomorrow";
       message := Some "Your account has an unpaid invoice. Please pay to avoid service interruption." |}.
Proof. vm_compute; reflexivity. Qed.

(** C10. A DUE account whose [gracePeriodEnd] is unset gets
    [{state: NORMAL}]: no WARNING or CRITICAL state is derived for it. *)
Theorem getAccountWarningState_due_without_deadline (rt : Runtime) (now : Z)
    (a : BillingAccount) :
  billingStatus a = DUE ->
  gracePeriodEnd a = None ->
  getAccountWarningState rt now (Some a)
  = {| state := NORMAL; hoursRemaining := None;
       aws_gracePeriodEnd := None; message := None |}
  /\ shouldShowGlobalWarning (getAccountWarningState rt now (Some a)) = false.
Proof.
  intros Hdue Hgrace.
  unfold getAccountWarningState; rewrite Hdue, Hgrace; split; reflexivity.
Qed.

Lemma getAccountWarningState_due_without_deadline_witness :
  getAccountWarningState iso_runtime midJanuary
    (Some (with_status DUE None sampleAccount))
  = {| state := NORMAL; hoursRemaining := None;
       aws_gracePeriodEnd := None; message := None |}.
Proof.
  apply (getAccountWarningState_due_without_deadline iso_runtime midJanuary
           (with_status DUE None sampleAccount)); reflexivity.
Defined.

(** ** Aggregation reconciliation *)

Lemma sumQ_cons (x : Q) (l : list Q) : sumQ (x :: l) = (x + sumQ l)%Q.
Proof. reflexivity. Qed.









Example reconciliation_within_one_percent :
  matches (assertAggregationMatchesEvents iso_runtime
             (trafficWorld 107911053312 100) "agg-1" defaultTolerance) = true.
Proof. vm_compute; reflexivity. Qed.

(** 102 GiB in the raw events against 100 GiB stored. *)
Example reconciliation_beyond_one_percent :
  matches (assertAggregationMatchesEvents iso_runtime
             (trafficWorld 109521666048 100) "agg-1" defaultTolerance) = false.
Proof. vm_compute; reflexivity. Qed.


Example reconciliation_zero_stored_period :
  periodEvents iso_runtime (trafficWorld 1048576 0) (sampleAggregation 0)
  = Some (usage_events (trafficWorld 1048576 0)).
Proof. vm_compute; reflexivity. Qed.

(** ** Current month usage *)



Example current_month_bounds :
  toISOString (Date_of_fields iso_runtime (getFullYear iso_runtime midJanuary)
                 (getMonth iso_runtime midJanuary) 1)
  = OK "2024-01-01T00:00:00.000Z"
  /\ toISOString (Date_of_fields iso_runtime (getFullYear iso_runtime midJanuary)
                    (getMonth iso_runtime midJanuary + 1) 0)
     = OK "2024-01-31T00:00:00.000Z".
Proof. split; vm_compute; reflexivity. Qed.

Example usage_on_the_30th_counts :
  getCurrentMonthUsage iso_runtime midJanuary
    (computeWorld sampleAccount "2024-01-30T10:00:00.000Z" []) "ws-1" COMPUTE
  = OK 5%Q.
Proof. vm_compute; reflexivity. Qed.

(** C8 at the failing input.  On 15 January 2024 the workspace holds one
    compute event of 5 units stamped 31 January 2024, 10:00: an event of
    the current calendar month, so the month's usage is 5, but
    [getCurrentMonthUsage] returns 0, since its upper bound [endOfMonth] is
    the first instant of the month's last day. *)
Theorem getCurrentMonthUsage_misses_last_day :
  getCurrentMonthUsage iso_runtime midJanuary
    (computeWorld sampleAccount "2024-01-31T10:00:00.000Z" []) "ws-1" COMPUTE
  = OK 0%Q
  /\ inCurrentMonth iso_runtime midJanuary "2024-01-31T10:00:00.000Z" = true
  /\ (monthUsage iso_runtime midJanuary
        (computeWorld sampleAccount "2024-01-31T10:00:00.000Z" []) "ws-1" COMPUTE
      == 5)%Q.
Proof. repeat split; vm_compute; reflexivity. Qed.

(** ** Alert evaluation *)

(** C9. When the alert's workspace resolves to a SUSPENDED billing
    account, [evaluateAlert] returns [triggered: false] and
    [notificationSent: false] with the error "Account suspended - skipping
    alert evaluation", whatever the usage and the threshold are, and leaves
    the world as it was: no notification, no webhook POST, no update of
    [lastTriggeredAt]. *)
Theorem evaluateAlert_suspended (rt : Runtime) (now : Z) (alert : UsageAlert)
    (w : World) (a : BillingAccount) :
  getBillingAccount w (workspaceLookup (alert_workspaceId alert)) = Some a ->
  billingStatus a = SUSPENDED ->
  exists r : AlertEvaluationResult,
    evaluateAlert rt now alert w = (w, r)
    /\ triggered r = false
    /\ notificationSent r = false
    /\ result_error r = Some "Account suspended - skipping alert evaluation"
    /\ currentUsage r = 0%Q.
Proof.
  intros Hget Hsuspended.
  unfold evaluateAlert; rewrite Hget; unfold isSuspended; rewrite Hsuspended.
  eexists; repeat split.
Qed.

(** The sample workspace, suspended, with five compute units used against
    a threshold of one. *)
Lemma evaluateAlert_suspended_witness :
  exists r : AlertEvaluationResult,
    evaluateAlert iso_runtime midJanuary sampleAlert
      (computeWorld (with_status SUSPENDED None sampleAccount)
         "2024-01-10T00:00:00.000Z" [sampleAlert])
    = (computeWorld (with_status SUSPENDED None sampleAccount)
         "2024-01-10T00:00:00.000Z" [sampleAlert], r)
    /\ triggered r = false
    /\ notificationSent r = false
    /\ result_error r = Some "Account suspended - skipping alert evaluation"
    /\ currentUsage r = 0%Q.
Proof.
  apply (evaluateAlert_suspended iso_runtime midJanuary sampleAlert
           (computeWorld (with_status SUSPENDED None sampleAccount)
              "2024-01-10T00:00:00.000Z" [sampleAlert])
           (with_status SUSPENDED None sampleAccount)); reflexivity.
Defined.

(** The same usage on an ACTIVE account triggers the alert, stores a
    notification and stamps [lastTriggeredAt]. *)
Example evaluateAlert_active :
  let '(w, r) :=
    evaluateAlert iso_runtime midJanuary sampleAlert
      (computeWorld sampleAccount "2024-01-10T00:00:00.000Z" [sampleAlert]) in
  triggered r = true /\ notificationSent r = true /\ result_error r = None
  /\ List.length (notifications w) = 1%nat
  /\ map lastTriggeredAt (usage_alerts w) = [Some "2024-01-15T12:00:00.000Z"].
Proof. vm_compute; repeat split; reflexivity. Qed.

(* ====================================================================== *)
(** * Further properties of the code *)
(* ====================================================================== *)

(** ** Resolution order of [getBillingAccount] *)

Lemma first_listed {A : Type} (p : A -> bool) (l : list A) :
  hd_error (firstn (N.to_nat 1) (filter p l)) = find p l.
Proof.
  induction l as [|x l IH]; simpl; [reflexivity|].
  destruct (p x); [reflexivity | exact IH].
Qed.

Lemma returnFirst_find (coll : list BillingAccount) (p : BillingAccount -> bool) :
  returnFirst (listDocuments coll p 1%N)
  = match find p coll with
    | Some a => Some (Some a)
    | None => None
    end.
Proof.
  unfold returnFirst, listDocuments; cbn [total documents].
  rewrite first_listed.
  induction coll as [|x l IH]; simpl; [reflexivity|].
  destruct (p x); simpl; [reflexivity | exact IH].
Qed.

(** X1. A lookup that names an organisation resolves to the first stored
    ORG account of that organisation, whatever workspace or user it names
    besides. *)
Theorem getBillingAccount_organization_first (w : World)
    (options : BillingLookupOptions) (org : string) (a : BillingAccount) :
  organizationId options = Some org -> org <> "" ->
  find (isOrgAccountOf org) (billing_accounts w) = Some a ->
  getBillingAccount w options = Some a.
Proof.
  intros Horg Hne Hfind.
  unfold getBillingAccount, lookupByOrganization, orgAccounts.
  rewrite Horg, (truthy_nonempty org Hne); cbn [str_of].
  change (fun a0 : BillingAccount =>
            field_equal (acct_organizationId a0) org
            && BillingAccountType_eqb (acct_type a0) ORG)
    with (isOrgAccountOf org).
  rewrite returnFirst_find, Hfind; reflexivity.
Qed.

Lemma getBillingAccount_organization_first_witness :
  getBillingAccount twoAccountWorld
    {| userId := Some "user-1"; organizationId := Some "org-1";
       workspaceId := Some "ws-gone" |}
  = Some sampleAccount.
Proof.
  apply (getBillingAccount_organization_first twoAccountWorld _ "org-1" sampleAccount).
  - reflexivity.
  - discriminate.
  - reflexivity.
Defined.

(** X2. A lookup that names a workspace the store does not hold resolves
    to nothing when no organisation lookup answered first, even if it also
    names a user whose personal account is stored: the failed read is
    swallowed before the user is looked up. *)
Theorem getBillingAccount_missing_workspace_hides_user (w : World)
    (options : BillingLookupOptions) (ws : string) :
  lookupByOrganization w options = None ->
  workspaceId options = Some ws -> ws <> "" ->
  throws (getDocument (workspaces w) ws) ->
  getBillingAccount w options = None.
Proof.
  intros Horg Hws Hne (e & Hget).
  unfold getBillingAccount; rewrite Horg.
  unfold lookupByWorkspace.
  rewrite Hws, (truthy_nonempty ws Hne); cbn [str_of].
  rewrite Hget; reflexivity.
Qed.

Lemma getBillingAccount_missing_workspace_hides_user_witness :
  getBillingAccount twoAccountWorld
    {| userId := Some "user-1"; organizationId := None; workspaceId := Some "ws-gone" |}
  = None
  /\ getBillingAccount twoAccountWorld
       {| userId := Some "user-1"; organizationId := None; workspaceId := None |}
     = Some personalAccount.
Proof.
  split.
  - apply (getBillingAccount_missing_workspace_hides_user twoAccountWorld _ "ws-gone").
    + reflexivity.
    + reflexivity.
    + discriminate.
    + eexists; reflexivity.
  - reflexivity.
Defined.

Lemma field_equal_truthy (field : option string) (value : string) :
  value <> "" -> field_equal field value = true -> truthy field = true.
Proof.
  destruct field as [v|]; simpl; [|discriminate].
  intros Hne E; apply String.eqb_eq in E; subst v.
  destruct (String.eqb value "") eqn:E0; [|reflexivity].
  apply String.eqb_eq in E0; contradiction.
Qed.

Lemma truthy_str_of (s : option string) : truthy s = true -> str_of s <> "".
Proof.
  destruct s as [v|]; simpl; [|discriminate].
  destruct (String.eqb v "") eqn:E; [discriminate|].
  intros _ H; apply String.eqb_neq in E; contradiction.
Qed.

Lemma BillingAccountType_eqb_eq (a b : BillingAccountType) :
  BillingAccountType_eqb a b = true -> a = b.
Proof. destruct a, b; simpl; congruence. Qed.

Lemma orgAccounts_kind (w : World) (org : string) (a : BillingAccount) :
  org <> "" ->
  returnFirst (orgAccounts w org) = Some (Some a) ->
  In a (billing_accounts w) /\ acct_type a = ORG /\ acct_organizationId a = Some org.
Proof.
  intros Hne H; apply returnFirst_in in H; destruct H as (Hin & Hp).
  apply andb_true_iff in Hp; destruct Hp as (Hf & Ht).
  repeat split; [exact Hin | apply BillingAccountType_eqb_eq, Ht |].
  destruct (acct_organizationId a) as [v|]; simpl in Hf; [|discriminate].
  apply String.eqb_eq in Hf; congruence.
Qed.

Lemma personalAccounts_kind (w : World) (user : string) (a : BillingAccount) :
  user <> "" ->
  returnFirst (personalAccounts w user) = Some (Some a) ->
  In a (billing_accounts w) /\ acct_type a = PERSONAL /\ acct_userId a = Some user.
Proof.
  intros Hne H; apply returnFirst_in in H; destruct H as (Hin & Hp).
  apply andb_true_iff in Hp; destruct Hp as (Hf & Ht).
  repeat split; [exact Hin | apply BillingAccountType_eqb_eq, Ht |].
  destruct (acct_userId a) as [v|]; simpl in Hf; [|discriminate].
  apply String.eqb_eq in Hf; congruence.
Qed.

Lemma lookupByOrganization_kind (w : World) (options : BillingLookupOptions)
    (a : BillingAccount) :
  lookupByOrganization w options = Some (Some a) ->
  In a (billing_accounts w)
  /\ acct_type a = ORG /\ truthy (acct_organizationId a) = true.
Proof.
  unfold lookupByOrganization.
  destruct (truthy (organizationId options)) eqn:T; [|discriminate].
  intro H; apply orgAccounts_kind in H; [|apply truthy_str_of, T].
  destruct H as (Hin & Ht & Hf); repeat split; try assumption.
  rewrite Hf; apply truthy_nonempty, truthy_str_of, T.
Qed.

Lemma lookupByUser_kind (w : World) (options : BillingLookupOptions)
    (a : BillingAccount) :
  lookupByUser w options = Some (Some a) ->
  In a (billing_accounts w)
  /\ acct_type a = PERSONAL /\ truthy (acct_userId a) = true
  /\ acct_userId a = userId options.
Proof.
  unfold lookupByUser.
  destruct (truthy (userId options)) eqn:T; [|discriminate].
  intro H; apply personalAccounts_kind in H; [|apply truthy_str_of, T].
  destruct H as (Hin & Ht & Hf); repeat split; try assumption.
  - rewrite Hf; apply truthy_nonempty, truthy_str_of, T.
  - rewrite Hf; destruct (userId options); [reflexivity | discriminate].
Qed.

Lemma lookupByWorkspace_kind (w : World) (options : BillingLookupOptions)
    (a : BillingAccount) :
  lookupByWorkspace w options = OK (Some (Some a)) ->
  In a (billing_accounts w)
  /\ ((acct_type a = ORG /\ truthy (acct_organizationId a) = true)
      \/ (acct_type a = PERSONAL /\ truthy (acct_userId a) = true)).
Proof.
  unfold lookupByWorkspace.
  destruct (truthy (workspaceId options)); [|discriminate].
  destruct (getDocument (workspaces w) _) as [ws|e]; simpl; [|discriminate].
  destruct (truthy (ws_organizationId ws)) eqn:To.
  - intro H; injection H as H.
    apply orgAccounts_kind in H; [|apply truthy_str_of, To].
    destruct H as (Hin & Ht & Hf); split; [exact Hin|]; left; split; [exact Ht|].
    rewrite Hf; apply truthy_nonempty, truthy_str_of, To.
  - destruct (truthy (ws_userId ws)) eqn:Tu; [|discriminate].
    intro H; injection H as H.
    apply personalAccounts_kind in H; [|apply truthy_str_of, Tu].
    destruct H as (Hin & Ht & Hf); split; [exact Hin|]; right; split; [exact Ht|].
    rewrite Hf; apply truthy_nonempty, truthy_str_of, Tu.
Qed.

(** X3. Whatever [getBillingAccount] resolves is a stored account that is
    either an ORG account of a named (non-empty) organisation or a PERSONAL
    account of a named user; and a lookup that names neither a workspace
    nor an organisation can only resolve to a personal account of its
    user. *)
Theorem getBillingAccount_resolves_by_kind (w : World)
    (options : BillingLookupOptions) (a : BillingAccount) :
  getBillingAccount w options = Some a ->
  In a (billing_accounts w)
  /\ ((acct_type a = ORG /\ truthy (acct_organizationId a) = true)
      \/ (acct_type a = PERSONAL /\ truthy (acct_userId a) = true))
  /\ (truthy (organizationId options) = false ->
      truthy (workspaceId options) = false ->
      acct_type a = PERSONAL /\ acct_userId a = userId options).
Proof.
  unfold getBillingAccount.
  destruct (lookupByOrganization w options) as [r1|] eqn:R1.
  - simpl; intro E; subst r1.
    destruct (lookupByOrganization_kind w options a R1) as (Hin & Ht & Hf).
    split; [exact Hin|]; split; [left; tauto|].
    intros To _; unfold lookupByOrganization in R1; rewrite To in R1; discriminate.
  - destruct (lookupByWorkspace w options) as [[r2|]|e] eqn:R2; simpl.
    + intro E; subst r2.
      destruct (lookupByWorkspace_kind w options a R2) as (Hin & Hk).
      split; [exact Hin|]; split; [exact Hk|].
      intros _ Tw; unfold lookupByWorkspace in R2; rewrite Tw in R2; discriminate.
    + destruct (lookupByUser w options) as [r3|] eqn:R3; simpl; [|discriminate].
      intro E; subst r3.
      destruct (lookupByUser_kind w options a R3) as (Hin & Ht & Hf & Hu).
      split; [exact Hin|]; split; [right; tauto|].
      intros _ _; split; assumption.
    + discriminate.
Qed.

Lemma getBillingAccount_resolves_by_kind_witness :
  acct_type personalAccount = PERSONAL
  /\ acct_userId personalAccount = Some "user-1".
Proof.
  destruct (getBillingAccount_resolves_by_kind twoAccountWorld
              {| userId := Some "user-1"; organizationId := None; workspaceId := None |}
              personalAccount eq_refl) as (_ & _ & H).
  apply H; reflexivity.
Defined.

(** ** Locking and unlocking *)

Lemma updateBillingAccount_found (id : string) (patch : BillingAccount -> BillingAccount)
    (w : World) (a : BillingAccount) :
  getDocument (billing_accounts w) id = OK a ->
  updateBillingAccount id patch w = (withPatchedAccount id patch w, OK tt).
Proof.
  intro Hget; unfold updateBillingAccount.
  rewrite (updateDocument_found _ id patch a Hget); reflexivity.
Qed.

Lemma updateBillingAccount_missing (id : string) (patch : BillingAccount -> BillingAccount)
    (w : World) :
  throws (getDocument (billing_accounts w) id) ->
  updateBillingAccount id patch w = (w, Throw not_found).
Proof.
  intros (e & He); unfold updateBillingAccount, updateDocument.
  unfold getDocument in He.
  destruct (find (has_id id) (billing_accounts w)); [discriminate | reflexivity].
Qed.

Lemma getDocument_patched (id : string) (patch : BillingAccount -> BillingAccount)
    (w : World) (a : BillingAccount) :
  (forall x, acct_id (patch x) = acct_id x) ->
  getDocument (billing_accounts w) id = OK a ->
  getDocument (billing_accounts (withPatchedAccount id patch w)) id = OK (patch a).
Proof.
  intros keep Hget.
  apply (getDocument_after_update (billing_accounts w) _ id patch a keep Hget).
  apply (updateDocument_found _ id patch a Hget).
Qed.

Lemma getDocument_cases (w : World) (id : string) :
  returns (getDocument (billing_accounts w) id)
  \/ throws (getDocument (billing_accounts w) id).
Proof.
  destruct (getDocument (billing_accounts w) id) as [a|e];
    [left | right]; eexists; reflexivity.
Qed.

(** The world that [lockBillingCycle] leaves: untouched when the account
    is missing or already locked, with the lock written otherwise. *)
Lemma lockBillingCycle_world (now : Z) (id : string) (w : World) :
  (throws (getDocument (billing_accounts w) id)
   /\ fst (lockBillingCycle now id w) = w)
  \/ (exists a, getDocument (billing_accounts w) id = OK a
                /\ isBillingCycleLocked a = true
                /\ fst (lockBillingCycle now id w) = w)
  \/ (exists a, getDocument (billing_accounts w) id = OK a
                /\ isBillingCycleLocked a = false
                /\ fst (lockBillingCycle now id w)
                   = withPatchedAccount id (with_lock true (Some (isoString now))) w).
Proof.
  destruct (getDocument (billing_accounts w) id) as [a|e] eqn:Hget.
  - destruct (isBillingCycleLocked a) eqn:L.
    + right; left; exists a; repeat split; try assumption.
      rewrite (lockBillingCycle_locked now id w a Hget L); reflexivity.
    + right; right; exists a; repeat split; try assumption.
      unfold lockBillingCycle, try_catchM, bindM, reading, ret.
      rewrite Hget, L.
      rewrite (updateBillingAccount_found id (with_lock true (Some (isoString now)))
                 w a Hget).
      rewrite (getDocument_patched id (with_lock true (Some (isoString now))) w a
                 (fun x => eq_refl) Hget); simpl.
      rewrite strict_neq_same; reflexivity.
  - left; split; [eexists; reflexivity|].
    unfold lockBillingCycle, try_catchM, bindM, reading, ret.
    rewrite Hget; reflexivity.
Qed.

Lemma unlockBillingCycle_found (id : string) (w : World) (a : BillingAccount) :
  getDocument (billing_accounts w) id = OK a ->
  unlockBillingCycle id w = (withPatchedAccount id (with_lock false None) w, OK true).
Proof.
  intro Hget; unfold unlockBillingCycle, try_catchM, bindM, ret.
  rewrite (updateBillingAccount_found id (with_lock false None) w a Hget); reflexivity.
Qed.

Lemma unlockBillingCycle_missing (id : string) (w : World) :
  throws (getDocument (billing_accounts w) id) ->
  unlockBillingCycle id w = (w, OK false).
Proof.
  intro H; unfold unlockBillingCycle, try_catchM, bindM, ret.
  rewrite (updateBillingAccount_missing id (with_lock false None) w H); reflexivity.
Qed.

(** X4. The flag that [isBillingCycleLocked] reads follows the lock: it is
    false for an account the store does not hold, true after
    [lockBillingCycle] on a stored account (whether that call took the lock
    or found it taken), and false after [unlockBillingCycle]. *)
Theorem isBillingCycleLocked_follows_lock (now : Z) (id : string) (w : World) :
  (throws (getDocument (billing_accounts w) id) ->
     isBillingCycleLockedById w id = false)
  /\ (returns (getDocument (billing_accounts w) id) ->
        isBillingCycleLockedById (fst (lockBillingCycle now id w)) id = true)
  /\ isBillingCycleLockedById (fst (unlockBillingCycle id w)) id = false.
Proof.
  split; [|split].
  - intros (e & He); unfold isBillingCycleLockedById; rewrite He; reflexivity.
  - intros (a & Hget).
    unfold isBillingCycleLockedById.
    destruct (lockBillingCycle_world now id w)
      as [((e & He) & _) | [(b & Hb & L & ->) | (b & Hb & L & ->)]].
    + congruence.
    + rewrite Hb; simpl; rewrite L; reflexivity.
    + rewrite (getDocument_patched id (with_lock true (Some (isoString now))) w b
                 (fun x => eq_refl) Hb); reflexivity.
  - destruct (getDocument_cases w id) as [(a & Hget) | Hmiss].
    + rewrite (unlockBillingCycle_found id w a Hget); simpl.
      unfold isBillingCycleLockedById.
      rewrite (getDocument_patched id (with_lock false None) w a
                 (fun x => eq_refl) Hget); reflexivity.
    + rewrite (unlockBillingCycle_missing id w Hmiss); simpl.
      destruct Hmiss as (e & He).
      unfold isBillingCycleLockedById; rewrite He; reflexivity.
Qed.

Lemma isBillingCycleLocked_follows_lock_witness :
  isBillingCycleLockedById (sampleWorld sampleAccount [] []) "acct-1" = false
  /\ isBillingCycleLockedById
       (fst (lockBillingCycle midJanuary "acct-1" (sampleWorld sampleAccount [] [])))
       "acct-1" = true
  /\ isBillingCycleLockedById (sampleWorld sampleAccount [] []) "acct-9" = false.
Proof.
  destruct (isBillingCycleLocked_follows_lock midJanuary "acct-1"
              (sampleWorld sampleAccount [] [])) as (_ & Hlock & _).
  destruct (isBillingCycleLocked_follows_lock midJanuary "acct-9"
              (sampleWorld sampleAccount [] [])) as (Hmiss & _ & _).
  split; [reflexivity | split].
  - apply Hlock; eexists; reflexivity.
  - apply Hmiss; eexists; reflexivity.
Defined.

(** X5. Unlocking re-enables the lock: on a stored account, locked or not,
    [unlockBillingCycle] returns true and the next [lockBillingCycle]
    succeeds with the timestamp of its own clock reading. *)
Theorem unlock_then_lock (now : Z) (id : string) (w : World) (a : BillingAccount) :
  getDocument (billing_accounts w) id = OK a ->
  exists w1 w2 : World,
    unlockBillingCycle id w = (w1, OK true)
    /\ lockBillingCycle now id w1 = (w2, OK (lockAcquired (isoString now)))
    /\ getDocument (billing_accounts w2) id
       = OK (with_lock true (Some (isoString now)) a).
Proof.
  intro Hget.
  pose proof (getDocument_patched id (with_lock false None) w a (fun x => eq_refl) Hget)
    as Hunlocked.
  destruct (lockBillingCycle_unlocked now id _ _ Hunlocked eq_refl)
    as (w2 & Hlock & Hback).
  exists (withPatchedAccount id (with_lock false None) w), w2; repeat split.
  - apply (unlockBillingCycle_found id w a Hget).
  - exact Hlock.
  - exact Hback.
Qed.

Lemma unlock_then_lock_witness :
  exists w1 w2 : World,
    unlockBillingCycle "acct-1" (sampleWorld lockedAccount [] []) = (w1, OK true)
    /\ lockBillingCycle midJanuary "acct-1" w1
       = (w2, OK (lockAcquired "2024-01-15T12:00:00.000Z")).
Proof.
  destruct (unlock_then_lock midJanuary "acct-1" (sampleWorld lockedAccount [] [])
              lockedAccount eq_refl) as (w1 & w2 & Hu & Hl & _).
  exists w1, w2; split; [exact Hu | exact Hl].
Defined.

Lemma patched_twice (id : string) (patch : BillingAccount -> BillingAccount)
    (l : list BillingAccount) :
  (forall x, acct_id (patch x) = acct_id x) ->
  (forall x, patch (patch x) = patch x) ->
  map (patched id patch) (map (patched id patch) l) = map (patched id patch) l.
Proof.
  intros keep idem; rewrite map_map; apply map_ext; intro d.
  unfold patched; destruct (has_id id d) eqn:E; [|rewrite E; reflexivity].
  assert (E' : has_id id (patch d) = true)
    by (unfold has_id, doc_id, BillingAccount_doc in *; rewrite keep; exact E).
  rewrite E'; apply idem.
Qed.

(** X6. [unlockBillingCycle] is safe to repeat: it returns true exactly
    when the store holds the account, leaves the world as it is when it
    returns false, and a second call returns the same answer and leaves the
    world of the first call unchanged. *)
Theorem unlockBillingCycle_idempotent (id : string) (w : World) :
  exists (w1 : World) (found : bool),
    unlockBillingCycle id w = (w1, OK found)
    /\ unlockBillingCycle id w1 = (w1, OK found)
    /\ (found = true <-> returns (getDocument (billing_accounts w) id))
    /\ (found = false -> w1 = w).
Proof.
  destruct (getDocument_cases w id) as [(a & Hget) | Hmiss].
  - exists (withPatchedAccount id (with_lock false None) w), true.
    pose proof (getDocument_patched id (with_lock false None) w a (fun x => eq_refl) Hget)
      as Hback.
    repeat split.
    + apply (unlockBillingCycle_found id w a Hget).
    + rewrite (unlockBillingCycle_found id _ _ Hback).
      unfold withPatchedAccount, set_billing_accounts; cbn [billing_accounts workspaces
        usage_events usage_aggregations usage_alerts notifications webhook_ok
        webhook_posts].
      rewrite patched_twice; [reflexivity | reflexivity | reflexivity].
    + intros _; exists a; exact Hget.
    + discriminate.
  - exists w, false; repeat split.
    + apply (unlockBillingCycle_missing id w Hmiss).
    + apply (unlockBillingCycle_missing id w Hmiss).
    + discriminate.
    + intros (a & Ha); destruct Hmiss as (e & He); congruence.
Qed.

Lemma unlockBillingCycle_idempotent_witness :
  unlockBillingCycle "acct-9" (sampleWorld lockedAccount [] [])
  = (sampleWorld lockedAccount [] [], OK false).
Proof.
  destruct (unlockBillingCycle_idempotent "acct-9" (sampleWorld lockedAccount [] []))
    as (w1 & found & Hrun & _ & Hfound & Hsame).
  destruct found.
  - destruct (proj1 Hfound eq_refl) as (a & Ha); discriminate Ha.
  - rewrite Hrun, (Hsame eq_refl); reflexivity.
Defined.

Lemma map_patched_erased (id : string) (locked : bool) (at_ : option string)
    (l : list BillingAccount) :
  map withoutLock (map (patched id (with_lock locked at_)) l) = map withoutLock l.
Proof.
  rewrite map_map; apply map_ext; intro d.
  unfold patched; destruct (has_id id d); reflexivity.
Qed.

Lemma filter_patched_others (id : string) (patch : BillingAccount -> BillingAccount)
    (l : list BillingAccount) :
  (forall x, acct_id (patch x) = acct_id x) ->
  filter (fun d => negb (has_id id d)) (map (patched id patch) l)
  = filter (fun d => negb (has_id id d)) l.
Proof.
  intro keep; induction l as [|d l IH]; [reflexivity|].
  cbn [map filter].
  destruct (has_id id d) eqn:E.
  - assert (P : patched id patch d = patch d) by (unfold patched; rewrite E; reflexivity).
    assert (E' : has_id id (patch d) = true)
      by (unfold has_id, doc_id, BillingAccount_doc in *; rewrite keep; exact E).
    rewrite P, E'; simpl; exact IH.
  - assert (P : patched id patch d = d) by (unfold patched; rewrite E; reflexivity).
    rewrite P, E; simpl; rewrite IH; reflexivity.
Qed.

(** X7. [lockBillingCycle] touches nothing but the two lock fields of the
    billing account it is called for: the other collections, the accounts
    of other ids and every other field of every account stay as they
    were. *)
Theorem lockBillingCycle_frame (now : Z) (id : string) (w : World) :
  let w' := fst (lockBillingCycle now id w) in
  workspaces w' = workspaces w
  /\ usage_events w' = usage_events w
  /\ usage_aggregations w' = usage_aggregations w
  /\ usage_alerts w' = usage_alerts w
  /\ notifications w' = notifications w
  /\ webhook_posts w' = webhook_posts w
  /\ map withoutLock (billing_accounts w') = map withoutLock (billing_accounts w)
  /\ filter (fun d => negb (has_id id d)) (billing_accounts w')
     = filter (fun d => negb (has_id id d)) (billing_accounts w).
Proof.
  cbv zeta.
  destruct (lockBillingCycle_world now id w)
    as [(_ & ->) | [(b & _ & _ & ->) | (b & _ & _ & ->)]].
  1,2: repeat split; reflexivity.
  unfold withPatchedAccount, set_billing_accounts; cbn [billing_accounts workspaces
    usage_events usage_aggregations usage_alerts notifications webhook_posts].
  repeat split.
  - apply map_patched_erased.
  - apply filter_patched_others; reflexivity.
Qed.

(** ** Two callers of [lockBillingCycle] *)

(** [lockBillingCycle] is its read, then (on an unlocked account) the
    write of step 3 and the read-back of step 4. *)
Lemma lockBillingCycle_steps (now : Z) (id : string) :
  lockBillingCycle now id
  = try_catchM
      (account <- reading (fun w => getDocument (billing_accounts w) id) ;;
       if isBillingCycleLocked account then
         ret {| success := false; alreadyLocked := true;
                lockedAt := billingCycleLockedAt account; lock_error := None |}
       else
         _ <- lockWrite now id ;;
         lockVerify now id)
      (fun error =>
         ret {| success := false; alreadyLocked := false;
                lockedAt := None; lock_error := Some (exnMessage error) |}).
Proof. reflexivity. Qed.

Lemma lockWrite_found (now : Z) (id : string) (w : World) (a : BillingAccount) :
  getDocument (billing_accounts w) id = OK a ->
  lockWrite now id w
  = (withPatchedAccount id (with_lock true (Some (isoString now))) w, OK tt)
  /\ getDocument
       (billing_accounts (withPatchedAccount id (with_lock true (Some (isoString now))) w))
       id
     = OK (with_lock true (Some (isoString now)) a).
Proof.
  intro Hget; split.
  - apply (updateBillingAccount_found id _ w a Hget).
  - apply (getDocument_patched id (with_lock true (Some (isoString now))) w a
             (fun x => eq_refl) Hget).
Qed.

Lemma lockVerify_reads (now : Z) (id : string) (w : World) (a : BillingAccount) :
  getDocument (billing_accounts w) id = OK a ->
  lockVerify now id w
  = (w, OK (if strict_neq (billingCycleLockedAt a) (isoString now)
            then {| success := false; alreadyLocked := true;
                    lockedAt := billingCycleLockedAt a; lock_error := None |}
            else lockAcquired (isoString now))).
Proof.
  intro Hget; unfold lockVerify, bindM, reading, ret; rewrite Hget.
  destruct (strict_neq _ _); reflexivity.
Qed.

Lemma strict_neq_other (s t : string) : s <> t -> strict_neq (Some s) t = true.
Proof.
  intro H; unfold strict_neq; simpl.
  destruct (String.eqb s t) eqn:E; [|reflexivity].
  apply String.eqb_eq in E; contradiction.
Qed.

(** X8. Two callers that both found the account unlocked and whose writes
    reach the store one after the other before either reads back: the
    caller whose write was overwritten reports
    [{success: false, alreadyLocked: true}] with the other caller's
    timestamp, and the other caller reports success, provided the two
    timestamps differ. *)
Theorem lock_race_detected (w : World) (id : string) (a : BillingAccount)
    (tA tB : Z) :
  getDocument (billing_accounts w) id = OK a ->
  isoString tA <> isoString tB ->
  exists w1 w2 : World,
    lockWrite tA id w = (w1, OK tt)
    /\ lockWrite tB id w1 = (w2, OK tt)
    /\ lockVerify tA id w2
       = (w2, OK {| success := false; alreadyLocked := true;
                    lockedAt := Some (isoString tB); lock_error := None |})
    /\ lockVerify tB id w2 = (w2, OK (lockAcquired (isoString tB))).
Proof.
  intros Hget Hdiff.
  destruct (lockWrite_found tA id w a Hget) as (HwA & HbackA).
  destruct (lockWrite_found tB id _ _ HbackA) as (HwB & HbackB).
  do 2 eexists; split; [exact HwA|]; split; [exact HwB|]; split.
  - rewrite (lockVerify_reads tA id _ _ HbackB); cbn [billingCycleLockedAt with_lock].
    rewrite strict_neq_other by (intro E; apply Hdiff; symmetry; exact E).
    reflexivity.
  - rewrite (lockVerify_reads tB id _ _ HbackB); cbn [billingCycleLockedAt with_lock].
    rewrite strict_neq_same; reflexivity.
Qed.

Lemma lock_race_detected_witness :
  exists w1 w2 : World,
    lockWrite midJanuary "acct-1" (sampleWorld sampleAccount [] []) = (w1, OK tt)
    /\ lockWrite (midJanuary + 1) "acct-1" w1 = (w2, OK tt)
    /\ lockVerify midJanuary "acct-1" w2
       = (w2, OK {| success := false; alreadyLocked := true;
                    lockedAt := Some (isoString (midJanuary + 1)); lock_error := None |})
    /\ lockVerify (midJanuary + 1) "acct-1" w2
       = (w2, OK (lockAcquired (isoString (midJanuary + 1)))).
Proof.
  apply (lock_race_detected (sampleWorld sampleAccount [] []) "acct-1" sampleAccount
           midJanuary (midJanuary + 1)).
  - reflexivity.
  - vm_compute; discriminate.
Defined.

(** X9. The read-back does not make the lock exclusive.  A caller that
    found the account unlocked, and whose write reaches the store only
    after another caller's whole [lockBillingCycle] has succeeded, reports
    success as well; the stored [billingCycleLockedAt] is then the later
    caller's timestamp, not the one the first caller was told. *)
Theorem lock_race_both_succeed (w : World) (id : string) (a : BillingAccount)
    (tA tB : Z) :
  getDocument (billing_accounts w) id = OK a ->
  isBillingCycleLocked a = false ->
  exists w1 w2 : World,
    lockBillingCycle tA id w = (w1, OK (lockAcquired (isoString tA)))
    /\ lockWrite tB id w1 = (w2, OK tt)
    /\ lockVerify tB id w2 = (w2, OK (lockAcquired (isoString tB)))
    /\ getDocument (billing_accounts w2) id
       = OK (with_lock true (Some (isoString tB)) a).
Proof.
  intros Hget Hunlocked.
  destruct (lockBillingCycle_unlocked tA id w a Hget Hunlocked) as (w1 & HA & HbackA).
  destruct (lockWrite_found tB id w1 _ HbackA) as (HwB & HbackB).
  exists w1; eexists; split; [exact HA|]; split; [exact HwB|]; split.
  - rewrite (lockVerify_reads tB id _ _ HbackB); cbn [billingCycleLockedAt with_lock].
    rewrite strict_neq_same; reflexivity.
  - exact HbackB.
Qed.

Lemma lock_race_both_succeed_witness :
  exists w1 w2 : World,
    lockBillingCycle midJanuary "acct-1" (sampleWorld sampleAccount [] [])
    = (w1, OK (lockAcquired (isoString midJanuary)))
    /\ lockWrite (midJanuary + 1) "acct-1" w1 = (w2, OK tt)
    /\ lockVerify (midJanuary + 1) "acct-1" w2
       = (w2, OK (lockAcquired (isoString (midJanuary + 1)))).
Proof.
  destruct (lock_race_both_succeed (sampleWorld sampleAccount [] []) "acct-1"
              sampleAccount midJanuary (midJanuary + 1) eq_refl eq_refl)
    as (w1 & w2 & HA & Hw & Hv & _).
  exists w1, w2; repeat split; assumption.
Defined.

(** ** How the guards compose *)

(** X10. The guards are ordered by strength: whatever [assertBillingActive]
    returns, [assertBillingNotSuspended] returns too; whatever
    [assertCanWriteUsage] returns carries the account that
    [assertBillingNotSuspended] returns, always with [allowed: true]; and
    an error of [assertBillingNotSuspended] is the error of the other
    two. *)
Theorem guards_ordered (w : World) (options : BillingLookupOptions) :
  (forall r, assertBillingActive w options = OK r ->
             assertBillingNotSuspended w options = OK r)
  /\ (forall u, assertCanWriteUsage w options = OK u ->
                assertBillingNotSuspended w options = OK (account u)
                /\ allowed u = true)
  /\ (forall e, assertBillingNotSuspended w options = Throw e ->
                assertBillingActive w options = Throw e
                /\ assertCanWriteUsage w options = Throw e).
Proof.
  unfold assertCanWriteUsage, assertBillingActive, assertBillingNotSuspended.
  destruct (getBillingAccount w options) as [a|]; simpl.
  - destruct (BillingStatus_eqb (billingStatus a) SUSPENDED) eqn:S; simpl.
    + repeat split; try discriminate; congruence.
    + destruct (BillingStatus_eqb (billingStatus a) DUE);
        destruct (isBillingCycleLocked a); repeat split;
        try discriminate; try congruence.
      all: match goal with
           | Hu : OK _ = OK ?u |- _ => injection Hu as <-; reflexivity
           end.
  - repeat split; try discriminate; try congruence.
    all: match goal with
         | Hu : OK _ = OK ?u |- _ => injection Hu as <-; reflexivity
         end.
Qed.

Lemma guards_ordered_witness :
  assertBillingNotSuspended (sampleWorld sampleAccount [] []) byOrganization
  = OK (Some sampleAccount).
Proof.
  destruct (guards_ordered (sampleWorld sampleAccount [] []) byOrganization)
    as (Hactive & _).
  apply Hactive; reflexivity.
Defined.

Lemma find_map_preserved {A : Type} (p : A -> bool) (f : A -> A) (l : list A) :
  (forall d, p (f d) = p d) ->
  find p (map f l) = option_map f (find p l).
Proof.
  intro keep; induction l as [|d l IH]; simpl; [reflexivity|].
  rewrite keep; destruct (p d); [reflexivity | exact IH].
Qed.

(** Writing the lock fields does not change which account a query finds. *)
Lemma returnFirst_patched (id : string) (locked : bool) (at_ : option string)
    (coll : list BillingAccount) (p : BillingAccount -> bool) :
  (forall d, p (patched id (with_lock locked at_) d) = p d) ->
  returnFirst (listDocuments (map (patched id (with_lock locked at_)) coll) p 1%N)
  = option_map (option_map (patched id (with_lock locked at_)))
      (returnFirst (listDocuments coll p 1%N)).
Proof.
  intro keep; rewrite !returnFirst_find, (find_map_preserved p _ coll keep).
  destruct (find p coll); reflexivity.
Qed.

Lemma isOrgAccountOf_patched (id org : string) (locked : bool) (at_ : option string)
    (d : BillingAccount) :
  isOrgAccountOf org (patched id (with_lock locked at_) d) = isOrgAccountOf org d.
Proof. unfold patched; destruct (has_id id d); reflexivity. Qed.

Lemma isPersonalAccountOf_patched (id user : string) (locked : bool)
    (at_ : option string) (d : BillingAccount) :
  isPersonalAccountOf user (patched id (with_lock locked at_) d)
  = isPersonalAccountOf user d.
Proof. unfold patched; destruct (has_id id d); reflexivity. Qed.

Lemma orgAccounts_patched (id org : string) (locked : bool) (at_ : option string)
    (w : World) :
  returnFirst (orgAccounts (withPatchedAccount id (with_lock locked at_) w) org)
  = option_map (option_map (patched id (with_lock locked at_)))
      (returnFirst (orgAccounts w org)).
Proof.
  apply (returnFirst_patched id locked at_ (billing_accounts w) (isOrgAccountOf org)).
  apply isOrgAccountOf_patched.
Qed.

Lemma personalAccounts_patched (id user : string) (locked : bool) (at_ : option string)
    (w : World) :
  returnFirst (personalAccounts (withPatchedAccount id (with_lock locked at_) w) user)
  = option_map (option_map (patched id (with_lock locked at_)))
      (returnFirst (personalAccounts w user)).
Proof.
  apply (returnFirst_patched id locked at_ (billing_accounts w)
           (isPersonalAccountOf user)).
  apply isPersonalAccountOf_patched.
Qed.

(** The lookup commutes with a write of the lock fields. *)
Lemma getBillingAccount_patched (id : string) (locked : bool) (at_ : option string)
    (w : World) (options : BillingLookupOptions) :
  getBillingAccount (withPatchedAccount id (with_lock locked at_) w) options
  = option_map (patched id (with_lock locked at_)) (getBillingAccount w options).
Proof.
  unfold getBillingAccount, lookupByOrganization, lookupByWorkspace, lookupByUser.
  rewrite !orgAccounts_patched, !personalAccounts_patched.
  change (workspaces (withPatchedAccount id (with_lock locked at_) w))
    with (workspaces w).
  destruct (truthy (organizationId options)).
  - destruct (returnFirst (orgAccounts w _)) as [r|]; simpl; [reflexivity|].
    destruct (truthy (workspaceId options)); simpl.
    + destruct (getDocument (workspaces w) _) as [ws|e]; simpl; [|reflexivity].
      rewrite !orgAccounts_patched, !personalAccounts_patched.
      destruct (truthy (ws_organizationId ws)); simpl.
      * destruct (returnFirst (orgAccounts w _)) as [r|]; simpl; [reflexivity|].
        destruct (truthy (userId options)); simpl; [|reflexivity].
        destruct (returnFirst (personalAccounts w _)); reflexivity.
      * destruct (truthy (ws_userId ws)); simpl.
        -- destruct (returnFirst (personalAccounts w (str_of (ws_userId ws))))
             as [r|]; simpl; [reflexivity|].
           destruct (truthy (userId options)); simpl; [|reflexivity].
           destruct (returnFirst (personalAccounts w _)); reflexivity.
        -- destruct (truthy (userId options)); simpl; [|reflexivity].
           destruct (returnFirst (personalAccounts w _)); reflexivity.
    + destruct (truthy (userId options)); simpl; [|reflexivity].
      destruct (returnFirst (personalAccounts w _)); reflexivity.
  - destruct (truthy (workspaceId options)); simpl.
    + destruct (getDocument (workspaces w) _) as [ws|e]; simpl; [|reflexivity].
      rewrite !orgAccounts_patched, !personalAccounts_patched.
      destruct (truthy (ws_organizationId ws)); simpl.
      * destruct (returnFirst (orgAccounts w _)) as [r|]; simpl; [reflexivity|].
        destruct (truthy (userId options)); simpl; [|reflexivity].
        destruct (returnFirst (personalAccounts w _)); reflexivity.
      * destruct (truthy (ws_userId ws)); simpl.
        -- destruct (returnFirst (personalAccounts w (str_of (ws_userId ws))))
             as [r|]; simpl; [reflexivity|].
           destruct (truthy (userId options)); simpl; [|reflexivity].
           destruct (returnFirst (personalAccounts w _)); reflexivity.
        -- destruct (truthy (userId options)); simpl; [|reflexivity].
           destruct (returnFirst (personalAccounts w _)); reflexivity.
    + destruct (truthy (userId options)); simpl; [|reflexivity].
      destruct (returnFirst (personalAccounts w _)); reflexivity.
Qed.

Lemma patched_own (a : BillingAccount) (patch : BillingAccount -> BillingAccount) :
  patched (acct_id a) patch a = patch a.
Proof.
  unfold patched, has_id, doc_id, BillingAccount_doc.
  rewrite String.eqb_refl; reflexivity.
Qed.

(** X11. Locking closes the cycle to usage writes and unlocking reopens
    it: for a lookup that resolves to a stored, non-suspended account,
    after [lockBillingCycle] on that account [assertCanWriteUsage] throws
    BILLING_CYCLE_LOCKED, and after [unlockBillingCycle] it returns the
    account (unlocked) with [allowed: true]. *)
Theorem lock_closes_usage_writes (now : Z) (w : World)
    (options : BillingLookupOptions) (a : BillingAccount) :
  getBillingAccount w options = Some a ->
  getDocument (billing_accounts w) (acct_id a) = OK a ->
  billingStatus a <> SUSPENDED ->
  throwsBilling
    (assertCanWriteUsage (fst (lockBillingCycle now (acct_id a) w)) options)
    BILLING_CYCLE_LOCKED
  /\ assertCanWriteUsage (fst (unlockBillingCycle (acct_id a) w)) options
     = OK {| account := Some (withoutLock a); allowed := true |}.
Proof.
  intros Hres Hget Hstatus.
  assert (Hs : BillingStatus_eqb (billingStatus a) SUSPENDED = false).
  { destruct (billingStatus a); try reflexivity; contradiction Hstatus; reflexivity. }
  split.
  - destruct (lockBillingCycle_world now (acct_id a) w)
      as [((e & He) & _) | [(b & Hb & L & ->) | (b & Hb & L & ->)]].
    + congruence.
    + assert (b = a) by congruence; subst b.
      unfold assertCanWriteUsage, assertBillingNotSuspended.
      rewrite Hres, Hs; simpl; rewrite L.
      do 3 eexists; reflexivity.
    + unfold assertCanWriteUsage, assertBillingNotSuspended.
      rewrite getBillingAccount_patched, Hres; cbn [option_map].
      rewrite patched_own; cbn [billingStatus with_lock].
      rewrite Hs; simpl.
      do 3 eexists; reflexivity.
  - rewrite (unlockBillingCycle_found _ w a Hget); cbn [fst].
    unfold assertCanWriteUsage, assertBillingNotSuspended.
    rewrite getBillingAccount_patched, Hres; cbn [option_map].
    rewrite patched_own; cbn [billingStatus with_lock].
    rewrite Hs; reflexivity.
Qed.

Lemma lock_closes_usage_writes_witness :
  throwsBilling
    (assertCanWriteUsage
       (fst (lockBillingCycle midJanuary "acct-1" (sampleWorld sampleAccount [] [])))
       byOrganization)
    BILLING_CYCLE_LOCKED.
Proof.
  apply (lock_closes_usage_writes midJanuary (sampleWorld sampleAccount [] [])
           byOrganization sampleAccount).
  - reflexivity.
  - reflexivity.
  - discriminate.
Defined.

(** ** The banner *)

(** X13. Whether the global warning is shown does not depend on the clock
    or on how the grace period end reads: it is shown exactly for a
    SUSPENDED account and for a DUE account with a non-empty
    [gracePeriodEnd]. *)
Theorem global_warning_shown (rt : Runtime) (now : Z) (acct : option BillingAccount) :
  shouldShowGlobalWarning (getAccountWarningState rt now acct) = true
  <-> exists a, acct = Some a
                /\ (billingStatus a = SUSPENDED
                    \/ (billingStatus a = DUE /\ truthy (gracePeriodEnd a) = true)).
Proof.
  destruct acct as [a|]; simpl.
  2:{ split; [discriminate | intros (a & H & _); discriminate H]. }
  unfold shouldShowGlobalWarning.
  destruct (billingStatus a) eqn:S; simpl.
  - split; [discriminate|].
    intros (b & Hb & [H | (H & _)]); injection Hb as <-; congruence.
  - destruct (truthy (gracePeriodEnd a)) eqn:T; simpl.
    + split; [intros _; exists a; split; [reflexivity | right; split; assumption]|].
      intros _.
      destruct (num_le _ 0); [reflexivity|].
      destruct (num_le _ 12); [reflexivity|].
      destruct (num_le _ NEAR_SUSPENSION_THRESHOLD_HOURS); reflexivity.
    + split; [discriminate|].
      intros (b & Hb & [H | (_ & H)]); injection Hb as <-; congruence.
  - split; [intros _; exists a; split; [reflexivity | left; assumption] | reflexivity].
Qed.

Lemma global_warning_shown_witness :
  shouldShowGlobalWarning
    (getAccountWarningState iso_runtime midJanuary
       (Some (with_status DUE (Some "not a date") sampleAccount))) = true.
Proof.
  apply (global_warning_shown iso_runtime midJanuary).
  eexists; split; [reflexivity|].
  right; split; reflexivity.
Defined.

Lemma hours_nonpositive_iff (now g : Z) :
  Qle_bool (inject_Z (g - now) / inject_Z (1000 * 60 * 60)) 0 = true <-> g <= now.
Proof.
  split; [|apply hours_nonpositive].
  intro H; apply Qle_bool_iff in H.
  unfold Qle, Qdiv, Qmult, Qinv in H; simpl in H; lia.
Qed.

(** X14. The number of hours and the state that [getAccountWarningState]
    reports for a DUE account agree: the reported [hoursRemaining] is a
    whole number [k >= 0], zero exactly when the grace period has run out,
    the state is CRITICAL exactly when [k <= 12] and WARNING exactly when
    [k >= 13]. *)
Theorem reported_hours_match_state (rt : Runtime) (now : Z) (a : BillingAccount)
    (s : string) (g : Z) :
  billingStatus a = DUE -> gracePeriodEnd a = Some s -> s <> "" ->
  Date_parse rt s = Some g ->
  exists k : Z,
    hoursRemaining (getAccountWarningState rt now (Some a)) = Some (Finite (inject_Z k))
    /\ 0 <= k
    /\ (k = 0 <-> g <= now)
    /\ (state (getAccountWarningState rt now (Some a)) = CRITICAL <-> k <= 12)
    /\ (state (getAccountWarningState rt now (Some a)) = WARNING <-> 13 <= k).
Proof.
  intros Hdue Hgrace Hne Hparse.
  unfold getAccountWarningState.
  rewrite Hdue, Hgrace, (truthy_nonempty s Hne).
  cbn [BillingStatus_eqb andb str_of].
  rewrite Hparse; unfold hoursBetween, Math_max0.
  set (h := (inject_Z (g - now) / inject_Z (1000 * 60 * 60))%Q).
  pose proof (hours_nonpositive_iff now g) as Hexp; fold h in Hexp.
  destruct (Qle_bool h 0) eqn:E0.
  - (* expired *)
    exists 0; cbn [num_le hoursRemaining state].
    split; [reflexivity|]; split; [lia|]; split; [|split].
    + split; [intros _; apply Hexp; reflexivity | reflexivity].
    + split; [lia | reflexivity].
    + split; [discriminate | lia].
  - assert (Hpos : (0 < h)%Q).
    { apply Qnot_le_lt; intro H; apply Qle_bool_iff in H; congruence. }
    assert (Hk : 1 <= Qceiling h).
    { pose proof (Qle_ceiling h) as Hc.
      assert (H0 : (inject_Z 0 < inject_Z (Qceiling h))%Q)
        by (eapply Qlt_le_trans; [exact Hpos | exact Hc]).
      rewrite <- Zlt_Qlt in H0; lia. }
    assert (Hnow : ~ g <= now) by (intro H; apply Hexp in H; discriminate H).
    exists (Qceiling h); cbn [num_le]; rewrite E0.
    destruct (Qle_bool h 12) eqn:E12.
    + assert (Hle : Qceiling h <= 12).
      { apply Qle_bool_iff in E12.
        apply Qceiling_resp_le in E12.
        change (12%Q) with (inject_Z 12) in E12; rewrite Qceiling_Z in E12; exact E12. }
      cbn [hoursRemaining state Math_ceil].
      split; [reflexivity|]; split; [lia|]; split; [|split].
      * split; [lia | contradiction].
      * split; [intros _; exact Hle | reflexivity].
      * split; [discriminate | lia].
    + assert (Hgt : 13 <= Qceiling h).
      { assert (H12 : (12 < h)%Q).
        { apply Qnot_le_lt; intro H; apply Qle_bool_iff in H; congruence. }
        pose proof (Qle_ceiling h) as Hc.
        assert (H0 : (inject_Z 12 < inject_Z (Qceiling h))%Q)
          by (eapply Qlt_le_trans; [exact H12 | exact Hc]).
        rewrite <- Zlt_Qlt in H0; lia. }
      destruct (Qle_bool h NEAR_SUSPENSION_THRESHOLD_HOURS);
        cbn [hoursRemaining state Math_ceil];
        (split; [reflexivity|]; split; [lia|]; split; [|split]).
      all: try (split; [lia | contradiction]).
      all: try (split; [discriminate | lia]).
      all: try (split; [intros _; exact Hgt | reflexivity]).
Qed.

Lemma reported_hours_match_state_witness :
  exists k : Z,
    hoursRemaining
      (getAccountWarningState iso_runtime midJanuary
         (Some (with_status DUE (Some "2024-01-16T00:30:00Z") sampleAccount)))
    = Some (Finite (inject_Z k))
    /\ 13 <= k.
Proof.
  destruct (reported_hours_match_state iso_runtime midJanuary
              (with_status DUE (Some "2024-01-16T00:30:00Z") sampleAccount)
              "2024-01-16T00:30:00Z" (midJanuary + 45000000))
    as (k & Hh & _ & _ & _ & Hwarn).
  - reflexivity.
  - reflexivity.
  - discriminate.
  - vm_compute; reflexivity.
  - exists k; split; [exact Hh|].
    apply Hwarn; vm_compute; reflexivity.
Defined.

(** ** The status machine as a whole *)

Lemma path_to_suspended (path : list BillingStatus) (from : BillingStatus) :
  legalPath from path -> In SUSPENDED path -> from <> SUSPENDED ->
  from = DUE \/ In DUE path.
Proof.
  revert from; induction path as [|x rest IH]; intros from Hlegal Hin Hfrom.
  - destruct Hin.
  - destruct Hlegal as (Hstep & Hrest).
    destruct x.
    + (* ACTIVE: the suspension is further along *)
      destruct Hin as [Hx | Hin]; [discriminate Hx|].
      destruct (IH ACTIVE Hrest Hin) as [H | H]; [discriminate | discriminate H |].
      right; right; exact H.
    + right; left; reflexivity.
    + (* SUSPENDED: only DUE steps there *)
      destruct from; [discriminate Hstep | left; reflexivity | contradiction].
Qed.

(** X15. No chain of accepted transitions takes an ACTIVE account to
    SUSPENDED without passing through DUE. *)
Theorem suspension_only_through_due (path : list BillingStatus) :
  legalPath ACTIVE path -> In SUSPENDED path -> In DUE path.
Proof.
  intros Hlegal Hin.
  destruct (path_to_suspended path ACTIVE Hlegal Hin) as [H | H];
    [discriminate | discriminate H | exact H].
Qed.

Lemma suspension_only_through_due_witness :
  In DUE [ACTIVE; DUE; DUE; SUSPENDED; ACTIVE].
Proof.
  apply suspension_only_through_due.
  - repeat split.
  - simpl; tauto.
Defined.

(** ** Late events, once adjusted *)

(** X12. Adjusting is stable on what it rolled forward: when a late event
    was moved to the cycle start of a locked account, the runtime reads the
    adjusted timestamp back as the instant of [billingCycleStart], and the
    cycle does not end before it starts, then adjusting the adjusted
    timestamp again returns it unchanged with [wasAdjusted] false. *)
Theorem adjusted_late_event_is_stable (rt : Runtime) (now now' : Z)
    (eventTimestamp : string) (a : BillingAccount) (r : Adjusted) :
  adjustEventForLockedCycle rt now eventTimestamp (Some a) = OK r ->
  isBillingCycleLocked a = true ->
  isBefore rt eventTimestamp (billingCycleStart a) ->
  Date_parse rt (timestamp r) = Date_parse rt (billingCycleStart a) ->
  ~ isBefore rt (billingCycleEnd a) (billingCycleStart a) ->
  wasAdjusted r = true
  /\ adjustEventForLockedCycle rt now' (timestamp r) (Some a)
     = OK {| timestamp := timestamp r; wasAdjusted := false; adjustReason := None |}.
Proof.
  intros Hrun Hlocked Hlate Hback Horder.
  assert (Hlt : Date_lt (Date_parse rt eventTimestamp)
                        (Date_parse rt (billingCycleStart a)) = true)
    by (apply Date_lt_isBefore; exact Hlate).
  destruct Hlate as (e & c & He & Hc & Hec).
  unfold adjustEventForLockedCycle in Hrun.
  rewrite Hlocked, Hlt, Hc in Hrun; simpl in Hrun.
  injection Hrun as <-; cbn [timestamp wasAdjusted] in *.
  split; [reflexivity|].
  unfold adjustEventForLockedCycle.
  rewrite Hback, Hc, Hlocked; unfold Date_gt.
  assert (Hself : Date_lt (Some c) (Some c) = false) by (apply Z.ltb_irrefl).
  rewrite Hself; cbn [andb].
  destruct (Date_lt (Date_parse rt (billingCycleEnd a)) (Some c)) eqn:Hend.
  - exfalso; apply Horder.
    rewrite <- Hc in Hend; apply Date_lt_isBefore in Hend; exact Hend.
  - reflexivity.
Qed.

Lemma adjusted_late_event_is_stable_witness :
  adjustEventForLockedCycle iso_runtime midJanuary "2024-01-01T00:00:00.000Z"
    (Some lockedAccount)
  = OK {| timestamp := "2024-01-01T00:00:00.000Z"; wasAdjusted := false;
          adjustReason := None |}.
Proof.
  apply (adjusted_late_event_is_stable iso_runtime midJanuary midJanuary
           "2023-12-31T23:00:00Z" lockedAccount
           {| timestamp := "2024-01-01T00:00:00.000Z"; wasAdjusted := true;
              adjustReason :=
                Some "Late event from 2023-12-31T23:00:00Z adjusted to cycle start" |}).
  - vm_compute; reflexivity.
  - reflexivity.
  - exists 1704063600000, 1704067200000; repeat split; vm_compute; reflexivity.
  - vm_compute; reflexivity.
  - intros (x & y & Hx & Hy & Hxy).
    vm_compute in Hx, Hy.
    injection Hx as <-; injection Hy as <-; lia.
Defined.

(** ** The billing invariant checker *)

(** X16. [assertStatusTransition] accepts exactly the transitions of the
    table (and the no-op ones); every other pair raises an
    InvariantViolationError named STATUS_TRANSITION that carries the
    message of [assertValidStatusTransition]; nothing else is thrown. *)
Theorem assertStatusTransition_wraps (billingAccountId : string)
    (from to : BillingStatus) :
  (assertStatusTransition billingAccountId from to = Done tt
   <-> (to = from \/ allowedTarget from to))
  /\ (forall t, assertStatusTransition billingAccountId from to = Raised t ->
        exists e, assertValidStatusTransition from to = Throw e
                  /\ t = Violation (newViolation "STATUS_TRANSITION" (exnMessage e)))
  /\ (~ (to = from \/ allowedTarget from to) ->
        raisesViolation (assertStatusTransition billingAccountId from to)
          "STATUS_TRANSITION").
Proof.
  assert (Hdone : assertStatusTransition billingAccountId from to = Done tt
                  <-> (to = from \/ allowedTarget from to)).
  { split.
    - destruct from, to; cbv; intro H;
        first [ left; reflexivity | right; constructor | discriminate H ].
    - intros [-> | H]; [destruct from; reflexivity | destruct H; reflexivity]. }
  assert (Hraised : forall t,
            assertStatusTransition billingAccountId from to = Raised t ->
            exists e, assertValidStatusTransition from to = Throw e
                      /\ t = Violation (newViolation "STATUS_TRANSITION" (exnMessage e))).
  { unfold assertStatusTransition.
    destruct (assertValidStatusTransition from to) as [u|e]; [discriminate|].
    intros t H; injection H as <-; exists e; split; reflexivity. }
  split; [exact Hdone|]; split; [exact Hraised|].
  intro Hno.
  destruct (assertStatusTransition billingAccountId from to) as [[]|t] eqn:E.
  - exfalso; apply Hno, Hdone; reflexivity.
  - destruct (Hraised t eq_refl) as (e & _ & ->).
    eexists; split; reflexivity.
Qed.

Lemma assertStatusTransition_wraps_witness :
  raisesViolation (assertStatusTransition "acct-1" SUSPENDED DUE) "STATUS_TRANSITION".
Proof.
  destruct (assertStatusTransition_wraps "acct-1" SUSPENDED DUE) as (_ & _ & H).
  apply H; intros [E | E]; [discriminate E | inversion E].
Defined.

(** X17. [assertSuspendedCannotMutate] and [assertBillingNotSuspended]
    refuse the same lookups: the first raises SUSPENDED_MUTATION exactly
    when the second throws BILLING_SUSPENDED, and returns exactly when the
    second returns (a missing account passes both). *)
Theorem assertSuspendedCannotMutate_agrees (w : World)
    (options : BillingLookupOptions) :
  (raisesViolation (assertSuspendedCannotMutate w options) "SUSPENDED_MUTATION"
   <-> throwsBilling (assertBillingNotSuspended w options) BILLING_SUSPENDED)
  /\ (assertSuspendedCannotMutate w options = Done tt
      <-> returns (assertBillingNotSuspended w options))
  /\ (forall t, assertSuspendedCannotMutate w options = Raised t ->
        exists v, t = Violation v).
Proof.
  unfold assertSuspendedCannotMutate, assertBillingNotSuspended, isSuspended,
    raisesViolation, throwsBilling, returns.
  destruct (getBillingAccount w options) as [a|].
  - destruct (BillingStatus_eqb (billingStatus a) SUSPENDED); repeat split.
    all: try (intros _; do 3 eexists; reflexivity).
    all: try (intros _; eexists; split; reflexivity).
    all: try (intros _; eexists; reflexivity).
    all: try discriminate.
    all: try (intros (x & H); discriminate H).
    all: try (intros (x & H & _); discriminate H).
    all: try (intros (m & i & s & H); discriminate H).
    all: try (intros t H; injection H as <-; eexists; reflexivity).
  - repeat split.
    all: try (intros _; eexists; reflexivity).
    all: try discriminate.
    all: try (intros (x & H & _); discriminate H).
    all: try (intros (m & i & s & H); discriminate H).
Qed.

Lemma assertSuspendedCannotMutate_agrees_witness :
  raisesViolation
    (assertSuspendedCannotMutate
       (sampleWorld (with_status SUSPENDED None sampleAccount) [] []) byOrganization)
    "SUSPENDED_MUTATION".
Proof.
  destruct (assertSuspendedCannotMutate_agrees
              (sampleWorld (with_status SUSPENDED None sampleAccount) [] [])
              byOrganization) as (H & _).
  apply H; do 3 eexists; reflexivity.
Defined.

(** Only violations leave [assertInvoiceUsageImmutable]. *)
Lemma assertInvoiceUsageImmutable_raises (invoices : list Invoice) (w : World)
    (invoiceId : string) (t : Thrown) :
  assertInvoiceUsageImmutable invoices w invoiceId = Raised t ->
  exists v, t = Violation v.
Proof.
  unfold assertInvoiceUsageImmutable.
  destruct (getDocument invoices invoiceId) as [invoice|e]; simpl.
  - destruct (truthy (aggregationSnapshotId invoice)); simpl.
    + destruct (getDocument (usage_aggregations w) _) as [aggregation|e]; simpl.
      * destruct (isFinalized aggregation); simpl; [discriminate|].
        intro H; injection H as <-; eexists; reflexivity.
      * intro H; injection H as <-; eexists; reflexivity.
    + intro H; injection H as <-; eexists; reflexivity.
  - intro H; injection H as <-; eexists; reflexivity.
Qed.

Lemma assertInvoiceUsageImmutable_done (invoices : list Invoice) (w : World)
    (invoiceId : string) :
  assertInvoiceUsageImmutable invoices w invoiceId = Done tt
  <-> exists invoice aggregation,
        getDocument invoices invoiceId = OK invoice
        /\ truthy (aggregationSnapshotId invoice) = true
        /\ getDocument (usage_aggregations w) (str_of (aggregationSnapshotId invoice))
           = OK aggregation
        /\ isFinalized aggregation = true.
Proof.
  unfold assertInvoiceUsageImmutable.
  destruct (getDocument invoices invoiceId) as [invoice|e]; simpl.
  - destruct (truthy (aggregationSnapshotId invoice)) eqn:T; simpl.
    + destruct (getDocument (usage_aggregations w) _) as [aggregation|e] eqn:G; simpl.
      * destruct (isFinalized aggregation) eqn:F; simpl.
        -- split; [intros _; exists invoice, aggregation; tauto | reflexivity].
        -- split; [discriminate|].
           intros (i & g & Hi & _ & Hg & Hf).
           injection Hi as <-; rewrite G in Hg; injection Hg as <-; congruence.
      * split; [discriminate|].
        intros (i & g & Hi & _ & Hg & _).
        injection Hi as <-; rewrite G in Hg; discriminate Hg.
    + split; [discriminate|].
      intros (i & g & Hi & Ht & _); injection Hi as <-; congruence.
  - split; [discriminate | intros (i & g & Hi & _); discriminate Hi].
Qed.

(** X18. [assertInvoiceUsageImmutable] returns exactly when the invoice is
    stored, names a snapshot, and that aggregation is stored and
    finalized.  Otherwise it raises an InvariantViolationError and nothing
    else: INVOICE_USAGE_LINK for an invoice without snapshot,
    INVOICE_USAGE_IMMUTABLE for a snapshot that is not finalized, and
    INVOICE_USAGE_CHECK_FAILED when the invoice or the aggregation cannot
    be read. *)
Theorem assertInvoiceUsageImmutable_outcome (invoices : list Invoice) (w : World)
    (invoiceId : string) :
  (assertInvoiceUsageImmutable invoices w invoiceId = Done tt
   <-> exists invoice aggregation,
         getDocument invoices invoiceId = OK invoice
         /\ truthy (aggregationSnapshotId invoice) = true
         /\ getDocument (usage_aggregations w) (str_of (aggregationSnapshotId invoice))
            = OK aggregation
         /\ isFinalized aggregation = true)
  /\ (forall t, assertInvoiceUsageImmutable invoices w invoiceId = Raised t ->
        exists v, t = Violation v)
  /\ (throws (getDocument invoices invoiceId) ->
        raisesViolation (assertInvoiceUsageImmutable invoices w invoiceId)
          "INVOICE_USAGE_CHECK_FAILED")
  /\ (forall invoice, getDocument invoices invoiceId = OK invoice ->
        (truthy (aggregationSnapshotId invoice) = false ->
           raisesViolation (assertInvoiceUsageImmutable invoices w invoiceId)
             "INVOICE_USAGE_LINK")
        /\ (truthy (aggregationSnapshotId invoice) = true ->
            throws (getDocument (usage_aggregations w)
                      (str_of (aggregationSnapshotId invoice))) ->
            raisesViolation (assertInvoiceUsageImmutable invoices w invoiceId)
              "INVOICE_USAGE_CHECK_FAILED")
        /\ (forall aggregation,
              truthy (aggregationSnapshotId invoice) = true ->
              getDocument (usage_aggregations w)
                (str_of (aggregationSnapshotId invoice)) = OK aggregation ->
              isFinalized aggregation = false ->
              raisesViolation (assertInvoiceUsageImmutable invoices w invoiceId)
                "INVOICE_USAGE_IMMUTABLE")).
Proof.
  split; [apply assertInvoiceUsageImmutable_done|].
  split; [apply assertInvoiceUsageImmutable_raises|].
  unfold assertInvoiceUsageImmutable, raisesViolation.
  split.
  - intros (e & ->); simpl; eexists; split; reflexivity.
  - intros invoice ->; simpl; split; [|split].
    + intros ->; simpl; eexists; split; reflexivity.
    + intros -> (e & ->); simpl; eexists; split; reflexivity.
    + intros aggregation Ht Hg Hf; rewrite Ht, Hg; simpl; rewrite Hf; simpl.
      eexists; split; reflexivity.
Qed.

Lemma assertInvoiceUsageImmutable_outcome_witness :
  raisesViolation
    (assertInvoiceUsageImmutable [sampleInvoice "inv-1" "PAID" (Some "agg-9")]
       (sampleWorld sampleAccount [] [sampleAggregation 0]) "inv-1")
    "INVOICE_USAGE_CHECK_FAILED".
Proof.
  destruct (assertInvoiceUsageImmutable_outcome
              [sampleInvoice "inv-1" "PAID" (Some "agg-9")]
              (sampleWorld sampleAccount [] [sampleAggregation 0]) "inv-1")
    as (_ & _ & _ & H).
  destruct (H (sampleInvoice "inv-1" "PAID" (Some "agg-9")) eq_refl) as (_ & Hmiss & _).
  apply Hmiss; [reflexivity | eexists; reflexivity].
Defined.

Lemma fold_checkInvoice (invoices : list Invoice) (w : World) (l : list Invoice)
    (acc : list InvariantViolationError) :
  fold_left (checkInvoice invoices w) l acc
  = (acc ++ flat_map (checkInvoice invoices w []) l)%list.
Proof.
  revert acc; induction l as [|i l IH]; intro acc; simpl.
  - rewrite app_nil_r; reflexivity.
  - rewrite IH.
    assert (H : checkInvoice invoices w acc i
                = (acc ++ checkInvoice invoices w [] i)%list).
    { unfold checkInvoice.
      destruct (truthy (aggregationSnapshotId i)); [|rewrite app_nil_r; reflexivity].
      destruct (assertInvoiceUsageImmutable invoices w (inv_id i)) as [u|[v|e]];
        simpl; try rewrite app_nil_r; reflexivity. }
    rewrite H, <- app_assoc; reflexivity.
Qed.

Lemma checkInvoice_clean (invoices : list Invoice) (w : World) (i : Invoice) :
  checkInvoice invoices w [] i = []
  <-> (truthy (aggregationSnapshotId i) = true ->
       assertInvoiceUsageImmutable invoices w (inv_id i) = Done tt).
Proof.
  unfold checkInvoice.
  destruct (truthy (aggregationSnapshotId i)); [|split; [discriminate | reflexivity]].
  destruct (assertInvoiceUsageImmutable invoices w (inv_id i)) as [[]|[v|e]] eqn:E.
  - split; reflexivity.
  - split; [discriminate | intro H; specialize (H eq_refl); discriminate H].
  - destruct (assertInvoiceUsageImmutable_raises invoices w _ _ E) as (v & Hv).
    discriminate Hv.
Qed.

Lemma flat_map_nil {A B : Type} (f : A -> list B) (l : list A) :
  flat_map f l = [] <-> forall x, In x l -> f x = [].
Proof.
  induction l as [|a l IH]; simpl.
  - split; [intros _ x [] | reflexivity].
  - split.
    + intros H x [<- | Hx].
      * apply app_eq_nil in H; tauto.
      * apply app_eq_nil in H; apply IH; tauto.
    + intro H; rewrite (H a (or_introl eq_refl)); simpl.
      apply IH; intros x Hx; apply H; right; exact Hx.
Qed.

(** X19. [runBillingInvariantChecks] passes exactly when every invoice it
    looks at (the first 100 of the account) that names a snapshot satisfies
    [assertInvoiceUsageImmutable]; invoices without a snapshot are skipped,
    although [assertInvoiceUsageImmutable] itself rejects them. *)
Theorem runBillingInvariantChecks_passed (invoices : list Invoice) (w : World)
    (billingAccountId : string) :
  (passed (runBillingInvariantChecks invoices w billingAccountId) = true
   <-> violations (runBillingInvariantChecks invoices w billingAccountId) = [])
  /\ (passed (runBillingInvariantChecks invoices w billingAccountId) = true
      <-> forall invoice,
            In invoice (listedInvoices invoices billingAccountId) ->
            truthy (aggregationSnapshotId invoice) = true ->
            assertInvoiceUsageImmutable invoices w (inv_id invoice) = Done tt).
Proof.
  unfold runBillingInvariantChecks, listDocuments; cbn [passed violations documents].
  fold (listedInvoices invoices billingAccountId).
  rewrite fold_checkInvoice; cbn [app].
  assert (Hlen : forall l : list InvariantViolationError,
             (List.length l =? 0)%nat = true <-> l = []).
  { intros [|x l]; simpl; split; congruence. }
  split; [apply Hlen|].
  rewrite Hlen, flat_map_nil.
  split; intros H invoice Hin.
  - apply checkInvoice_clean, H, Hin.
  - apply checkInvoice_clean, H, Hin.
Qed.

Lemma runBillingInvariantChecks_passed_witness :
  passed (runBillingInvariantChecks [sampleInvoice "inv-1" "PAID" None]
            (sampleWorld sampleAccount [] []) "acct-1") = true
  /\ raisesViolation
       (assertInvoiceUsageImmutable [sampleInvoice "inv-1" "PAID" None]
          (sampleWorld sampleAccount [] []) "inv-1")
       "INVOICE_USAGE_LINK".
Proof.
  split.
  - apply (runBillingInvariantChecks_passed [sampleInvoice "inv-1" "PAID" None]
             (sampleWorld sampleAccount [] []) "acct-1").
    intros invoice [<- | []] Hsnap; discriminate Hsnap.
  - eexists; split; reflexivity.
Defined.

(** X20. [assertAggregationNotFinalized] raises
    FINALIZED_AGGREGATION_MODIFICATION exactly when the aggregation is
    stored and finalized; in every other case, a missing aggregation
    included, it returns. *)
Theorem assertAggregationNotFinalized_outcome (w : World) (aggregationId : string) :
  (raisesViolation (assertAggregationNotFinalized w aggregationId)
     "FINALIZED_AGGREGATION_MODIFICATION"
   <-> exists aggregation,
         getDocument (usage_aggregations w) aggregationId = OK aggregation
         /\ isFinalized aggregation = true)
  /\ (assertAggregationNotFinalized w aggregationId = Done tt
      \/ raisesViolation (assertAggregationNotFinalized w aggregationId)
           "FINALIZED_AGGREGATION_MODIFICATION")
  /\ (throws (getDocument (usage_aggregations w) aggregationId) ->
      assertAggregationNotFinalized w aggregationId = Done tt).
Proof.
  unfold assertAggregationNotFinalized, raisesViolation.
  destruct (getDocument (usage_aggregations w) aggregationId) as [aggregation|e];
    simpl.
  - destruct (isFinalized aggregation) eqn:F; simpl; (split; [|split]).
    + split; [intros _; exists aggregation; split; [reflexivity | exact F]|].
      intros _; eexists; split; reflexivity.
    + right; eexists; split; reflexivity.
    + intros (x & H); discriminate H.
    + split; [intros (v & H & _); discriminate H|].
      intros (g & Hg & Hf); injection Hg as <-; congruence.
    + left; reflexivity.
    + intros (x & H); discriminate H.
  - assert (Hdone : (if str_includes "not found" (errorString e)
                     then Done tt else Done tt) = Done tt :> Outcome unit)
      by (destruct (str_includes "not found" (errorString e)); reflexivity).
    rewrite Hdone; split; [|split].
    + split; [intros (v & H & _); discriminate H | intros (g & H & _); discriminate H].
    + left; reflexivity.
    + reflexivity.
Qed.

Lemma assertAggregationNotFinalized_outcome_witness :
  assertAggregationNotFinalized (sampleWorld sampleAccount [] []) "agg-1" = Done tt
  /\ raisesViolation
       (assertAggregationNotFinalized
          (sampleWorld sampleAccount [] [sampleAggregation 0]) "agg-1")
       "FINALIZED_AGGREGATION_MODIFICATION".
Proof.
  split.
  - destruct (assertAggregationNotFinalized_outcome
                (sampleWorld sampleAccount [] []) "agg-1") as (_ & _ & H).
    apply H; eexists; reflexivity.
  - destruct (assertAggregationNotFinalized_outcome
                (sampleWorld sampleAccount [] [sampleAggregation 0]) "agg-1")
      as (H & _).
    apply H; eexists; split; reflexivity.
Defined.

(** X21. [checkInvariant] throws only in development or test mode, and
    there exactly when the condition is false.  [checkInvariantAsync] does
    the same with the answer of its condition function, a failing function
    counting as false, with one exception: an InvariantViolationError
    thrown by the condition function itself is rethrown in every mode,
    production included. *)
Theorem checkInvariantAsync_outcome (NODE_ENV : option string)
    (conditionFn : unit -> Outcome bool) (invariant : string)
    (getMessage : unit -> string) :
  (forall condition t,
      checkInvariant NODE_ENV condition invariant getMessage = Raised t
      <-> condition = false /\ isDevelopment NODE_ENV = true
          /\ t = Violation (newViolation invariant (getMessage tt)))
  /\ (forall v, conditionFn tt = Raised (Violation v) ->
        checkInvariantAsync NODE_ENV conditionFn invariant getMessage
        = Raised (Violation v))
  /\ (isDevelopment NODE_ENV = false ->
      forall t,
        checkInvariantAsync NODE_ENV conditionFn invariant getMessage = Raised t
        <-> conditionFn tt = Raised t /\ exists v, t = Violation v)
  /\ (isDevelopment NODE_ENV = true ->
      (checkInvariantAsync NODE_ENV conditionFn invariant getMessage = Done tt
       <-> conditionFn tt = Done true))
  /\ (forall t,
        checkInvariantAsync NODE_ENV conditionFn invariant getMessage = Raised t ->
        exists v, t = Violation v).
Proof.
  unfold checkInvariantAsync, checkInvariant.
  split; [|split; [|split; [|split]]].
  - intros condition t; destruct condition; destruct (isDevelopment NODE_ENV); split.
    all: try discriminate.
    all: try (intros (H1 & H2 & _); discriminate).
    + intro H; injection H as <-; repeat split.
    + intros (_ & _ & ->); reflexivity.
  - intros v ->; reflexivity.
  - intros Hprod t; rewrite Hprod.
    destruct (conditionFn tt) as [[|]|[v|e]]; simpl; split.
    all: try discriminate.
    all: try (intros (H & _); discriminate H).
    + intro H; injection H as <-; split; [reflexivity | eexists; reflexivity].
    + intros (H & _); injection H as <-; reflexivity.
    + intros (H & v & ->); discriminate H.
  - intros Hdev; rewrite Hdev.
    destruct (conditionFn tt) as [[|]|[v|e]]; simpl; split;
      try discriminate; reflexivity.
  - intro t.
    destruct (conditionFn tt) as [[|]|[v|e]]; simpl;
      destruct (isDevelopment NODE_ENV); try discriminate.
    all: intro H; injection H as <-; eexists; reflexivity.
Qed.

Lemma checkInvariantAsync_outcome_witness :
  checkInvariantAsync (Some "production") violatingCondition "BILLING_GUARD"
    (fun _ => "guard failed")
  = Raised (Violation (newViolation "SUSPENDED_MUTATION" "from the condition")).
Proof.
  destruct (checkInvariantAsync_outcome (Some "production") violatingCondition
              "BILLING_GUARD" (fun _ => "guard failed")) as (_ & H & _).
  apply H; reflexivity.
Defined.

Lemma no_match_total {A : Type} (p : A -> bool) (l : list A) :
  (0 <? List.length (filter p l))%nat = false <-> forall x, In x l -> p x = false.
Proof.
  induction l as [|a l IH]; simpl.
  - split; [intros _ x [] | reflexivity].
  - destruct (p a) eqn:E; simpl.
    + split; [discriminate|].
      intro H; specialize (H a (or_introl eq_refl)); congruence.
    + rewrite IH; split.
      * intros H x [<- | Hx]; [exact E | apply H, Hx].
      * intros H x Hx; apply H; right; exact Hx.
Qed.

(** X22. [assertNoUsageDuringSuspension] throws nothing but
    USAGE_DURING_SUSPENSION.  It returns when the account cannot be read or
    names neither an organisation nor a user; otherwise it returns exactly
    when no stored usage event lies between [suspendedAt] and the end time
    ([restoredAt], or the clock when that is unset or empty) with the
    entity's id in its metadata. *)
Theorem assertNoUsageDuringSuspension_outcome (rt : Runtime) (attrs : Attributes)
    (now : Z) (w : World) (billingAccountId suspendedAt : string)
    (restoredAt : option string) :
  (throws (getDocument (billing_accounts w) billingAccountId) ->
     assertNoUsageDuringSuspension rt attrs now w billingAccountId suspendedAt restoredAt
     = Done tt)
  /\ (forall t,
        assertNoUsageDuringSuspension rt attrs now w billingAccountId suspendedAt
          restoredAt = Raised t ->
        exists v, t = Violation v /\ invariant v = "USAGE_DURING_SUSPENSION")
  /\ (forall account,
        getDocument (billing_accounts w) billingAccountId = OK account ->
        let entityId := opt_or (acct_organizationId account) (acct_userId account) in
        let endTime := if truthy restoredAt then str_of restoredAt else isoString now in
        assertNoUsageDuringSuspension rt attrs now w billingAccountId suspendedAt
          restoredAt = Done tt
        <-> (truthy entityId = false
             \/ forall e, In e (usage_events w) ->
                          suspensionQuery rt attrs suspendedAt endTime (str_of entityId) e
                          = false)).
Proof.
  unfold assertNoUsageDuringSuspension.
  split; [|split].
  - intros (e & ->); reflexivity.
  - intro t.
    destruct (getDocument (billing_accounts w) billingAccountId) as [account|e];
      simpl; [|discriminate].
    destruct (truthy (opt_or _ _)); simpl; [|discriminate].
    unfold listDocuments; cbn [total].
    destruct (0 <? _)%nat; simpl; [|discriminate].
    intro H; injection H as <-; eexists; split; reflexivity.
  - intros account ->; simpl.
    destruct (truthy (opt_or _ _)) eqn:T; simpl.
    + unfold listDocuments; cbn [total].
      destruct (0 <? _)%nat eqn:E; simpl.
      * split; [discriminate|].
        intros [H | H]; [discriminate H|].
        apply no_match_total in H; congruence.
      * split; [|reflexivity].
        intros _; right; apply no_match_total, E.
    + split; [intros _; left; reflexivity | reflexivity].
Qed.

Lemma assertNoUsageDuringSuspension_outcome_witness :
  assertNoUsageDuringSuspension iso_runtime sampleAttributes midJanuary
    (sampleWorld sampleAccount [] []) "acct-9" "2024-01-01T00:00:00.000Z" None
  = Done tt.
Proof.
  destruct (assertNoUsageDuringSuspension_outcome iso_runtime sampleAttributes
              midJanuary (sampleWorld sampleAccount [] []) "acct-9"
              "2024-01-01T00:00:00.000Z" None) as (H & _).
  apply H; eexists; reflexivity.
Defined.

Example usage_during_suspension_found :
  raisesViolation
    (assertNoUsageDuringSuspension iso_runtime sampleAttributes midJanuary
       (computeWorld (with_status SUSPENDED None sampleAccount)
          "2024-01-10T00:00:00.000Z" [])
       "acct-1" "2024-01-05T00:00:00.000Z" (Some ""))
    "USAGE_DURING_SUSPENSION".
Proof. eexists; split; vm_compute; reflexivity. Qed.

Lemma countViolations_from {A : Type} (violating : A -> bool) (l : list A) (n : nat) :
  fold_left (fun count x => if violating x then S count else count) l n
  = (n + countViolations violating l)%nat.
Proof.
  unfold countViolations; revert n; induction l as [|a l IH]; intro n; simpl.
  - lia.
  - rewrite IH, (IH (if violating a then 1%nat else 0%nat)).
    destruct (violating a); lia.
Qed.

Lemma countViolations_zero {A : Type} (violating : A -> bool) (l : list A) :
  (countViolations violating l =? 0)%nat = true
  <-> forall x, In x l -> violating x = false.
Proof.
  rewrite Nat.eqb_eq.
  induction l as [|a l IH].
  - split; [intros _ x [] | reflexivity].
  - unfold countViolations; cbn [fold_left].
    rewrite countViolations_from.
    destruct (violating a) eqn:E.
    + split; [lia|].
      intro H; specialize (H a (or_introl eq_refl)); congruence.
    + simpl; rewrite IH; split.
      * intros H x [<- | Hx]; [exact E | apply H, Hx].
      * intros H x Hx; apply H; right; exact Hx.
Qed.

Lemma snapshotNotFinalized_false (w : World) (invoice : Invoice) :
  snapshotNotFinalized w invoice = false
  <-> (truthy (aggregationSnapshotId invoice) = true ->
       exists aggregation,
         getDocument (usage_aggregations w) (str_of (aggregationSnapshotId invoice))
         = OK aggregation
         /\ isFinalized aggregation = true).
Proof.
  unfold snapshotNotFinalized.
  destruct (truthy (aggregationSnapshotId invoice)); simpl.
  - destruct (getDocument (usage_aggregations w) _) as [g|e].
    + destruct (isFinalized g) eqn:F; simpl.
      * split; [intros _ _; exists g; split; [reflexivity | exact F] | reflexivity].
      * split; [discriminate|].
        intro H; destruct (H eq_refl) as (g' & Hg & Hf).
        injection Hg as <-; congruence.
    + split; [discriminate|].
      intro H; destruct (H eq_refl) as (g' & Hg & _); discriminate Hg.
  - split; [intros _ H; discriminate H | reflexivity].
Qed.

Lemma lockIsStale_false (rt : Runtime) (now : Z) (a : BillingAccount) :
  lockIsStale rt now a = false
  <-> (forall s t, billingCycleLockedAt a = Some s -> s <> "" ->
                   Date_parse rt s = Some t -> now - t <= staleThreshold).
Proof.
  unfold lockIsStale.
  destruct (billingCycleLockedAt a) as [s|]; simpl.
  - destruct (String.eqb s "") eqn:E; simpl.
    + apply String.eqb_eq in E; subst s.
      split; [intros _ s t Hs Hne; injection Hs as <-; contradiction | reflexivity].
    + apply String.eqb_neq in E.
      destruct (Date_parse rt s) as [t|] eqn:P.
      * rewrite Z.ltb_ge; split.
        -- intros H s' t' Hs _ Ht; injection Hs as <-.
           rewrite P in Ht; injection Ht as <-; exact H.
        -- intro H; apply (H s t eq_refl E P).
      * split; [|reflexivity].
        intros _ s' t' Hs _ Ht; injection Hs as <-; congruence.
  - split; [intros _ s t Hs; discriminate Hs | reflexivity].
Qed.

(** X23. [runCriticalInvariantChecks] reports its three checks in a fixed
    order, and all pass exactly when: no listed suspended account has a
    usage event created since its last update; every listed PAID invoice
    that names a snapshot references a stored, finalized aggregation; and
    no listed locked account has a readable lock time more than 30 minutes
    old (a lock without a readable time is never stale). *)
Theorem critical_checks_all_passed (rt : Runtime) (attrs : Attributes) (now : Z)
    (invoices : list Invoice) (w : World) :
  map check (results (runCriticalInvariantChecks rt attrs now invoices w))
  = ["NO_USAGE_DURING_SUSPENSION"; "PAID_INVOICES_FINALIZED"; "NO_STALE_CYCLE_LOCKS"]
  /\ (allPassed (runCriticalInvariantChecks rt attrs now invoices w) = true
      <-> (forall a, In a (listedSuspended w) ->
                     usageSinceSuspension rt attrs w a = false)
          /\ (forall i, In i (listedPaid invoices) ->
                truthy (aggregationSnapshotId i) = true ->
                exists aggregation,
                  getDocument (usage_aggregations w) (str_of (aggregationSnapshotId i))
                  = OK aggregation
                  /\ isFinalized aggregation = true)
          /\ (forall a s t, In a (listedLocked w) ->
                billingCycleLockedAt a = Some s -> s <> "" ->
                Date_parse rt s = Some t -> now - t <= staleThreshold)).
Proof.
  split; [reflexivity|].
  unfold runCriticalInvariantChecks; cbn [allPassed forallb].
  unfold checkNoUsageDuringSuspension, checkPaidInvoicesFinalized,
    checkNoStaleCycleLocks, listDocuments; cbn [check_passed documents].
  fold (listedSuspended w) (listedPaid invoices) (listedLocked w).
  rewrite andb_true_r, !andb_true_iff, !countViolations_zero.
  split.
  - intros (H1 & H2 & H3); split; [exact H1|]; split.
    + intros i Hi; apply snapshotNotFinalized_false, H2, Hi.
    + intros a s t Ha; apply (proj1 (lockIsStale_false rt now a)), H3, Ha.
  - intros (H1 & H2 & H3); split; [exact H1|]; split.
    + intros i Hi; apply snapshotNotFinalized_false, H2, Hi.
    + intros a Ha; apply lockIsStale_false; intros s t; apply H3, Ha.
Qed.

Lemma critical_checks_all_passed_witness :
  exists t, Date_parse iso_runtime "2024-02-01T00:00:05.000Z" = Some t
            /\ midJanuary - t <= staleThreshold.
Proof.
  destruct (critical_checks_all_passed iso_runtime sampleAttributes midJanuary []
              (sampleWorld lockedAccount [] [])) as (_ & H).
  assert (Hall : allPassed (runCriticalInvariantChecks iso_runtime sampleAttributes
                              midJanuary [] (sampleWorld lockedAccount [] [])) = true)
    by (vm_compute; reflexivity).
  destruct (proj1 H Hall) as (_ & _ & Hlocks).
  exists 1706745605000; split; [vm_compute; reflexivity|].
  apply (Hlocks lockedAccount "2024-02-01T00:00:05.000Z").
  - left; reflexivity.
  - reflexivity.
  - discriminate.
  - vm_compute; reflexivity.
Defined.

(** A lock of 14 January is stale on 15 January. *)
Example stale_lock_reported :
  map check_passed
    (results (runCriticalInvariantChecks iso_runtime sampleAttributes midJanuary []
                (sampleWorld (with_lock true (Some "2024-01-14T12:00:00Z") sampleAccount)
                   [] [])))
  = [true; true; false].
Proof. vm_compute; reflexivity. Qed.

(** ** Reconciliation at the edges *)







(** ** Current month usage, continued *)



Lemma filter_andb {A : Type} (p q : A -> bool) (l : list A) :
  filter (fun x => p x && q x) l = filter q (filter p l).
Proof.
  induction l as [|a l IH]; simpl; [reflexivity|].
  destruct (p a); simpl; [|exact IH].
  destruct (q a); rewrite IH; reflexivity.
Qed.

(** X27. [getCurrentMonthUsage] depends on the stored usage events only
    through those of the workspace and resource type it is asked about:
    two stores that hold the same events for them, in the same order, give
    the same answer, whatever else they hold. *)
Theorem getCurrentMonthUsage_isolated (rt : Runtime) (now : Z) (w : World)
    (workspaceId : string) (resourceType : ResourceType)
    (events events' : list UsageEvent) :
  eventsOf workspaceId resourceType events = eventsOf workspaceId resourceType events' ->
  getCurrentMonthUsage rt now (set_usage_events w events) workspaceId resourceType
  = getCurrentMonthUsage rt now (set_usage_events w events') workspaceId resourceType.
Proof.
  intro Hsame.
  unfold getCurrentMonthUsage.
  destruct (toISOString (Date_of_fields rt (getFullYear rt now) (getMonth rt now) 1))
    as [startOfMonth|e]; [|reflexivity].
  destruct (toISOString (Date_of_fields rt (getFullYear rt now) (getMonth rt now + 1) 0))
    as [endOfMonth|e]; [|reflexivity].
  unfold bind, listDocuments; cbn [documents usage_events set_usage_events].
  assert (Hsplit : forall l,
             filter (currentMonthQuery rt workspaceId resourceType
                       startOfMonth endOfMonth) l
             = filter (fun e => greaterThanEqual rt (ev_timestamp e) startOfMonth
                                && lessThanEqual rt (ev_timestamp e) endOfMonth)
                      (eventsOf workspaceId resourceType l)).
  { intro l; unfold eventsOf; rewrite <- filter_andb.
    apply filter_ext; intro e; unfold currentMonthQuery.
    rewrite <- !andb_assoc; reflexivity. }
  rewrite !Hsplit, Hsame; reflexivity.
Qed.

Lemma getCurrentMonthUsage_isolated_witness :
  getCurrentMonthUsage iso_runtime midJanuary
    (set_usage_events (sampleWorld sampleAccount [] [])
       [sampleEvent "ev-1" TRAFFIC 1048576 "2024-01-10T00:00:00.000Z";
        sampleEvent "ev-2" COMPUTE 5 "2024-01-11T00:00:00.000Z"])
    "ws-1" COMPUTE
  = getCurrentMonthUsage iso_runtime midJanuary
      (set_usage_events (sampleWorld sampleAccount [] [])
         [sampleEvent "ev-2" COMPUTE 5 "2024-01-11T00:00:00.000Z"])
      "ws-1" COMPUTE.
Proof.
  apply (getCurrentMonthUsage_isolated iso_runtime midJanuary
           (sampleWorld sampleAccount [] []) "ws-1" COMPUTE).
  reflexivity.
Defined.

(** ** Alert evaluation, continued *)

(** X28. For an account that is not suspended and a month's usage [u] that
    could be read, [evaluateAlert] reports [currentUsage = u] and triggers
    exactly when [u] reaches the threshold; below the threshold nothing is
    sent, no error is reported and the world is left as it was. *)
Theorem evaluateAlert_threshold (rt : Runtime) (now : Z) (alert : UsageAlert)
    (w : World) (u : Q) :
  isSuspended (getBillingAccount w (workspaceLookup (alert_workspaceId alert))) = false ->
  getCurrentMonthUsage rt now w (alert_workspaceId alert) (alert_resourceType alert)
  = OK u ->
  currentUsage (snd (evaluateAlert rt now alert w)) = u
  /\ (triggered (snd (evaluateAlert rt now alert w)) = true
      <-> (threshold alert <= u)%Q)
  /\ (~ (threshold alert <= u)%Q ->
      fst (evaluateAlert rt now alert w) = w
      /\ notificationSent (snd (evaluateAlert rt now alert w)) = false
      /\ result_error (snd (evaluateAlert rt now alert w)) = None).
Proof.
  intros Hactive Husage.
  unfold evaluateAlert; rewrite Hactive, Husage.
  destruct (Qle_bool (threshold alert) u) eqn:E.
  - assert (Hle : (threshold alert <= u)%Q) by (apply Qle_bool_iff, E).
    assert (Hgoal : forall p : World * AlertEvaluationResult,
               currentUsage (snd p) = u -> triggered (snd p) = true ->
               currentUsage (snd p) = u
               /\ (triggered (snd p) = true <-> (threshold alert <= u)%Q)
               /\ (~ (threshold alert <= u)%Q ->
                   fst p = w /\ notificationSent (snd p) = false
                   /\ result_error (snd p) = None)).
    { intros p Hu Ht; split; [exact Hu|]; split; [tauto | intro H; contradiction]. }
    apply Hgoal.
    + destruct (alertType alert);
        unfold sendInAppNotification, sendWebhookNotification;
        try destruct (negb (truthy (webhookUrl alert)));
        try destruct (webhook_ok w _);
        cbn [fst snd];
        try destruct (updateDocument _ _ _); reflexivity.
    + destruct (alertType alert);
        unfold sendInAppNotification, sendWebhookNotification;
        try destruct (negb (truthy (webhookUrl alert)));
        try destruct (webhook_ok w _);
        cbn [fst snd];
        try destruct (updateDocument _ _ _); reflexivity.
  - cbn [fst snd set_currentUsage currentUsage triggered notificationSent result_error].
    split; [reflexivity|]; split.
    + split; [discriminate|].
      intro H; apply Qle_bool_iff in H; congruence.
    + intros _; repeat split.
Qed.

Lemma evaluateAlert_threshold_witness :
  triggered
    (snd (evaluateAlert iso_runtime midJanuary sampleAlert
            (computeWorld sampleAccount "2024-01-10T00:00:00.000Z" [sampleAlert])))
  = true.
Proof.
  destruct (evaluateAlert_threshold iso_runtime midJanuary sampleAlert
              (computeWorld sampleAccount "2024-01-10T00:00:00.000Z" [sampleAlert]) 5)
    as (_ & H & _).
  - reflexivity.
  - vm_compute; reflexivity.
  - apply H; vm_compute; discriminate.
Defined.

Lemma stamp_cases (alerts : list UsageAlert) (id stamp : string) :
  (exists a, getDocument alerts id = OK a
             /\ updateDocument alerts id (with_lastTriggeredAt stamp)
                = OK (map (patched id (with_lastTriggeredAt stamp)) alerts)
             /\ getDocument (map (patched id (with_lastTriggeredAt stamp)) alerts) id
                = OK (with_lastTriggeredAt stamp a))
  \/ (getDocument alerts id = Throw not_found
      /\ updateDocument alerts id (with_lastTriggeredAt stamp) = Throw not_found).
Proof.
  destruct (getDocument alerts id) as [a|e] eqn:Hget.
  - left; exists a; split; [reflexivity|].
    pose proof (updateDocument_found alerts id (with_lastTriggeredAt stamp) a Hget)
      as Hupd.
    split; [exact Hupd|].
    apply (getDocument_after_update alerts _ id (with_lastTriggeredAt stamp) a
             (fun x : UsageAlert => eq_refl (alert_id x)) Hget Hupd).
  - right; unfold getDocument in Hget; unfold updateDocument.
    destruct (find (has_id id) alerts); [discriminate|].
    injection Hget as <-; split; reflexivity.
Qed.

(** Every path through [evaluateAlert], as a case analysis. *)
Ltac evaluateAlert_cases alert w :=
  unfold evaluateAlert;
  destruct (isSuspended (getBillingAccount w (workspaceLookup (alert_workspaceId alert))));
  [ | destruct (getCurrentMonthUsage _ _ w (alert_workspaceId alert)
                  (alert_resourceType alert)) as [usage|error];
      [ destruct (Qle_bool (threshold alert) usage);
        [ destruct (alertType alert);
          unfold sendInAppNotification, sendWebhookNotification;
          try destruct (truthy (webhookUrl alert));
          try destruct (webhook_ok w (str_of (webhookUrl alert)))
        | ]
      | ] ].

(** X29. [evaluateAlert] writes only when it triggers, and stamps
    [lastTriggeredAt] only after a notification went out.  It never touches
    billing accounts, workspaces, usage events or aggregations; a result
    with [triggered: false] leaves the whole world unchanged; one with
    [notificationSent: false] leaves alerts and notifications unchanged;
    and one with [notificationSent: true] has [triggered: true], and the
    stored alert, if the store holds it, then carries the clock reading as
    [lastTriggeredAt] (if it does not, the result carries an error). *)
Theorem evaluateAlert_effects (rt : Runtime) (now : Z) (alert : UsageAlert)
    (w : World) :
  let w' := fst (evaluateAlert rt now alert w) in
  let r := snd (evaluateAlert rt now alert w) in
  (billing_accounts w' = billing_accounts w /\ workspaces w' = workspaces w
   /\ usage_events w' = usage_events w
   /\ usage_aggregations w' = usage_aggregations w)
  /\ (triggered r = false -> w' = w)
  /\ (notificationSent r = false ->
      usage_alerts w' = usage_alerts w /\ notifications w' = notifications w)
  /\ (notificationSent r = true ->
      triggered r = true
      /\ (forall a, getDocument (usage_alerts w) (alert_id alert) = OK a ->
            getDocument (usage_alerts w') (alert_id alert)
            = OK (with_lastTriggeredAt (isoString now) a)
            /\ result_error r = None)
      /\ (throws (getDocument (usage_alerts w) (alert_id alert)) ->
            usage_alerts w' = usage_alerts w
            /\ result_error r
               = Some "Document with the requested ID could not be found.")).
Proof.
  cbv zeta.
  pose proof (stamp_cases (usage_alerts w) (alert_id alert) (isoString now)) as Hstamp.
  evaluateAlert_cases alert w.
  all: cbn [negb fst snd usage_alerts add_notification add_webhook_post].
  (* a notification went out: the stamp follows *)
  all: try (destruct Hstamp as [(a & Hget & Hupd & Hback) | (Hget & Hupd)];
            (rewrite Hupd, Hget;
             cbn [fst snd set_usage_alerts usage_alerts billing_accounts workspaces
                    usage_events usage_aggregations add_notification add_webhook_post
                    set_notificationSent set_triggered set_currentUsage set_error
                    triggered notificationSent result_error];
             (split; [repeat split|]); (split; [discriminate|]);
             (split; [discriminate|]); intros _; (split; [reflexivity|]);
             (split;
              [ first [ intros a' Ha'; injection Ha' as <-;
                        split; [exact Hback | reflexivity]
                      | intros a' Ha'; discriminate Ha' ]
              | first [ intros (e & He); discriminate He
                      | intros _; split; reflexivity ] ]))).
  (* nothing went out *)
  all: cbn [set_notificationSent set_triggered set_currentUsage set_error
              triggered notificationSent result_error billing_accounts workspaces
              usage_events usage_aggregations notifications add_webhook_post].
  all: split; [repeat split|].
  all: split; [try (intros _; reflexivity); try discriminate|].
  all: split; [intros _; split; reflexivity | discriminate].
Qed.

Lemma evaluateAlert_effects_witness :
  usage_alerts
    (fst (evaluateAlert iso_runtime midJanuary webhookAlertWithoutUrl
            (computeWorld sampleAccount "2024-01-10T00:00:00.000Z"
               [webhookAlertWithoutUrl])))
  = [webhookAlertWithoutUrl]
  /\ triggered
       (snd (evaluateAlert iso_runtime midJanuary webhookAlertWithoutUrl
               (computeWorld sampleAccount "2024-01-10T00:00:00.000Z"
                  [webhookAlertWithoutUrl])))
     = true.
Proof.
  destruct (evaluateAlert_effects iso_runtime midJanuary webhookAlertWithoutUrl
              (computeWorld sampleAccount "2024-01-10T00:00:00.000Z"
                 [webhookAlertWithoutUrl])) as (_ & _ & Hquiet & _).
  split.
  - apply Hquiet; vm_compute; reflexivity.
  - vm_compute; reflexivity.
Defined.

Lemma evaluateAlert_alertId (rt : Runtime) (now : Z) (alert : UsageAlert) (w : World) :
  alertId (snd (evaluateAlert rt now alert w)) = alert_id alert.
Proof.
  evaluateAlert_cases alert w.
  all: cbn [negb fst snd]; try destruct (updateDocument _ _ _); reflexivity.
Qed.

Lemma evaluateAllAlerts_fold (rt : Runtime) (now : Z) (l : list UsageAlert)
    (w : World) (acc : list AlertEvaluationResult) :
  map alertId
    (snd (fold_left
            (fun '(w, results) alert =>
               if recentlyTriggered rt now alert then (w, results)
               else
                 let '(w, result) := evaluateAlert rt now alert w in
                 (w, (results ++ [result])%list))
            l (w, acc)))
  = (map alertId acc
     ++ map alert_id (filter (fun a => negb (recentlyTriggered rt now a)) l))%list.
Proof.
  revert w acc; induction l as [|a l IH]; intros w acc.
  - simpl; rewrite app_nil_r; reflexivity.
  - cbn [fold_left filter].
    destruct (recentlyTriggered rt now a); cbn [negb].
    + apply IH.
    + pose proof (evaluateAlert_alertId rt now a w) as Hid.
      destruct (evaluateAlert rt now a w) as [w1 r1]; cbn [snd] in Hid.
      rewrite IH, map_app; cbn [map]; rewrite Hid, <- app_assoc; reflexivity.
Qed.

Lemma recentlyTriggered_cooldown (rt : Runtime) (now : Z) (alert : UsageAlert)
    (s : string) (t : Z) :
  lastTriggeredAt alert = Some s -> s <> "" -> Date_parse rt s = Some t ->
  (recentlyTriggered rt now alert = true <-> now - t < 24 * msPerHour).
Proof.
  intros Hlast Hne Hparse.
  unfold recentlyTriggered.
  rewrite Hlast, (truthy_nonempty s Hne); cbn [str_of andb].
  rewrite Hparse, negb_true_iff.
  split.
  - intro H.
    destruct (Z_lt_le_dec (now - t) (24 * msPerHour)) as [Hlt | Hge]; [exact Hlt|].
    assert (Hq : Qle_bool 24 (inject_Z (now - t) / inject_Z (1000 * 60 * 60)) = true).
    { apply Qle_bool_iff; unfold Qle, Qdiv, Qmult, Qinv; simpl.
      unfold msPerHour in Hge; lia. }
    congruence.
  - intro Hlt.
    destruct (Qle_bool 24 (inject_Z (now - t) / inject_Z (1000 * 60 * 60))) eqn:E;
      [|reflexivity].
    apply Qle_bool_iff in E; unfold Qle, Qdiv, Qmult, Qinv in E; simpl in E.
    unfold msPerHour in Hlt; lia.
Qed.

(** X30. [evaluateAllAlerts] returns one result per alert it evaluates, in
    store order: the first 1000 enabled alerts except those in their
    cooldown.  An alert whose [lastTriggeredAt] reads as the instant [t] is
    in its cooldown exactly while less than 24 hours have passed since [t];
    one without a readable [lastTriggeredAt] never is. *)
Theorem evaluateAllAlerts_evaluates (rt : Runtime) (now : Z) (w : World) :
  map alertId (snd (evaluateAllAlerts rt now w))
  = map alert_id (alertsToEvaluate rt now w)
  /\ (forall alert s t,
        lastTriggeredAt alert = Some s -> s <> "" -> Date_parse rt s = Some t ->
        (recentlyTriggered rt now alert = true <-> now - t < 24 * msPerHour))
  /\ (forall alert,
        (lastTriggeredAt alert = None
         \/ (exists s, lastTriggeredAt alert = Some s /\ Date_parse rt s = None)) ->
        recentlyTriggered rt now alert = false).
Proof.
  split; [|split].
  - unfold evaluateAllAlerts, alertsToEvaluate, listDocuments; cbn [documents].
    rewrite evaluateAllAlerts_fold; reflexivity.
  - apply recentlyTriggered_cooldown.
  - intros alert [H | (s & Hs & Hp)]; unfold recentlyTriggered.
    + rewrite H; reflexivity.
    + rewrite Hs; cbn [str_of]; rewrite Hp; apply andb_false_r.
Qed.

Lemma evaluateAllAlerts_evaluates_witness :
  recentlyTriggered iso_runtime midJanuary
    (triggeredAt "alert-3" (Some "2024-01-15T02:00:00.000Z")) = true
  /\ recentlyTriggered iso_runtime midJanuary
       (triggeredAt "alert-4" (Some "2024-01-14T11:00:00.000Z")) = false.
Proof.
  destruct (evaluateAllAlerts_evaluates iso_runtime midJanuary
              (sampleWorld sampleAccount [] [])) as (_ & Hcool & _).
  split.
  - apply (Hcool _ "2024-01-15T02:00:00.000Z" (midJanuary - 10 * msPerHour)).
    + reflexivity.
    + discriminate.
    + vm_compute; reflexivity.
    + vm_compute; reflexivity.
  - destruct (recentlyTriggered iso_runtime midJanuary
                (triggeredAt "alert-4" (Some "2024-01-14T11:00:00.000Z"))) eqn:E;
      [|reflexivity].
    apply (Hcool _ "2024-01-14T11:00:00.000Z" (midJanuary - 25 * msPerHour)) in E.
    + vm_compute in E; discriminate E.
    + reflexivity.
    + discriminate.
    + vm_compute; reflexivity.
Defined.

(** Of three enabled alerts, the one triggered ten hours ago is skipped. *)
Example evaluateAllAlerts_cooldown :
  map alertId
    (snd (evaluateAllAlerts iso_runtime midJanuary
            (computeWorld sampleAccount "2024-01-10T00:00:00.000Z"
               [triggeredAt "alert-3" (Some "2024-01-15T02:00:00.000Z");
                triggeredAt "alert-4" (Some "2024-01-14T11:00:00.000Z");
                triggeredAt "alert-5" None])))
  = ["alert-4"; "alert-5"].
Proof. vm_compute; reflexivity. Qed.
